(** * sisinventario: the count-reconciliation core of [inventario.py]

    A shallow embedding of the parts of [inventario.py] that decide how a
    physical count is validated, stored, reconciled and aggregated:

    - [InputValidator] (validate_codigo, validate_cantidad);
    - the tables of [DBManager._create_tables] and the SQL statements the
      application issues on them;
    - the counting workflow of [InventarioApp]: [_buscar_producto],
      [_mostrar_conflicto_equipo], [_abrir_alta], [_pre_save],
      [_mostrar_dialogo_duplicado], [_guardar_conteo], [_limpiar_form];
    - the synchronisation pass: [_sync_loop], [_sync_update],
      [_sync_update_background], [_refresh_all];
    - the stock of a session: [Utils.calcular_stock_desde_excel],
      [VentanaNuevoCorte._save_corte], [VentanaActualizarStock];
    - the lists drawn from the cached data and from the search query:
      [_update_tabs_ui], [_filtrar_precalc], [_mk_row_clickable],
      [_filtrar_busqueda], [_mk_row_clickable_with_status];
    - the report: [_export_excel], [_pintar_diferencias_excel];
    - the table of teams: [VentanaEquipos._add_equipo], [_remove_equipo],
      [Utils.cargar_equipos_desde_excel], [_agregar_equipos_desde_excel];
    - the selection of lines: [VentanaMultiSelect], [_apply_filter].

    Conventions of the embedding.

    - Quantities.  The columns are DECIMAL(10,2) and the Python side uses
      [float]; a quantity is represented by the integer number of hundredths
      it denotes (12.50 units is [1250]).  Binary rounding of [float], inputs
      with more than two decimals and the range of the column are outside the
      model.
    - Percentages are exact rationals ([Q]); the formatting to one decimal
      done when a label is drawn is not modelled.
    - Time.  [NOW()] is a parameter [now] of the operation that reads it.
    - Text.  Strings are ASCII; comparison of codes in the store is byte
      equality (codes are upper-cased before they reach the store).
    - NULL.  The text columns and the foreign keys that may be NULL are
      options; [stock_sistema] and [conteo_fisico], which every write of
      the application fills, are plain numbers.
    - Dialogs.  The answer of the user to a yes/no box is an argument of the
      operation that opens the box; a window that stays open is recorded in
      the application state together with the values its buttons captured.
    - Threads.  The UI thread runs one callback at a time, so a callback is
      one step.  A synchronisation thread takes two steps (its queries; its
      publication and the release of the flag), which interleave freely
      with the callbacks of its client and with the other clients.  The
      thread that writes a count is run within the step that starts it.
    - Widgets.  Of the widgets only what a later decision reads is kept:
      the note entry, the KPI cards and the two cached lists.
    - Start-up.  A client starts with no session and no team; the team that
      [_load_initial_data] preselects is the event [EvSelectEquipo].
    - Workbooks.  A sheet is the list of its rows, reduced to the cells the
      code reads; a sheet that cannot be read, or lacks a column the code
      asks for, is [None].
    - Collations.  The LIKE of the search query and the equality of the
      UNIQUE index of the team names depend on the collation of the
      columns: they are parameters of the definitions that use them.
    - Order of rows.  A SELECT without ORDER BY returns the rows in the
      order of the table. *)

From Stdlib Require Import ZArith QArith List String Ascii Bool Lia.
Import ListNotations.

Close Scope Q_scope.
Local Open Scope string_scope.
Local Open Scope Z_scope.

(* ================================================================== *)
(** ** Python helpers *)

Module Py.

(** Characters removed by [str.strip()] among the ASCII ones: TAB..CR,
    FS..US and the space. *)
Definition is_space (c : ascii) : bool :=
  let n := Z.of_nat (nat_of_ascii c) in
  ((9 <=? n) && (n <=? 13)) || ((28 <=? n) && (n <=? 32)).

Fixpoint lstrip (s : string) : string :=
  match s with
  | EmptyString => EmptyString
  | String c s' => if is_space c then lstrip s' else s
  end.

Fixpoint rstrip (s : string) : string :=
  match s with
  | EmptyString => EmptyString
  | String c s' =>
      match rstrip s' with
      | EmptyString => if is_space c then EmptyString else String c EmptyString
      | t => String c t
      end
  end.

Definition strip (s : string) : string := rstrip (lstrip s).

Definition upper_char (c : ascii) : ascii :=
  let n := nat_of_ascii c in
  if ((97 <=? n) && (n <=? 122))%nat then ascii_of_nat (n - 32) else c.

Fixpoint upper (s : string) : string :=
  match s with
  | EmptyString => EmptyString
  | String c s' => String (upper_char c) (upper s')
  end.

(** [len(s)] *)
Definition len (s : string) : Z := Z.of_nat (String.length s).

(** Truth value of a string: [not s] holds for the empty string. *)
Definition truthy_str (s : string) : bool :=
  match s with EmptyString => false | _ => true end.

(** Truth value of an identifier that may be [None]: [None] and [0] are
    false. *)
Definition truthy_id (o : option Z) : bool :=
  match o with
  | None => false
  | Some z => negb (z =? 0)
  end.

(** [x or y] on strings. *)
Definition str_or (s d : string) : string := if truthy_str s then s else d.

(** [a != b] where [a] may be [None] and [b] is an integer. *)
Definition ne_opt (a : option Z) (b : option Z) : bool :=
  match a, b with
  | None, None => false
  | Some x, Some y => negb (x =? y)
  | _, _ => true
  end.

End Py.

(* ================================================================== *)
(** ** InputValidator *)

Module InputValidator.

(** The pair [(ok, value_or_message)] the validators return. *)
Inductive validacion (A : Type) : Type :=
| Valido (a : A)
| Invalido (msg : string).
Arguments Valido {A} a.
Arguments Invalido {A} msg.

Definition validate_codigo (codigo : string) : validacion string :=
  let codigo := Py.upper (Py.strip codigo) in
  if negb (Py.truthy_str codigo) then Invalido "Codigo vacio"
  else if Py.len codigo >? 50 then Invalido "Codigo muy largo"
  else Valido codigo.

(** What [float(cantidad_str.replace(',', '.'))] gives on the text of the
    quantity entry: a [ValueError], or a number (in hundredths). *)
Inductive entrada_cantidad : Type :=
| ValueError
| Flotante (c : Z).

(** 999999 units, in hundredths. *)
Definition CANTIDAD_MAXIMA : Z := 99999900.

Definition validate_cantidad (e : entrada_cantidad) : validacion Z :=
  match e with
  | Flotante cantidad =>
      if cantidad <? 0 then Invalido "Cantidad negativa"
      else if cantidad >? CANTIDAD_MAXIMA then Invalido "Cantidad muy grande"
      else Valido cantidad
  | ValueError => Invalido "Cantidad invalida"
  end.

End InputValidator.
Export InputValidator.

(* ================================================================== *)
(** ** DBManager: tables, statements and their execution *)

Module DBManager.

(** A row of [items_corte].  [diferencia] is the generated column
    [GENERATED ALWAYS AS (conteo_fisico - stock_sistema) VIRTUAL]: the
    engine evaluates the expression whenever the row is read; the model
    keeps its value in the row and re-evaluates it at every write of the
    row ([regenerar]). *)
Record item : Type := mk_item {
  id : Z;
  sesion_id : Z;
  codigo : string;
  producto : option string;
  linea : option string;
  stock_sistema : Z;
  conteo_fisico : Z;
  diferencia : Z;
  novedad : option string;
  fecha_conteo : option Z;
  ultimo_equipo_id : option Z
}.

(** A row of [equipos]. *)
Record equipo : Type := mk_equipo {
  equipo_id : Z;
  nombre_equipo : string;
  integrantes : option string;
  equipo_activo : bool
}.

(** The values of [tipo_accion] the application writes. *)
Inductive tipo_accion : Type := NUEVO | SUMA | REEMPLAZO.

(** A row of [historial_movimientos]. *)
Record movimiento : Type := mk_movimiento {
  mov_sesion_id : Z;
  item_codigo : string;
  mov_equipo_id : option Z;
  mov_tipo_accion : tipo_accion;
  cantidad_anterior : Z;
  cantidad_resultante : Z;
  fecha_movimiento : Z
}.

Record db : Type := mk_db {
  items_corte : list item;
  items_auto_increment : Z;
  equipos : list equipo;
  historial_movimientos : list movimiento
}.

(** One [column = value] of an INSERT or of the SET list of an UPDATE on
    [items_corte]. *)
Inductive asignacion : Type :=
| set_sesion_id (v : option Z)
| set_codigo (v : string)
| set_producto (v : option string)
| set_linea (v : option string)
| set_stock_sistema (v : Z)
| set_conteo_fisico (v : Z)
| set_diferencia (v : Z)
| set_novedad (v : option string)
| set_fecha_conteo_now
| set_ultimo_equipo_id (v : option Z).

Inductive statement : Type :=
| InsertItem (cols : list asignacion)
| UpdateItems (sets : list asignacion) (where_ : item -> bool)
| InsertMovimiento (sesion : option Z) (cod : string) (eq : option Z)
    (tipo : tipo_accion) (anterior resultante : Z).

Inductive db_error : Type :=
| ER_GENERATED_COLUMN     (* a value was given for a generated column *)
| ER_NO_DEFAULT           (* a NOT NULL column without default was left out *)
| ER_BAD_NULL.            (* NULL given for a NOT NULL column *)

Inductive resultado (A : Type) : Type :=
| Exito (a : A)
| Falla (e : db_error).
Arguments Exito {A} a.
Arguments Falla {A} e.

Definition es_generada (a : asignacion) : bool :=
  match a with set_diferencia _ => true | _ => false end.

Definition da_sesion_id (a : asignacion) : bool :=
  match a with set_sesion_id _ => true | _ => false end.

Definition da_codigo (a : asignacion) : bool :=
  match a with set_codigo _ => true | _ => false end.

(** NULL given to the NOT NULL column [sesion_id]. *)
Definition da_null_prohibido (a : asignacion) : bool :=
  match a with set_sesion_id None => true | _ => false end.

Definition asignar (now : Z) (r : item) (a : asignacion) : item :=
  match a with
  | set_sesion_id v =>
      mk_item (id r) (match v with Some s => s | None => sesion_id r end) (codigo r) (producto r) (linea r) (stock_sistema r)
        (conteo_fisico r) (diferencia r) (novedad r) (fecha_conteo r)
        (ultimo_equipo_id r)
  | set_codigo v =>
      mk_item (id r) (sesion_id r) v (producto r) (linea r) (stock_sistema r)
        (conteo_fisico r) (diferencia r) (novedad r) (fecha_conteo r)
        (ultimo_equipo_id r)
  | set_producto v =>
      mk_item (id r) (sesion_id r) (codigo r) v (linea r) (stock_sistema r)
        (conteo_fisico r) (diferencia r) (novedad r) (fecha_conteo r)
        (ultimo_equipo_id r)
  | set_linea v =>
      mk_item (id r) (sesion_id r) (codigo r) (producto r) v (stock_sistema r)
        (conteo_fisico r) (diferencia r) (novedad r) (fecha_conteo r)
        (ultimo_equipo_id r)
  | set_stock_sistema v =>
      mk_item (id r) (sesion_id r) (codigo r) (producto r) (linea r) v
        (conteo_fisico r) (diferencia r) (novedad r) (fecha_conteo r)
        (ultimo_equipo_id r)
  | set_conteo_fisico v =>
      mk_item (id r) (sesion_id r) (codigo r) (producto r) (linea r)
        (stock_sistema r) v (diferencia r) (novedad r) (fecha_conteo r)
        (ultimo_equipo_id r)
  | set_diferencia v =>
      mk_item (id r) (sesion_id r) (codigo r) (producto r) (linea r)
        (stock_sistema r) (conteo_fisico r) v (novedad r) (fecha_conteo r)
        (ultimo_equipo_id r)
  | set_novedad v =>
      mk_item (id r) (sesion_id r) (codigo r) (producto r) (linea r)
        (stock_sistema r) (conteo_fisico r) (diferencia r) v (fecha_conteo r)
        (ultimo_equipo_id r)
  | set_fecha_conteo_now =>
      mk_item (id r) (sesion_id r) (codigo r) (producto r) (linea r)
        (stock_sistema r) (conteo_fisico r) (diferencia r) (novedad r)
        (Some now) (ultimo_equipo_id r)
  | set_ultimo_equipo_id v =>
      mk_item (id r) (sesion_id r) (codigo r) (producto r) (linea r)
        (stock_sistema r) (conteo_fisico r) (diferencia r) (novedad r)
        (fecha_conteo r) v
  end.

(** Evaluation of the generated column. *)
Definition regenerar (r : item) : item :=
  mk_item (id r) (sesion_id r) (codigo r) (producto r) (linea r)
    (stock_sistema r) (conteo_fisico r) (conteo_fisico r - stock_sistema r)
    (novedad r) (fecha_conteo r) (ultimo_equipo_id r).

Definition escribir (now : Z) (sets : list asignacion) (r : item) : item :=
  regenerar (fold_left (asignar now) sets r).

(** The column defaults of the CREATE TABLE; [sesion_id] and [codigo] have
    none and must be given by the INSERT. *)
Definition fila_por_defecto (new_id : Z) : item :=
  mk_item new_id 0 "" None None 0 0 0 None None None.

Definition with_items (d : db) (l : list item) (auto : Z) : db :=
  mk_db l auto (equipos d) (historial_movimientos d).

(** [cursor.execute] followed by [commit]: the new store, or the error the
    connector raises (the store is then unchanged). *)
Definition exec (now : Z) (s : statement) (d : db) : resultado db :=
  match s with
  | InsertItem cols =>
      if existsb es_generada cols then Falla ER_GENERATED_COLUMN
      else if negb (existsb da_sesion_id cols && existsb da_codigo cols)
      then Falla ER_NO_DEFAULT
      else if existsb da_null_prohibido cols then Falla ER_BAD_NULL
      else
        Exito (with_items d
                 (items_corte d ++
                  [escribir now cols (fila_por_defecto (items_auto_increment d))])
                 (items_auto_increment d + 1))
  | UpdateItems sets where_ =>
      if existsb es_generada sets then Falla ER_GENERATED_COLUMN
      else if existsb da_null_prohibido sets then Falla ER_BAD_NULL
      else
        Exito (with_items d
                 (map (fun r => if where_ r then escribir now sets r else r)
                    (items_corte d))
                 (items_auto_increment d))
  | InsertMovimiento sesion cod eq tipo anterior resultante =>
      match sesion with
      | None => Falla ER_BAD_NULL
      | Some s =>
          Exito (mk_db (items_corte d) (items_auto_increment d) (equipos d)
                   (historial_movimientos d ++
                    [mk_movimiento s cod eq tipo anterior resultante now]))
      end
  end.

(** [WHERE sesion_id=%s AND codigo=%s]; a NULL parameter matches no row. *)
Definition where_sesion_codigo (sesion : option Z) (cod : string) (r : item) : bool :=
  match sesion with
  | None => false
  | Some s => (sesion_id r =? s) && String.eqb (codigo r) cod
  end.

Definition where_sesion (sesion : option Z) (r : item) : bool :=
  match sesion with
  | None => false
  | Some s => sesion_id r =? s
  end.

Definition where_id (i : Z) (r : item) : bool := id r =? i.

(** [LEFT JOIN equipos e ON i.ultimo_equipo_id = e.id]: the name of the
    team, NULL when there is none. *)
Definition join_nombre_equipo (d : db) (eq : option Z) : option string :=
  match eq with
  | None => None
  | Some e =>
      match find (fun t => equipo_id t =? e) (equipos d) with
      | Some t => Some (nombre_equipo t)
      | None => None
      end
  end.

(** [SELECT i.*, e.nombre_equipo FROM items_corte i LEFT JOIN equipos e ...
    WHERE i.sesion_id=%s AND i.codigo=%s] *)
Definition select_item (d : db) (sesion : option Z) (cod : string)
  : list (item * option string) :=
  map (fun r => (r, join_nombre_equipo d (ultimo_equipo_id r)))
    (filter (where_sesion_codigo sesion cod) (items_corte d)).

(** *** The statements of the application on [items_corte] and on
    [historial_movimientos] *)

(** [_guardar_conteo]:
    UPDATE items_corte SET conteo_fisico=%s, novedad=%s, fecha_conteo=NOW(),
    ultimo_equipo_id=%s WHERE sesion_id=%s AND codigo=%s *)
Definition sql_update_conteo (cant : Z) (nov : string) (eq sesion : option Z)
    (cod : string) : statement :=
  UpdateItems
    [set_conteo_fisico cant; set_novedad (Some nov); set_fecha_conteo_now;
     set_ultimo_equipo_id eq]
    (where_sesion_codigo sesion cod).

(** [_guardar_conteo]:
    INSERT INTO historial_movimientos (sesion_id, item_codigo, equipo_id,
    tipo_accion, cantidad_anterior, cantidad_resultante, fecha_movimiento)
    VALUES (%s, %s, %s, %s, %s, %s, NOW()) *)
Definition sql_insert_historial (sesion : option Z) (cod : string)
    (eq : option Z) (tipo : tipo_accion) (cant_ant cant : Z) : statement :=
  InsertMovimiento sesion cod eq tipo cant_ant cant.

(** [_abrir_alta.confirmar]:
    INSERT INTO items_corte (sesion_id, codigo, producto, linea,
    stock_sistema) VALUES (%s, %s, %s, %s, 0) *)
Definition sql_insert_extra (sesion : option Z) (cod nom lin : string)
  : statement :=
  InsertItem
    [set_sesion_id sesion; set_codigo cod; set_producto (Some nom);
     set_linea (Some lin); set_stock_sistema 0].

(** [VentanaNuevoCorte._save_corte]:
    INSERT INTO items_corte (sesion_id, codigo, producto, linea,
    stock_sistema) VALUES (%s,%s,%s,%s,%s) *)
Definition sql_insert_item_corte (sesion : Z) (cod nom lin : string)
    (stock : Z) : statement :=
  InsertItem
    [set_sesion_id (Some sesion); set_codigo cod; set_producto (Some nom);
     set_linea (Some lin); set_stock_sistema stock].

(** [VentanaActualizarStock]:
    UPDATE items_corte SET stock_sistema=%s WHERE id=%s *)
Definition sql_update_stock (stock : Z) (i : Z) : statement :=
  UpdateItems [set_stock_sistema stock] (where_id i).

(** The statements that write [items_corte] or [historial_movimientos],
    for every value of their parameters. *)
Inductive emitida : statement -> Prop :=
| emitida_update_conteo cant nov eq sesion cod :
    emitida (sql_update_conteo cant nov eq sesion cod)
| emitida_insert_historial sesion cod eq tipo cant_ant cant :
    emitida (sql_insert_historial sesion cod eq tipo cant_ant cant)
| emitida_insert_extra sesion cod nom lin :
    emitida (sql_insert_extra sesion cod nom lin)
| emitida_insert_item_corte sesion cod nom lin stock :
    emitida (sql_insert_item_corte sesion cod nom lin stock)
| emitida_update_stock stock i :
    emitida (sql_update_stock stock i).

(** The columns of [items_corte] a statement gives a value to. *)
Definition asignaciones (s : statement) : list asignacion :=
  match s with
  | InsertItem cols => cols
  | UpdateItems sets _ => sets
  | InsertMovimiento _ _ _ _ _ _ => []
  end.

(** A sequence of statements, stopped by the first error. *)
Fixpoint exec_todas (now : Z) (l : list statement) (d : db) : resultado db :=
  match l with
  | [] => Exito d
  | s :: l' =>
      match exec now s d with
      | Exito d' => exec_todas now l' d'
      | Falla e => Falla e
      end
  end.

(** The stores the application can produce from [d0]. *)
Inductive alcanzable (d0 : db) : db -> Prop :=
| alcanzable_inicio : alcanzable d0 d0
| alcanzable_exec now s d d' :
    alcanzable d0 d -> emitida s -> exec now s d = Exito d' ->
    alcanzable d0 d'.

(** The store after [_create_tables] on a new database. *)
Definition db_nueva : db := mk_db [] 1 [] [].

End DBManager.
Export DBManager.

(* ================================================================== *)
(** ** InventarioApp: state *)

Module InventarioApp.

(** [self.producto_actual] *)
Record producto_actual_t : Type := mk_producto_actual {
  pa_codigo : option string;
  pa_nombre : option string;
  pa_linea : option string;
  pa_stock : Z;
  pa_es_nuevo : bool
}.

(** The modal windows of the counting workflow, with the values captured by
    the closures of their buttons. *)
Inductive ventana_t : Type :=
| VentanaAlta (cod : string)
| VentanaDuplicado (cod : string) (cant_actual cant_nueva : Z)
    (equipo_nombre : string) (fecha : option Z).

(** The row returned by [q_kpis]. *)
Record kpis_t : Type := mk_kpis {
  total : Z;
  contados : Z;
  faltantes : Z;
  sobrantes : Z;
  exactos : Z
}.

(** The results of the three queries of one synchronisation pass (the
    fourth, which feeds the history panel, is not kept). *)
Record consulta_sync : Type := mk_consulta {
  kpis : kpis_t;
  data_pend : list (string * option string * Z);
  data_dif : list (string * option string * Z * Z)
}.

(** A live thread running [_sync_update_background]: started and not yet
    past its first test, or holding the result of its queries. *)
Inductive hilo_sync : Type :=
| Lanzado
| Consultado (c : consulta_sync).

(** The row of KPI cards built by [_create_kpi_cards]; the two percentages
    hold the number shown. *)
Record tarjetas_kpi : Type := mk_tarjetas {
  kpi_avance : Q;
  kpi_exactitud : Q;
  kpi_pendientes : Z;
  kpi_faltantes : Z;
  kpi_sobrantes : Z;
  kpi_total : Z
}.

Record app : Type := mk_app {
  app_sesion_id : option Z;
  app_equipo_id : option Z;
  filtro_lineas : list string;
  producto_actual : producto_actual_t;
  ventana_abierta : bool;
  ventana : option ventana_t;
  en_novedad : string;
  sync_counter : Z;
  sync_in_progress : bool;
  hilos_sync : list hilo_sync;
  data_pendientes : list (string * option string * Z);
  data_diferencias : list (string * option string * Z * Z);
  tarjetas : tarjetas_kpi
}.

(** [InventarioApp.__init__] and [_create_kpi_cards] *)
Definition app_inicial : app :=
  mk_app None None [] (mk_producto_actual None None None 0 false)
    false None "" 0 false [] [] []
    (mk_tarjetas (inject_Z 0) (inject_Z 0) 0 0 0 0).

Definition with_sesion (a : app) (s : option Z) (f : list string) : app :=
  mk_app s (app_equipo_id a) f (producto_actual a) (ventana_abierta a)
    (ventana a) (en_novedad a) (sync_counter a) (sync_in_progress a)
    (hilos_sync a) (data_pendientes a) (data_diferencias a) (tarjetas a).

Definition with_equipo (a : app) (e : option Z) : app :=
  mk_app (app_sesion_id a) e (filtro_lineas a) (producto_actual a)
    (ventana_abierta a) (ventana a) (en_novedad a) (sync_counter a)
    (sync_in_progress a) (hilos_sync a) (data_pendientes a)
    (data_diferencias a) (tarjetas a).

Definition with_producto (a : app) (p : producto_actual_t) : app :=
  mk_app (app_sesion_id a) (app_equipo_id a) (filtro_lineas a) p
    (ventana_abierta a) (ventana a) (en_novedad a) (sync_counter a)
    (sync_in_progress a) (hilos_sync a) (data_pendientes a)
    (data_diferencias a) (tarjetas a).

Definition with_ventana (a : app) (b : bool) (v : option ventana_t) : app :=
  mk_app (app_sesion_id a) (app_equipo_id a) (filtro_lineas a)
    (producto_actual a) b v (en_novedad a) (sync_counter a)
    (sync_in_progress a) (hilos_sync a) (data_pendientes a)
    (data_diferencias a) (tarjetas a).

Definition with_novedad (a : app) (n : string) : app :=
  mk_app (app_sesion_id a) (app_equipo_id a) (filtro_lineas a)
    (producto_actual a) (ventana_abierta a) (ventana a) n (sync_counter a)
    (sync_in_progress a) (hilos_sync a) (data_pendientes a)
    (data_diferencias a) (tarjetas a).

Definition with_sync_counter (a : app) (n : Z) : app :=
  mk_app (app_sesion_id a) (app_equipo_id a) (filtro_lineas a)
    (producto_actual a) (ventana_abierta a) (ventana a) (en_novedad a) n
    (sync_in_progress a) (hilos_sync a) (data_pendientes a)
    (data_diferencias a) (tarjetas a).

Definition with_sync (a : app) (b : bool) (h : list hilo_sync) : app :=
  mk_app (app_sesion_id a) (app_equipo_id a) (filtro_lineas a)
    (producto_actual a) (ventana_abierta a) (ventana a) (en_novedad a)
    (sync_counter a) b h (data_pendientes a) (data_diferencias a)
    (tarjetas a).

Definition with_datos (a : app) (p : list (string * option string * Z))
    (q : list (string * option string * Z * Z)) (t : tarjetas_kpi) : app :=
  mk_app (app_sesion_id a) (app_equipo_id a) (filtro_lineas a)
    (producto_actual a) (ventana_abierta a) (ventana a) (en_novedad a)
    (sync_counter a) (sync_in_progress a) (hilos_sync a) p q t.

(** What an operation shows or does towards the user. *)
Inductive salida : Type :=
| Ignorado                       (* returned at once, nothing shown *)
| Aviso (msg : string)           (* messagebox.showwarning *)
| ErrorBD (e : db_error)         (* messagebox.showerror on an exception *)
| ErrorTipo                      (* a TypeError, shown or logged by the caller *)
| Encontrado (conflicto : option (option string * Z * option Z))
| NoEncontrado (agregar : bool)
| AltaConfirmada
| DialogoDuplicado
| Guardado (tipo : tipo_accion) (cant : Z)
| Cerrado.

(* ------------------------------------------------------------------ *)
(** ** Synchronisation *)

(** [_sync_update] *)
Definition sync_update (a : app) : app :=
  if sync_in_progress a then a
  else with_sync a true (hilos_sync a ++ [Lanzado]).

(** [_refresh_all] *)
Definition refresh_all (a : app) : app :=
  sync_update (with_sync_counter a 2).

(** One wake-up of [_sync_loop] after its sleep. *)
Definition sync_loop_tick (a : app) : app :=
  if Py.truthy_id (app_sesion_id a) then sync_update a else a.

(** [AND linea IN (...)], present when [self.filtro_lineas] is not empty. *)
Definition en_filtro (filtro : list string) (r : item) : bool :=
  match filtro with
  | [] => true
  | _ =>
      match linea r with
      | Some l => existsb (String.eqb l) filtro
      | None => false
      end
  end.

Definition cuenta (f : item -> bool) (l : list item) : Z :=
  Z.of_nat (List.length (filter f l)).

(** [q_kpis] *)
Definition consulta_kpis (d : db) (sesion : option Z) (filtro : list string)
  : kpis_t :=
  let filas :=
    filter (fun r => where_sesion sesion r && en_filtro filtro r
                     && (stock_sistema r >? 0)) (items_corte d) in
  mk_kpis
    (Z.of_nat (List.length filas))
    (cuenta (fun r => conteo_fisico r >? 0) filas)
    (cuenta (fun r => (conteo_fisico r - stock_sistema r <? 0)
                      && (conteo_fisico r >? 0)) filas)
    (cuenta (fun r => conteo_fisico r - stock_sistema r >? 0) filas)
    (cuenta (fun r => (conteo_fisico r - stock_sistema r =? 0)
                      && (conteo_fisico r >? 0)) filas).

(** [q_pend], with its LIMIT 100 *)
Definition consulta_pendientes (d : db) (sesion : option Z)
    (filtro : list string) : list (string * option string * Z) :=
  map (fun r => (codigo r, producto r, stock_sistema r))
    (firstn 100
       (filter (fun r => where_sesion sesion r && (conteo_fisico r =? 0)
                         && (stock_sistema r >? 0) && en_filtro filtro r)
          (items_corte d))).

(** [q_dif], with its LIMIT 100 *)
Definition consulta_diferencias (d : db) (sesion : option Z)
    (filtro : list string) : list (string * option string * Z * Z) :=
  map (fun r => (codigo r, producto r, diferencia r, stock_sistema r))
    (firstn 100
       (filter (fun r => where_sesion sesion r && negb (diferencia r =? 0)
                         && (conteo_fisico r >? 0) && en_filtro filtro r)
          (items_corte d))).

Definition consultas (a : app) (d : db) : consulta_sync :=
  mk_consulta
    (consulta_kpis d (app_sesion_id a) (filtro_lineas a))
    (consulta_pendientes d (app_sesion_id a) (filtro_lineas a))
    (consulta_diferencias d (app_sesion_id a) (filtro_lineas a)).

(** [(n / m) * 100] *)
Definition porcentaje (n m : Z) : Q :=
  (inject_Z n / inject_Z m * inject_Z 100)%Q.

(** The updates of the KPI cards at the end of a pass. *)
Definition actualizar_tarjetas (t : tarjetas_kpi) (k : kpis_t) : tarjetas_kpi :=
  let avance := if total k >? 0 then porcentaje (contados k) (total k)
                else kpi_avance t in
  let pendientes := if total k >? 0 then total k - contados k
                    else kpi_pendientes t in
  let exactitud := if contados k >? 0 then porcentaje (exactos k) (contados k)
                   else kpi_exactitud t in
  mk_tarjetas avance exactitud pendientes (faltantes k) (sobrantes k) (total k).

Fixpoint quitar {A : Type} (i : nat) (l : list A) : list A :=
  match i, l with
  | _, [] => []
  | O, _ :: l' => l'
  | S i', x :: l' => x :: quitar i' l'
  end.

Fixpoint poner {A : Type} (i : nat) (y : A) (l : list A) : list A :=
  match i, l with
  | _, [] => []
  | O, _ :: l' => y :: l'
  | S i', x :: l' => x :: poner i' y l'
  end.

(** [_sync_update_background], run by thread [i] in two steps: the test of
    the session and the queries; then the publication and the release of
    the flag in [finally].  The first [return] is outside the [try], so it
    ends the thread without releasing the flag. *)
Definition sync_update_background (i : nat) (a : app) (d : db) : app :=
  match nth_error (hilos_sync a) i with
  | None => a
  | Some Lanzado =>
      if negb (Py.truthy_id (app_sesion_id a))
      then with_sync a (sync_in_progress a) (quitar i (hilos_sync a))
      else with_sync a (sync_in_progress a)
             (poner i (Consultado (consultas a d)) (hilos_sync a))
  | Some (Consultado c) =>
      let a1 := with_datos a (data_pend c) (data_dif c)
                  (actualizar_tarjetas (tarjetas a) (kpis c)) in
      let a2 := with_sync_counter a1 (sync_counter a1 + 1) in
      with_sync a2 false (quitar i (hilos_sync a2))
  end.

(* ------------------------------------------------------------------ *)
(** ** Counting workflow *)

(** [_limpiar_form] *)
Definition limpiar_form (a : app) : app :=
  let p := producto_actual a in
  with_producto (with_novedad a "")
    (mk_producto_actual None (pa_nombre p) (pa_linea p) (pa_stock p)
       (pa_es_nuevo p)).

(** [_mostrar_conflicto_equipo], [respuesta] being the answer to its
    yes/no box. *)
Definition mostrar_conflicto_equipo (respuesta : bool) (a : app) : app :=
  if negb respuesta then limpiar_form a else a.

(** [_abrir_alta]: the window is open, its CONFIRMAR button holds [cod]. *)
Definition abrir_alta (a : app) (cod : string) : app :=
  with_ventana a true (Some (VentanaAlta cod)).

(** [close] of both windows *)
Definition close (a : app) : app := with_ventana a false None.

(** [p['conteo_fisico'] and p['conteo_fisico'] > 0] *)
Definition ya_contado (p : item) : bool :=
  negb (conteo_fisico p =? 0) && (conteo_fisico p >? 0).

(** [_buscar_producto]; [en_codigo] is the text of the code entry,
    [resp_conflicto] and [resp_agregar] the answers to the two yes/no
    boxes it may open.  Slicing a NULL [producto] raises a TypeError, which
    the [except] of the method shows; [producto_actual] is already set
    then. *)
Definition buscar_producto (a : app) (d : db) (en_codigo : string)
    (resp_conflicto resp_agregar : bool) : app * salida :=
  if ventana_abierta a then (a, Ignorado)
  else if negb (Py.truthy_id (app_sesion_id a))
          || negb (Py.truthy_id (app_equipo_id a))
  then (a, Aviso "Configure sesion y equipo")
  else
    match validate_codigo en_codigo with
    | Invalido res => (a, Aviso res)
    | Valido cod =>
        match select_item d (app_sesion_id a) cod with
        | (p, nombre) :: _ =>
            let a1 :=
              with_producto a
                (mk_producto_actual (Some cod) (producto p) (linea p)
                   (stock_sistema p) false) in
            match producto p with
            | None => (a1, ErrorTipo)      (* p['producto'][:60] on None *)
            | Some _ =>
                let a2 :=
                  if ya_contado p
                  then with_novedad a1
                         (match novedad p with Some n => n | None => "" end)
                  else with_novedad a1 "" in
                if ya_contado p
                   && Py.ne_opt (ultimo_equipo_id p) (app_equipo_id a)
                then (mostrar_conflicto_equipo resp_conflicto a2,
                      Encontrado
                        (Some (nombre, conteo_fisico p, fecha_conteo p)))
                else (a2, Encontrado None)
            end
        | [] =>
            if resp_agregar then (abrir_alta a cod, NoEncontrado true)
            else (a, NoEncontrado false)
        end
    end.

(** [_on_guardado_exitoso] *)
Definition on_guardado_exitoso (a : app) : app :=
  refresh_all (limpiar_form a).

(** [_guardar_conteo]; the writer thread it starts is run to its end
    within the call.  [None] is the TypeError raised, before anything is
    written, by the slice of a name that is [None]. *)
Definition guardar_conteo (now : Z) (a : app) (d : db) (cod : string)
    (cant : Z) (tipo : tipo_accion) (cant_ant : Z)
  : option (app * db * salida) :=
  let nov := Py.strip (en_novedad a) in
  let nov := if pa_es_nuevo (producto_actual a) then "(NUEVO) " ++ nov
             else nov in
  match pa_nombre (producto_actual a) with
  | None => None
  | Some _ =>
      match exec now
              (sql_update_conteo cant nov (app_equipo_id a) (app_sesion_id a)
                 cod) d with
      | Falla e => Some (a, d, ErrorBD e)
      | Exito d1 =>
          match exec now
                  (sql_insert_historial (app_sesion_id a) cod (app_equipo_id a)
                     tipo cant_ant cant) d1 with
          | Falla e => Some (a, d1, ErrorBD e)
          | Exito d2 => Some (on_guardado_exitoso a, d2, Guardado tipo cant)
          end
      end
  end.

(** A call of [_guardar_conteo] inside the [try] of [_pre_save]: the
    TypeError is logged and the method returns. *)
Definition guardar_en_try (now : Z) (a : app) (d : db) (cod : string)
    (cant : Z) (tipo : tipo_accion) (cant_ant : Z) : app * db * salida :=
  match guardar_conteo now a d cod cant tipo cant_ant with
  | Some r => r
  | None => (a, d, ErrorTipo)
  end.

(** [_mostrar_dialogo_duplicado] *)
Definition mostrar_dialogo_duplicado (a : app) (cod : string)
    (item_data : item * option string) (cant_nueva : Z) : app :=
  let cant_actual := conteo_fisico (fst item_data) in
  let equipo_nombre :=
    match snd item_data with
    | Some n => Py.str_or n "Desconocido"
    | None => "Desconocido"
    end in
  with_ventana a true
    (Some (VentanaDuplicado cod cant_actual cant_nueva equipo_nombre
             (fecha_conteo (fst item_data)))).

(** [_pre_save]; [en_cantidad] is the parsed text of the quantity entry. *)
Definition pre_save (now : Z) (a : app) (d : db)
    (en_cantidad : entrada_cantidad) : app * db * salida :=
  if ventana_abierta a then (a, d, Ignorado)
  else
    match pa_codigo (producto_actual a) with
    | None => (a, d, Aviso "Busque un producto primero")
    | Some cod =>
        if negb (Py.truthy_str cod)
        then (a, d, Aviso "Busque un producto primero")
        else
          match validate_cantidad en_cantidad with
          | Invalido cant => (a, d, Aviso cant)
          | Valido cant =>
              match select_item d (app_sesion_id a) cod with
              | existe0 :: _ =>
                  if conteo_fisico (fst existe0) >? 0
                  then (mostrar_dialogo_duplicado a cod existe0 cant, d,
                        DialogoDuplicado)
                  else guardar_en_try now a d cod cant NUEVO 0
              | [] => guardar_en_try now a d cod cant NUEVO 0
              end
          end
    end.

(** The button SUMAR of the duplicate dialog; a TypeError of
    [_guardar_conteo] leaves the callback before [close]. *)
Definition sumar (now : Z) (a : app) (d : db) : app * db * salida :=
  match ventana a with
  | Some (VentanaDuplicado cod cant_actual cant_nueva _ _) =>
      match guardar_conteo now a d cod (cant_actual + cant_nueva) SUMA
              cant_actual with
      | Some (a1, d1, o) => (close a1, d1, o)
      | None => (a, d, ErrorTipo)
      end
  | _ => (a, d, Ignorado)
  end.

(** The button REEMPLAZAR of the duplicate dialog *)
Definition reemplazar (now : Z) (a : app) (d : db) : app * db * salida :=
  match ventana a with
  | Some (VentanaDuplicado cod cant_actual cant_nueva _ _) =>
      match guardar_conteo now a d cod cant_nueva REEMPLAZO cant_actual with
      | Some (a1, d1, o) => (close a1, d1, o)
      | None => (a, d, ErrorTipo)
      end
  | _ => (a, d, Ignorado)
  end.

(** The button CONFIRMAR of the window opened by [_abrir_alta]; [en_nom]
    and [en_lin] are the texts of its two entries. *)
Definition confirmar (now : Z) (a : app) (d : db) (en_nom en_lin : string)
  : app * db * salida :=
  match ventana a with
  | Some (VentanaAlta cod) =>
      let nom := Py.upper (Py.strip en_nom) in
      let lin := Py.upper (Py.strip en_lin) in
      if negb (Py.truthy_str nom) then (a, d, Aviso "Ingrese nombre")
      else
        match exec now
                (sql_insert_extra (app_sesion_id a) cod nom
                   (Py.str_or lin "SIN LINEA")) d with
        | Exito d' =>
            (close
               (with_producto a
                  (mk_producto_actual (Some cod) (Some nom)
                     (Some (Py.str_or lin "SIN LINEA")) 0 true)),
             d', AltaConfirmada)
        | Falla e => (a, d, ErrorBD e)
        end
  | _ => (a, d, Ignorado)
  end.

(** Closing a window with its title-bar button. *)
Definition cerrar_ventana (a : app) : app * salida :=
  match ventana a with
  | Some _ => (close a, Cerrado)
  | None => (a, Ignorado)
  end.

(** [_on_select_sesion], [val] being the id at the head of the chosen
    entry. *)
Definition on_select_sesion (a : app) (val : Z) : app :=
  refresh_all (with_sesion a (Some val) []).

(** [_on_select_equipo], [val] being what [equipos_dict.get] returns. *)
Definition on_select_equipo (a : app) (val : option Z) : app :=
  with_equipo a val.

(** [_apply_filter] *)
Definition apply_filter (a : app) (sel : list string) : app :=
  refresh_all (with_sesion a (app_sesion_id a) sel).

End InventarioApp.
Export InventarioApp.

(* ================================================================== *)
(** ** The windows that write [items_corte] in bulk *)

Module Ventanas.

(** [Utils.limpiar_codigo] on a string *)
Definition limpiar_codigo (valor : string) : string :=
  Py.upper (Py.strip valor).

(** [stock_calculado.get(codigo, 0.0)] *)
Fixpoint stock_get (stock_calculado : list (string * Z)) (cod : string) : Z :=
  match stock_calculado with
  | [] => 0
  | (k, v) :: l => if String.eqb k cod then v else stock_get l cod
  end.

(** [VentanaNuevoCorte._save_corte], after the INSERT into [sesiones] has
    returned [sesion]: the rows of the master sheet (code, name, line) whose
    line was selected are inserted in one transaction. *)
Definition save_corte (now : Z) (d : db) (sesion : Z)
    (df_maestro : list (string * string * string))
    (lineas_sel : list string) (stock_calculado : list (string * Z))
  : resultado db :=
  let items_data :=
    flat_map
      (fun row =>
         let '(cod, nom, lin) := row in
         let linea := Py.strip lin in
         if existsb (String.eqb linea) lineas_sel
         then
           let codigo := limpiar_codigo cod in
           [sql_insert_item_corte sesion codigo (Py.strip nom) linea
              (stock_get stock_calculado codigo)]
         else [])
      df_maestro in
  match lineas_sel with
  | [] => Exito d
  | _ => exec_todas now items_data d
  end.

(** [VentanaActualizarStock]: the stock of every row of the session is set
    from the sheet, in one transaction; [None] when the window returns
    before writing. *)
Definition actualizar_stock (now : Z) (d : db) (sesion : option Z)
    (stock_calculado : list (string * Z)) (confirmado : bool)
  : option (resultado db) :=
  match stock_calculado with
  | [] => None
  | _ =>
      let items := filter (where_sesion sesion) (items_corte d) in
      match items with
      | [] => None
      | _ =>
          if negb confirmado then None
          else
            Some (exec_todas now
                    (map (fun it =>
                            sql_update_stock
                              (stock_get stock_calculado
                                 (limpiar_codigo (codigo it)))
                              (id it))
                       items)
                    d)
      end
  end.

End Ventanas.
Export Ventanas.

(* ================================================================== *)
(** ** Several clients on one store *)

Module Sistema.

(** What can happen at one client: a user action, a wake-up of its
    synchronisation loop, or a step of one of its synchronisation
    threads.  [EvSaveCorte] carries the id the INSERT into [sesiones]
    returned; [EvRefreshAll] is the callback given to the backup
    window. *)
Inductive evento : Type :=
| EvSelectSesion (val : Z)
| EvSelectEquipo (val : option Z)
| EvApplyFilter (sel : list string)
| EvBuscar (en_codigo : string) (resp_conflicto resp_agregar : bool)
| EvConfirmar (en_nom en_lin : string)
| EvCerrarVentana
| EvPreSave (en_cantidad : entrada_cantidad)
| EvSumar
| EvReemplazar
| EvTick
| EvRefreshAll
| EvHilo (i : nat)
| EvSaveCorte (sesion : Z) (df_maestro : list (string * string * string))
    (lineas_sel : list string) (stock_calculado : list (string * Z))
| EvActualizarStock (stock_calculado : list (string * Z)) (confirmado : bool).

Definition paso_app (now : Z) (e : evento) (a : app) (d : db) : app * db :=
  match e with
  | EvSelectSesion val => (on_select_sesion a val, d)
  | EvSelectEquipo val => (on_select_equipo a val, d)
  | EvApplyFilter sel =>
      if Py.truthy_id (app_sesion_id a) then (apply_filter a sel, d)
      else (a, d)
  | EvBuscar en_codigo rc ra => (fst (buscar_producto a d en_codigo rc ra), d)
  | EvConfirmar en_nom en_lin => fst (confirmar now a d en_nom en_lin)
  | EvCerrarVentana => (fst (cerrar_ventana a), d)
  | EvPreSave en_cantidad => fst (pre_save now a d en_cantidad)
  | EvSumar => fst (sumar now a d)
  | EvReemplazar => fst (reemplazar now a d)
  | EvTick => (sync_loop_tick a, d)
  | EvRefreshAll => (refresh_all a, d)
  | EvHilo i => (sync_update_background i a d, d)
  | EvSaveCorte sesion df_maestro lineas_sel stock_calculado =>
      match lineas_sel with
      | [] => (a, d)
      | _ =>
          match save_corte now d sesion df_maestro lineas_sel stock_calculado with
          | Exito d' => (on_select_sesion a sesion, d')
          | Falla _ => (a, d)
          end
      end
  | EvActualizarStock stock_calculado confirmado =>
      if negb (Py.truthy_id (app_sesion_id a)) then (a, d)
      else
        match actualizar_stock now d (app_sesion_id a) stock_calculado
                confirmado with
        | Some (Exito d') => (refresh_all a, d')
        | _ => (a, d)
        end
  end.

(** The clients and the store they share. *)
Definition sistema : Type := list app * db.

(** Event [e] at client [c], at time [now]. *)
Definition paso (x : Z * nat * evento) (s : sistema) : sistema :=
  let '(now, c, e) := x in
  match nth_error (fst s) c with
  | None => s
  | Some a =>
      let '(a', d') := paso_app now e a (snd s) in
      (poner c a' (fst s), d')
  end.

Definition correr (l : list (Z * nat * evento)) (s : sistema) : sistema :=
  fold_left (fun s x => paso x s) l s.

(** [n] clients just started on the store [d]. *)
Definition arranque (n : nat) (d : db) : sistema := (repeat app_inicial n, d).

End Sistema.
Export Sistema.

(* ================================================================== *)
(** ** Predicates used by the statements below *)

Module Propiedades.

(** The generated column of every row holds counted minus stock. *)
Definition diferencia_coherente (d : db) : Prop :=
  Forall (fun r => diferencia r = conteo_fisico r - stock_sistema r)
    (items_corte d).

(** The quantities captured by an open duplicate dialog are not negative. *)
Definition ventana_no_negativa (a : app) : Prop :=
  match ventana a with
  | Some (VentanaDuplicado _ cant_actual cant_nueva _ _) =>
      0 <= cant_actual /\ 0 <= cant_nueva
  | _ => True
  end.

(** At most one synchronisation thread is alive, and the flag is set
    whenever one is. *)
Definition sync_exclusiva (a : app) : Prop :=
  (List.length (hilos_sync a) <= 1)%nat /\
  (hilos_sync a <> [] -> sync_in_progress a = true).

(** The note [_guardar_conteo] stores with a count. *)
Definition nota (a : app) : string :=
  if pa_es_nuevo (producto_actual a)
  then "(NUEVO) " ++ Py.strip (en_novedad a)
  else Py.strip (en_novedad a).

(** The row [r] after the UPDATE of [_guardar_conteo]. *)
Definition fila_contada (now cant : Z) (nov : string) (eq : option Z)
    (r : item) : item :=
  mk_item (id r) (sesion_id r) (codigo r) (producto r) (linea r)
    (stock_sistema r) cant (cant - stock_sistema r) (Some nov) (Some now) eq.

(** The store after the two statements of [_guardar_conteo]. *)
Definition db_guardada (now : Z) (a : app) (d : db) (s : Z) (cod : string)
    (cant : Z) (tipo : tipo_accion) (cant_ant : Z) : db :=
  mk_db
    (map (fun r =>
            if where_sesion_codigo (Some s) cod r
            then fila_contada now cant (nota a) (app_equipo_id a) r
            else r)
       (items_corte d))
    (items_auto_increment d) (equipos d)
    (historial_movimientos d ++
     [mk_movimiento s cod (app_equipo_id a) tipo cant_ant cant now]).

(** All the threads of a client run to their end, oldest first: two steps
    for each of the (at most [n]) threads. *)
Fixpoint terminar_hilos (n : nat) (a : app) (d : db) : app :=
  match n with
  | O => a
  | S n' =>
      terminar_hilos n'
        (sync_update_background 0 (sync_update_background 0 a d) d) d
  end.

(** The rows the KPI query ranges over: those of the session and of the
    line filter whose stock is positive. *)
Definition califica (ses : option Z) (filtro : list string) (r : item) : bool :=
  where_sesion ses r && en_filtro filtro r && (stock_sistema r >? 0).

(** The store [d] with other rows. *)
Definition con_filas (d : db) (l : list item) : db :=
  mk_db l (items_auto_increment d) (equipos d) (historial_movimientos d).




(** A row as the application writes it: the count is not negative and the
    name is not NULL. *)
Definition fila_bien_formada (r : item) : Prop :=
  0 <= conteo_fisico r /\ producto r <> None.

Definition db_bien_formada (d : db) : Prop :=
  Forall fila_bien_formada (items_corte d).

(** The form of a client: the quantities of an open duplicate dialog are
    not negative, and a product that is loaded has a name. *)
Definition app_bien_formada (a : app) : Prop :=
  ventana_no_negativa a /\
  (pa_codigo (producto_actual a) <> None ->
   pa_nombre (producto_actual a) <> None).

(** What a statement must satisfy to keep a property [P] of the rows. *)
Definition conserva (P : item -> Prop) (now : Z) (s : statement) : Prop :=
  match s with
  | InsertItem cols => forall i, P (escribir now cols (fila_por_defecto i))
  | UpdateItems sets _ => forall r, P r -> P (escribir now sets r)
  | InsertMovimiento _ _ _ _ _ _ => True
  end.

End Propiedades.
Export Propiedades.

(* ================================================================== *)
(** ** Example data *)

Module Ejemplos.

Definition equipos_ej : list equipo :=
  [mk_equipo 1 "1" None true; mk_equipo 2 "2" None true].

(** A store with the two teams and no session yet. *)
Definition d0 : db := mk_db [] 1 equipos_ej [].

(** Session 1 is created from a sheet with A1 (stock 10.00) and B2 (stock
    5.00), and team 1 is chosen at client 0. *)
Definition corte_ej : list (Z * nat * evento) :=
  [(100, 0%nat,
    EvSaveCorte 1 [("a1", "Tornillo", "L1"); ("b2", "Tuerca", "L1")] ["L1"]
      [("A1", 1000); ("B2", 500)]);
   (101, 0%nat, EvSelectEquipo (Some 1));
   (102, 0%nat, EvHilo 0%nat);
   (103, 0%nat, EvHilo 0%nat)].

(** Team 1 looks A1 up. *)
Definition busca_a1 : list (Z * nat * evento) :=
  corte_ej ++ [(104, 0%nat, EvBuscar "a1" true false)].

(** Team 1 counts 10.00 of A1 and the refresh that follows is run. *)
Definition cuenta_a1 : list (Z * nat * evento) :=
  busca_a1 ++
  [(105, 0%nat, EvPreSave (Flotante 1000));
   (106, 0%nat, EvHilo 0%nat);
   (107, 0%nat, EvHilo 0%nat)].



(** A second session, with the single item C3 (stock 7.00), is created at
    the client once A1 has been counted in session 1; the pass started by
    its selection is run. *)
Definition segundo_corte : list (Z * nat * evento) :=
  cuenta_a1 ++
  [(120, 0%nat, EvSaveCorte 2 [("c3", "Arandela", "L2")] ["L2"] [("C3", 700)]);
   (121, 0%nat, EvHilo 0%nat);
   (122, 0%nat, EvHilo 0%nat)].

(** An extra item (stock 0) X9 is added to session 1 and counted 4.00. *)
Definition extra_x9 : list (Z * nat * evento) :=
  cuenta_a1 ++
  [(120, 0%nat, EvBuscar "x9" true true);
   (121, 0%nat, EvConfirmar "perno" "");
   (122, 0%nat, EvPreSave (Flotante 400));
   (123, 0%nat, EvHilo 0%nat)].

Definition x9_contado : item :=
  mk_item 3 1 "X9" (Some "PERNO") (Some "SIN LINEA") 0 400 400
    (Some "(NUEVO) ") (Some 122) (Some 1).


(** Three wake-ups of the timer at client 0, then its thread runs. *)
Definition tres_ticks : list (Z * nat * evento) :=
  busca_a1 ++
  [(105, 0%nat, EvTick);
   (106, 0%nat, EvTick);
   (107, 0%nat, EvTick);
   (108, 0%nat, EvHilo 0%nat);
   (109, 0%nat, EvHilo 0%nat)].

(** Two clients on session 1: team 1 at client 0, team 2 at client 1.  Both
    look X9 up, find nothing and accept to add it; team 1 confirms its
    window. *)
Definition dos_altas : list (Z * nat * evento) :=
  [(100, 0%nat,
    EvSaveCorte 1 [("a1", "Tornillo", "L1"); ("b2", "Tuerca", "L1")] ["L1"]
      [("A1", 1000); ("B2", 500)]);
   (101, 0%nat, EvSelectEquipo (Some 1));
   (102, 1%nat, EvSelectSesion 1);
   (103, 1%nat, EvSelectEquipo (Some 2));
   (110, 0%nat, EvBuscar "x9" true true);
   (111, 1%nat, EvBuscar "x9" true true);
   (112, 0%nat, EvConfirmar "perno" "")].

(** Client 1 and the store after [dos_altas]. *)
Definition cliente1_dos_altas : app :=
  nth 1 (fst (correr dos_altas (arranque 2 d0))) app_inicial.

Definition db_dos_altas : db := snd (correr dos_altas (arranque 2 d0)).

(** Five qualifying rows of session 1, two of them counted: one exactly,
    one 2.00 short. *)
Definition d_cinco : db :=
  mk_db
    [mk_item 1 1 "P1" (Some "UNO") (Some "L1") 1000 1000 0 None (Some 10) (Some 1);
     mk_item 2 1 "P2" (Some "DOS") (Some "L1") 500 300 (-200) None (Some 11)
       (Some 1);
     mk_item 3 1 "P3" (Some "TRES") (Some "L1") 700 0 (-700) None None None;
     mk_item 4 1 "P4" (Some "CUATRO") (Some "L1") 100 0 (-100) None None None;
     mk_item 5 1 "P5" (Some "CINCO") (Some "L1") 200 0 (-200) None None None]
    6 equipos_ej [].

Definition app_de (l : list (Z * nat * evento)) : app :=
  nth 0 (fst (correr l (arranque 1 d0))) app_inicial.

Definition db_de (l : list (Z * nat * evento)) : db :=
  snd (correr l (arranque 1 d0)).

(** The row of A1 before and after the count of team 1. *)
Definition a1_pendiente : item :=
  mk_item 1 1 "A1" (Some "Tornillo") (Some "L1") 1000 0 (-1000) None None None.

Definition a1_contado : item :=
  mk_item 1 1 "A1" (Some "Tornillo") (Some "L1") 1000 1000 0 (Some "")
    (Some 105) (Some 1).

End Ejemplos.
Export Ejemplos.

(* ================================================================== *)
(** ** Utils.calcular_stock_desde_excel *)

Module Excel.

(** A sheet as [pd.read_excel(..., dtype=str)] gives it, reduced to what the
    loop reads of each row: [str(row['codproducto'])] and the value of
    [pd.to_numeric(str(row['sin_stock']).replace(",", "."),
    errors='coerce')], in hundredths, [None] when it is NaN.  The sheet
    itself is [None] when it cannot be read or lacks one of the two
    columns: the loop then leaves it out. *)
Definition hoja : Type := option (list (string * option Z)).

(** [stock[codigo] = v] on a dict kept as an association list. *)
Fixpoint dict_set (stock : list (string * Z)) (k : string) (v : Z)
  : list (string * Z) :=
  match stock with
  | [] => [(k, v)]
  | (k', v') :: l =>
      if String.eqb k' k then (k', v) :: l else (k', v') :: dict_set l k v
  end.

(** The body of the loop over the rows of a sheet. *)
Definition acumular_fila (stock : list (string * Z))
    (row : string * option Z) : list (string * Z) :=
  let codigo := limpiar_codigo (fst row) in
  match snd row with
  | Some valor => dict_set stock codigo (stock_get stock codigo + valor)
  | None => stock
  end.

Definition acumular_hoja (stock : list (string * Z)) (h : hoja)
  : list (string * Z) :=
  match h with
  | Some filas => fold_left acumular_fila filas stock
  | None => stock
  end.

(** [Utils.calcular_stock_desde_excel], on the sheets CONDI, MAQUI and
    ASCINTEC of the workbook. *)
Definition calcular_stock_desde_excel (condi maqui ascintec : hoja)
  : list (string * Z) :=
  fold_left acumular_hoja [condi; maqui; ascintec] [].

End Excel.
Export Excel.

(* ================================================================== *)
(** ** The lists of the tabs and of the search panel *)

Module Listas.

(** [str(x)] of a text that may be [None]. *)
Definition py_str (o : option string) : string :=
  match o with Some s => s | None => "None" end.

(** [s.startswith(p)] *)
Fixpoint empieza_con (p s : string) : bool :=
  match p, s with
  | EmptyString, _ => true
  | String _ _, EmptyString => false
  | String a p', String b s' => Ascii.eqb a b && empieza_con p' s'
  end.

(** [txt in s] *)
Fixpoint contiene (txt s : string) : bool :=
  empieza_con txt s
  || match s with
     | EmptyString => false
     | String _ s' => contiene txt s'
     end.

(** An entry of [self.data_pendientes] (three fields) or of
    [self.data_diferencias] (four fields). *)
Inductive entrada_lista : Type :=
| Tupla3 (x0 : string) (x1 : option string) (x2 : Z)
| Tupla4 (x0 : string) (x1 : option string) (x2 x3 : Z).

Definition item0 (e : entrada_lista) : string :=
  match e with Tupla3 c _ _ => c | Tupla4 c _ _ _ => c end.

Definition item1 (e : entrada_lista) : option string :=
  match e with Tupla3 _ n _ => n | Tupla4 _ n _ _ => n end.

(** The row [_mk_row_clickable] draws: the code, the text cut at 45
    characters, and the values of its stock and difference columns when
    there are any. *)
Record fila_lista : Type := mk_fila_lista {
  fl_codigo : string;
  fl_texto : string;
  fl_stock : option Z;
  fl_diferencia : option Z
}.

Inductive color : Type := DANGER | WARNING.

(** The colour of the difference column. *)
Definition color_diferencia (diferencia : Z) : color :=
  if diferencia <? 0 then DANGER else WARNING.

(** [_mk_row_clickable(frame, cod, nom, stock, diferencia)] with
    [stock = item[2] if len(item) > 2 else None] and
    [diferencia = item[3] if len(item) > 3 else None]. *)
Definition mk_row_clickable (e : entrada_lista) : fila_lista :=
  let texto := String.substring 0 45 (py_str (item1 e)) in
  match e with
  | Tupla3 cod _ x2 => mk_fila_lista cod texto (Some x2) None
  | Tupla4 cod _ x2 x3 => mk_fila_lista cod texto (Some x2) (Some x3)
  end.

(** [txt in cod or txt in nom.upper()] *)
Definition coincide (txt : string) (e : entrada_lista) : bool :=
  contiene txt (item0 e) || contiene txt (Py.upper (py_str (item1 e))).

(** The loop of [_filtrar_precalc], [count] rows being drawn already. *)
Fixpoint filtrar_precalc_desde (count : Z) (txt : string)
    (data : list entrada_lista) : list fila_lista :=
  match data with
  | [] => []
  | e :: rest =>
      if count >? 50 then []
      else if coincide txt e
      then mk_row_clickable e :: filtrar_precalc_desde (count + 1) txt rest
      else filtrar_precalc_desde count txt rest
  end.

(** [_filtrar_precalc]: the rows drawn in the frame. *)
Definition filtrar_precalc (txt : string) (data : list entrada_lista)
  : list fila_lista :=
  filtrar_precalc_desde 0 (Py.upper txt) data.

Definition de_pendiente (x : string * option string * Z) : entrada_lista :=
  let '(c, n, s) := x in Tupla3 c n s.

Definition de_diferencia (x : string * option string * Z * Z)
  : entrada_lista :=
  let '(c, n, dif, s) := x in Tupla4 c n dif s.

(** [_update_tabs_ui]: the rows of the pending tab and of the differences
    tab. *)
Definition update_tabs_ui (a : app) : list fila_lista * list fila_lista :=
  (filtrar_precalc "" (map de_pendiente (data_pendientes a)),
   filtrar_precalc "" (map de_diferencia (data_diferencias a))).

(** The state [_filtrar_busqueda] gives to a row. *)
Inductive estado_busqueda : Type :=
| PENDIENTE
| CUADRADO (contado : Z)
| CONTADO (contado dif : Z).

Definition estado_de (contado stock : Z) : estado_busqueda :=
  if contado =? 0 then PENDIENTE
  else if contado =? stock then CUADRADO contado
  else CONTADO contado (contado - stock).

(** A row of the search panel; [FilaIncompleta] is the frame left by the
    TypeError of [texto[:35]] on a name that is [None]. *)
Inductive fila_busqueda : Type :=
| FilaEstado (codigo texto : string) (estado : estado_busqueda) (stock : Z)
| FilaIncompleta (codigo : string).

(** The loop over the rows found; the TypeError ends it. *)
Fixpoint dibujar_busqueda (items : list item) : list fila_busqueda :=
  match items with
  | [] => []
  | it :: rest =>
      match producto it with
      | None => [FilaIncompleta (codigo it)]
      | Some nom =>
          FilaEstado (codigo it) (String.substring 0 35 nom)
            (estado_de (conteo_fisico it) (stock_sistema it))
            (stock_sistema it)
          :: dibujar_busqueda rest
      end
  end.

Section Busqueda.

(** [like patron texto]: the LIKE of the engine under the collation of the
    column. *)
Variable like : string -> string -> bool.

(** SELECT codigo, producto, conteo_fisico, stock_sistema FROM items_corte
    WHERE sesion_id=%s AND (codigo LIKE %s OR producto LIKE %s) LIMIT 30 *)
Definition select_busqueda (d : db) (sesion : option Z) (patron : string)
  : list item :=
  firstn 30
    (filter
       (fun r =>
          where_sesion sesion r
          && (like patron (codigo r)
              || match producto r with
                 | Some p => like patron p
                 | None => false
                 end))
       (items_corte d)).

(** [_filtrar_busqueda]: [None] when the panel is left as it is, else the
    rows that replace its content. *)
Definition filtrar_busqueda (a : app) (d : db) (en_busqueda : string)
  : option (list fila_busqueda) :=
  if negb (Py.truthy_id (app_sesion_id a)) then None
  else
    let txt := Py.upper en_busqueda in
    if Py.len txt <? 2 then Some []
    else
      Some (dibujar_busqueda
              (select_busqueda d (app_sesion_id a) ("%" ++ txt ++ "%"))).

End Busqueda.

End Listas.
Export Listas.

(* ================================================================== *)
(** ** InventarioApp._export_excel *)

Module Exportacion.

(** [LEFT JOIN equipos e ON ...=e.id], with all the columns of the team. *)
Definition join_equipo (d : db) (eq : option Z) : option equipo :=
  match eq with
  | None => None
  | Some e => find (fun t => equipo_id t =? e) (equipos d)
  end.

(** The four sheets of the report, and for each row of DIFERENCIAS whether
    [_pintar_diferencias_excel] fills it. *)
Record reporte : Type := mk_reporte {
  conteo_completo : list (item * option equipo);
  diferencias : list (item * option equipo);
  pendientes : list item;
  historial : list (movimiento * option equipo);
  pintadas : list bool
}.

(** [float(row[idx_dif - 1].value or 0) != 0] *)
Definition pintar_fila (r : item * option equipo) : bool :=
  negb (diferencia (fst r) =? 0).

(** [_export_excel]; [None] is the warning shown when no session is
    selected. *)
Definition export_excel (a : app) (d : db) : option reporte :=
  if negb (Py.truthy_id (app_sesion_id a)) then None
  else
    let con_equipo :=
      fun r : item => (r, join_equipo d (ultimo_equipo_id r)) in
    let df_conteo :=
      map con_equipo (filter (where_sesion (app_sesion_id a)) (items_corte d)) in
    let df_dif :=
      map con_equipo
        (filter (fun r => where_sesion (app_sesion_id a) r
                          && negb (diferencia r =? 0)
                          && (conteo_fisico r >? 0))
           (items_corte d)) in
    let df_pend :=
      filter (fun r => where_sesion (app_sesion_id a) r
                       && (conteo_fisico r =? 0))
        (items_corte d) in
    let df_hist :=
      map (fun m => (m, join_equipo d (mov_equipo_id m)))
        (filter (fun m => match app_sesion_id a with
                          | Some s => mov_sesion_id m =? s
                          | None => false
                          end)
           (historial_movimientos d)) in
    Some (mk_reporte df_conteo df_dif df_pend df_hist (map pintar_fila df_dif)).

End Exportacion.
Export Exportacion.

(* ================================================================== *)
(** ** VentanaEquipos *)

Module VentanaEquipos.

Definition con_equipos (d : db) (l : list equipo) : db :=
  mk_db (items_corte d) (items_auto_increment d) l (historial_movimientos d).

Inductive salida_equipos : Type :=
| EquipoAgregado
| EquipoEliminado
| AvisoEquipo (msg : string)
| ErrorEquipo (msg : string)
| SinCambio.

(** The sheet EQUIPOS as [Utils.cargar_equipos_desde_excel] reads it:
    [None] when the sheet cannot be read or has no column ID; else, for
    each row, the cell of ID and the cell of the column of the members,
    [None] for an empty cell (and for every row when the sheet has no such
    column). *)
Definition hoja_equipos : Type := option (list (option string * option string)).

(** [Utils.cargar_equipos_desde_excel]: the pairs (numero, integrantes). *)
Definition cargar_equipos_desde_excel (h : hoja_equipos)
  : list (string * string) :=
  match h with
  | None => []
  | Some filas =>
      flat_map
        (fun row : option string * option string =>
           match fst row with
           | None => []
           | Some c =>
               let num_equipo := Py.strip c in
               if Py.truthy_str num_equipo
                  && negb (String.eqb num_equipo "nan")
               then [(num_equipo,
                      match snd row with
                      | Some i => Py.upper (Py.strip i)
                      | None => EmptyString
                      end)]
               else []
           end)
        filas
  end.

(** What is done to the table of teams: the two buttons of the window of
    teams, and the loading of a workbook in the window of a new session.
    [nuevo_id] is the value the AUTO_INCREMENT counter of the table gives
    to the row if it is inserted, [id_de k] the one it gives at the
    [k]-th INSERT of a loading. *)
Inductive accion_equipos : Type :=
| AccAdd (nuevo_id : Z) (en_num en_integrantes : string)
| AccRemove (eq_id : Z) (confirmado : bool)
| AccExcel (id_de : nat -> Z) (h : hoja_equipos).

(** UPDATE equipos SET activo=0 WHERE id=%s *)
Definition desactivar_equipo (d : db) (eq_id : Z) : db :=
  con_equipos d
    (map (fun t =>
            if equipo_id t =? eq_id
            then mk_equipo (equipo_id t) (nombre_equipo t) (integrantes t) false
            else t)
       (equipos d)).

(** The rows of SELECT id, nombre_equipo, integrantes FROM equipos WHERE
    activo=1 (their order is not modelled). *)
Definition select_equipos_activos (d : db) : list equipo :=
  filter equipo_activo (equipos d).

(** [_remove_equipo]; [confirmado] is the answer to its yes/no box. *)
Definition remove_equipo (d : db) (eq_id : Z) (confirmado : bool)
  : db * salida_equipos :=
  if negb confirmado then (d, SinCambio)
  else (desactivar_equipo d eq_id, EquipoEliminado).

Section Colacion.

(** [mismo_nombre x y]: the names [x] and [y] are equal under the
    collation of the column (utf8mb4_unicode_ci), with which the UNIQUE
    index of [nombre_equipo] compares them. *)
Variable mismo_nombre : string -> string -> bool.

(** INSERT INTO equipos (nombre_equipo, integrantes) VALUES (%s, %s);
    [None] is the "Duplicate entry" error of the UNIQUE index. *)
Definition insert_equipo (nuevo_id : Z) (d : db) (nombre integrantes : string)
  : option db :=
  if existsb (fun t => mismo_nombre (nombre_equipo t) nombre) (equipos d)
  then None
  else Some (con_equipos d
               (equipos d
                ++ [mk_equipo nuevo_id nombre (Some integrantes) true])).

(** [_add_equipo]; [en_num] and [en_integrantes] are the texts of the two
    entries. *)
Definition add_equipo (nuevo_id : Z) (d : db) (en_num en_integrantes : string)
  : db * salida_equipos :=
  let numero := Py.strip en_num in
  let integrantes := Py.strip en_integrantes in
  if negb (Py.truthy_str numero)
  then (d, AvisoEquipo "Ingrese el numero del equipo")
  else if negb (Py.truthy_str integrantes)
  then (d, AvisoEquipo "Ingrese los integrantes del equipo")
  else
    match insert_equipo nuevo_id d numero (Py.upper integrantes) with
    | Some d' => (d', EquipoAgregado)
    | None => (d, ErrorEquipo "Numero de equipo ya existe")
    end.

(** [VentanaNuevoCorte._agregar_equipos_desde_excel], from the [k]-th
    INSERT on: a "Duplicate entry" is skipped. *)
Fixpoint agregar_equipos_desde_excel (id_de : nat -> Z) (k : nat) (d : db)
    (equipos_data : list (string * string)) : db :=
  match equipos_data with
  | [] => d
  | (numero, integrantes) :: rest =>
      agregar_equipos_desde_excel id_de (S k)
        (match insert_equipo (id_de k) d numero integrantes with
         | Some d' => d'
         | None => d
         end)
        rest
  end.

Definition paso_equipos (d : db) (x : accion_equipos) : db :=
  match x with
  | AccAdd nuevo_id en_num en_integrantes =>
      fst (add_equipo nuevo_id d en_num en_integrantes)
  | AccRemove eq_id confirmado => fst (remove_equipo d eq_id confirmado)
  | AccExcel id_de h =>
      agregar_equipos_desde_excel id_de 0 d (cargar_equipos_desde_excel h)
  end.

(** No two rows of [equipos] have the same name under the collation:
    what the UNIQUE index maintains. *)
Fixpoint nombres_unicos (l : list equipo) : Prop :=
  match l with
  | [] => True
  | t :: l' =>
      Forall (fun u => mismo_nombre (nombre_equipo t) (nombre_equipo u) = false) l'
      /\ nombres_unicos l'
  end.

End Colacion.

(** The collation on names made of ASCII letters and digits: the case is
    ignored. *)
Definition sin_caja (x y : string) : bool :=
  String.eqb (Py.upper x) (Py.upper y).

End VentanaEquipos.
Export VentanaEquipos.

(* ================================================================== *)
(** ** VentanaMultiSelect *)

Module VentanaMultiSelect.

Fixpoint insertar (x : string) (l : list string) : list string :=
  match l with
  | [] => [x]
  | y :: l' => if String.leb x y then x :: l else y :: insertar x l'
  end.

(** [sorted(opciones)] on strings. *)
Definition sorted (l : list string) : list string :=
  fold_right insertar [] l.

(** [__init__]: one checked box per option, in sorted order. *)
Definition ms_init (opciones : list string) : list (string * bool) :=
  map (fun op => (op, true)) (sorted opciones).

(** [_select_all] *)
Definition select_all (vars : list (string * bool)) : list (string * bool) :=
  map (fun v => (fst v, true)) vars.

(** [_select_none] *)
Definition select_none (vars : list (string * bool)) : list (string * bool) :=
  map (fun v => (fst v, false)) vars.

(** A click on the box of rank [i]. *)
Fixpoint marcar (i : nat) (vars : list (string * bool))
  : list (string * bool) :=
  match i, vars with
  | _, [] => []
  | O, (op, b) :: l => (op, negb b) :: l
  | S i', v :: l => v :: marcar i' l
  end.

(** The list [_apply] gives to the callback. *)
Definition ms_apply (vars : list (string * bool)) : list string :=
  map fst (filter snd vars).

(** [_update_count]: the numbers of the label. *)
Definition update_count (vars : list (string * bool)) : nat * nat :=
  (List.length (filter snd vars), List.length vars).

End VentanaMultiSelect.
Export VentanaMultiSelect.

(* ================================================================== *)
(** ** Further predicates and cases *)

Module Casos.

(** The string does not start with a character [strip] removes. *)
Definition sin_espacio_inicial (s : string) : Prop :=
  match s with
  | EmptyString => True
  | String c _ => Py.is_space c = false
  end.

(** The last character of a string [rstrip] returned is not one it
    removes. *)
Fixpoint sin_espacio_final (s : string) : Prop :=
  match s with
  | EmptyString => True
  | String c EmptyString => Py.is_space c = false
  | String _ s' => sin_espacio_final s'
  end.

(** The columns that identify a row and describe its product. *)
Definition clave (r : item)
  : Z * Z * string * option string * option string :=
  (id r, sesion_id r, codigo r, producto r, linea r).

(** The ids of the rows are distinct and below the AUTO_INCREMENT counter:
    what the primary key of [items_corte] maintains. *)
Definition ids_frescos (d : db) : Prop :=
  NoDup (map id (items_corte d)) /\
  Forall (fun r => id r < items_auto_increment d) (items_corte d).

(** The row [r] with the stock [v], as an UPDATE of the stock leaves it. *)
Definition fila_con_stock (v : Z) (r : item) : item :=
  mk_item (id r) (sesion_id r) (codigo r) (producto r) (linea r)
    v (conteo_fisico r) (conteo_fisico r - v) (novedad r) (fecha_conteo r)
    (ultimo_equipo_id r).

(** The rows [_save_corte] inserts for the rows [sel] of the master
    sheet, the first one with the id [first_id]. *)
Fixpoint filas_corte (sesion : Z) (stock_calculado : list (string * Z))
    (first_id : Z) (sel : list (string * string * string)) : list item :=
  match sel with
  | [] => []
  | (cod, nom, lin) :: rest =>
      mk_item first_id sesion (limpiar_codigo cod) (Some (Py.strip nom))
        (Some (Py.strip lin))
        (stock_get stock_calculado (limpiar_codigo cod)) 0
        (0 - stock_get stock_calculado (limpiar_codigo cod)) None None None
      :: filas_corte sesion stock_calculado (first_id + 1) rest
  end.

(** The rows of the master sheet whose line is among the selected ones. *)
Definition seleccion (lineas_sel : list string)
    (df_maestro : list (string * string * string))
  : list (string * string * string) :=
  filter (fun row => existsb (String.eqb (Py.strip (snd row))) lineas_sel)
    df_maestro.

(** The sum of the numeric values of the rows of a sheet whose cleaned
    code is [cod]. *)
Fixpoint suma_codigo (cod : string) (filas : list (string * option Z)) : Z :=
  match filas with
  | [] => 0
  | (c, Some v) :: rest =>
      (if String.eqb (limpiar_codigo c) cod then v else 0)
      + suma_codigo cod rest
  | (_, None) :: rest => suma_codigo cod rest
  end.

Definition filas_de (h : hoja) : list (string * option Z) :=
  match h with Some filas => filas | None => [] end.

(** The row the differences tab draws for the row [r] of the store. *)
Definition fila_de_diferencia (r : item) : fila_lista :=
  mk_fila_lista (codigo r) (String.substring 0 45 (py_str (producto r)))
    (Some (diferencia r)) (Some (stock_sistema r)).

(** The condition of [q_dif] and of the sheet DIFERENCIAS on a row. *)
Definition con_diferencia (r : item) : bool :=
  negb (diferencia r =? 0) && (conteo_fisico r >? 0).

(** The state the search panel should give to a row, read from the
    stored columns. *)
Definition estado_guardado (r : item) : estado_busqueda :=
  if conteo_fisico r =? 0 then PENDIENTE
  else if con_diferencia r then CONTADO (conteo_fisico r) (diferencia r)
  else CUADRADO (conteo_fisico r).

(** A LIKE for the examples: the pattern is [%txt%], and the text has
    [txt] in it, the case being ignored. *)
Definition like_contiene (patron texto : string) : bool :=
  contiene (String.substring 1 (String.length patron - 2) patron)
    (Py.upper texto).

(** The name [n] is taken by a row, and no row that has it is active. *)
Definition nombre_retirado (mismo_nombre : string -> string -> bool)
    (n : string) (l : list equipo) : Prop :=
  (exists u, In u l /\ nombre_equipo u = n) /\
  Forall (fun u => mismo_nombre n (nombre_equipo u) = true ->
                   equipo_activo u = false) l.


(** Two clients on session 1, team 1 at client 0 and team 2 at client 1.
    Team 1 counts 10.00 of A1; then both teams look A1 up and submit a
    quantity, 2.00 and 3.00: both get the duplicate dialog. *)
Definition dos_dialogos : list (Z * nat * evento) :=
  cuenta_a1 ++
  [(110, 1%nat, EvSelectSesion 1);
   (111, 1%nat, EvSelectEquipo (Some 2));
   (112, 0%nat, EvBuscar "a1" true false);
   (113, 1%nat, EvBuscar "a1" true false);
   (114, 0%nat, EvPreSave (Flotante 200));
   (115, 1%nat, EvPreSave (Flotante 300))].

Definition cliente_de (c : nat) (l : list (Z * nat * evento)) : app :=
  nth c (fst (correr l (arranque 2 d0))) app_inicial.

Definition db_de2 (l : list (Z * nat * evento)) : db :=
  snd (correr l (arranque 2 d0)).


(** The rows of the session [s]. *)
Definition filas_de_sesion (s : Z) (d : db) : list item :=
  filter (fun r => sesion_id r =? s) (items_corte d).

(** The numbers of a KPI query add up. *)
Definition kpis_en_rango (k : kpis_t) : Prop :=
  contados k = exactos k + faltantes k + sobrantes k /\
  0 <= contados k <= total k /\
  0 <= exactos k /\ 0 <= faltantes k /\ 0 <= sobrantes k.

(** The cards show percentages between 0 and 100 and numbers that are not
    negative, the short and the over items being at most the total. *)
Definition tarjetas_en_rango (t : tarjetas_kpi) : Prop :=
  (0 <= kpi_avance t)%Q /\ (kpi_avance t <= inject_Z 100)%Q /\
  (0 <= kpi_exactitud t)%Q /\ (kpi_exactitud t <= inject_Z 100)%Q /\
  0 <= kpi_pendientes t /\ 0 <= kpi_faltantes t /\ 0 <= kpi_sobrantes t /\
  kpi_faltantes t + kpi_sobrantes t <= kpi_total t.

(** The cards of a client are in range, and so are the numbers its
    synchronisation threads hold. *)
Definition panel_en_rango (a : app) : Prop :=
  tarjetas_en_rango (tarjetas a) /\
  forall c, In (Consultado c) (hilos_sync a) -> kpis_en_rango (kpis c).

(** A movement as the log should have it: the result is not negative; a
    first count starts from 0; an addition or a replacement starts from a
    positive count, and an addition does not lower it. *)
Definition movimiento_coherente (m : movimiento) : Prop :=
  0 <= cantidad_resultante m /\
  match mov_tipo_accion m with
  | NUEVO => cantidad_anterior m = 0
  | SUMA => 0 < cantidad_anterior m <= cantidad_resultante m
  | REEMPLAZO => 0 < cantidad_anterior m
  end.

Definition historial_coherente (d : db) : Prop :=
  Forall movimiento_coherente (historial_movimientos d).

(** An open duplicate dialog holds a positive count and a new quantity
    that is not negative. *)
Definition ventana_de_conteo (a : app) : Prop :=
  match ventana a with
  | Some (VentanaDuplicado _ cant_actual cant_nueva _ _) =>
      0 < cant_actual /\ 0 <= cant_nueva
  | _ => True
  end.

(** Team 3 is added in the window of teams, then a workbook that lists
    the teams 1 and 7 is loaded. *)
Definition acciones_ej : list accion_equipos :=
  [AccAdd 3 "3" "ana, luis";
   AccExcel (fun k => 5 + Z.of_nat k)
     (Some [(Some "1", Some "eva"); (Some " 7", None)])].

End Casos.
Export Casos.

(* ================================================================== *)
(** * Properties *)

(** ** Validator *)

Example strip_ej : Py.strip "  ab c  " = "ab c".
Proof. reflexivity. Qed.

Example validate_codigo_ej :
  validate_codigo " a1-x " = Valido "A1-X" /\
  validate_codigo "   " = Invalido "Codigo vacio" /\
  validate_codigo
    "123456789012345678901234567890123456789012345678901"
  = Invalido "Codigo muy largo".
Proof. repeat split. Qed.

Example validate_cantidad_ej :
  validate_cantidad (Flotante 1250) = Valido 1250 /\
  validate_cantidad (Flotante (-1)) = Invalido "Cantidad negativa" /\
  validate_cantidad (Flotante 99999901) = Invalido "Cantidad muy grande" /\
  validate_cantidad (Flotante 99999900) = Valido 99999900 /\
  validate_cantidad ValueError = Invalido "Cantidad invalida".
Proof. repeat split. Qed.

(** ** The store *)



Lemma select_item_in d ses cod p n l :
  select_item d ses cod = (p, n) :: l ->
  In p (items_corte d) /\ where_sesion_codigo ses cod p = true /\
  n = join_nombre_equipo d (ultimo_equipo_id p).
Proof.
  unfold select_item. intros H.
  destruct (filter (where_sesion_codigo ses cod) (items_corte d))
    as [|q l'] eqn:E; [discriminate|].
  simpl in H. inversion H; subst.
  assert (Hq : In p (filter (where_sesion_codigo ses cod) (items_corte d)))
    by (rewrite E; left; reflexivity).
  apply filter_In in Hq. destruct Hq; auto.
Qed.

Lemma escribir_conteo now cant nov eq r :
  escribir now
    [set_conteo_fisico cant; set_novedad (Some nov); set_fecha_conteo_now;
     set_ultimo_equipo_id eq] r
  = fila_contada now cant nov eq r.
Proof. reflexivity. Qed.

Lemma where_fila_contada ses cod now cant nov eq r :
  where_sesion_codigo ses cod (fila_contada now cant nov eq r)
  = where_sesion_codigo ses cod r.
Proof. reflexivity. Qed.

Lemma guardar_conteo_exito now a d cod cant tipo cant_ant s nom :
  app_sesion_id a = Some s ->
  pa_nombre (producto_actual a) = Some nom ->
  guardar_conteo now a d cod cant tipo cant_ant
  = Some (on_guardado_exitoso a, db_guardada now a d s cod cant tipo cant_ant,
          Guardado tipo cant).
Proof.
  intros Hs Hn. unfold guardar_conteo, db_guardada, nota.
  rewrite Hs, Hn. cbn [exec sql_update_conteo sql_insert_historial existsb
                   es_generada da_null_prohibido orb].
  cbn [with_items items_corte items_auto_increment equipos
       historial_movimientos].
  destruct (pa_es_nuevo (producto_actual a)); reflexivity.
Qed.

(** Rows of the saved store: those the WHERE selects hold the new count,
    team and time; the others are those of the store before. *)
Lemma db_guardada_filas now a d s cod cant tipo cant_ant r' :
  In r' (items_corte (db_guardada now a d s cod cant tipo cant_ant)) ->
  (where_sesion_codigo (Some s) cod r' = true /\
   exists r, In r (items_corte d) /\
             r' = fila_contada now cant (nota a) (app_equipo_id a) r) \/
  (where_sesion_codigo (Some s) cod r' = false /\ In r' (items_corte d)).
Proof.
  unfold db_guardada; cbn [items_corte]. intros H.
  apply in_map_iff in H. destruct H as [r [Hr Hin]].
  destruct (where_sesion_codigo (Some s) cod r) eqn:E.
  - left. subst r'. rewrite where_fila_contada. eauto.
  - right. subst r'. auto.
Qed.



(** ** Count Resolver *)











(** ** The generated column *)

Lemma regenerar_coherente r :
  diferencia (regenerar r)
  = conteo_fisico (regenerar r) - stock_sistema (regenerar r).
Proof. reflexivity. Qed.

Lemma escribir_coherente now sets r :
  diferencia (escribir now sets r)
  = conteo_fisico (escribir now sets r) - stock_sistema (escribir now sets r).
Proof. unfold escribir. apply regenerar_coherente. Qed.

Lemma exec_coherente now s d d' :
  diferencia_coherente d -> exec now s d = Exito d' -> diferencia_coherente d'.
Proof.
  unfold diferencia_coherente. intros Hd He.
  destruct s as [cols|sets w|ses cod eq tipo ant res]; cbn [exec] in He.
  - destruct (existsb es_generada cols); [discriminate|].
    destruct (negb (existsb da_sesion_id cols && existsb da_codigo cols));
      [discriminate|].
    destruct (existsb da_null_prohibido cols); [discriminate|].
    inversion He; subst; cbn [with_items items_corte].
    apply Forall_app. split; [assumption|].
    constructor; [apply escribir_coherente|constructor].
  - destruct (existsb es_generada sets); [discriminate|].
    destruct (existsb da_null_prohibido sets); [discriminate|].
    inversion He; subst; cbn [with_items items_corte].
    apply Forall_map. eapply Forall_impl; [|exact Hd].
    intros r Hr. cbn beta. destruct (w r); [apply escribir_coherente|exact Hr].
  - destruct ses; [|discriminate].
    inversion He; subst; cbn [items_corte]. assumption.
Qed.

Lemma exec_generada now s d :
  existsb es_generada (asignaciones s) = true ->
  exec now s d = Falla ER_GENERATED_COLUMN.
Proof.
  destruct s as [cols|sets w|ses cod eq tipo ant res]; cbn [asignaciones exec];
    intros H; [rewrite H; reflexivity|rewrite H; reflexivity|discriminate].
Qed.

Lemma emitida_no_generada s :
  emitida s -> existsb es_generada (asignaciones s) = false.
Proof. intros H; destruct H; reflexivity. Qed.

Lemma alcanzable_coherente d0 d :
  diferencia_coherente d0 -> alcanzable d0 d -> diferencia_coherente d.
Proof.
  intros H0 Ha. induction Ha as [|now s d d' _ IH _ He]; [assumption|].
  eapply exec_coherente; eassumption.
Qed.

Lemma alcanzable_trans d0 d1 d2 :
  alcanzable d0 d1 -> alcanzable d1 d2 -> alcanzable d0 d2.
Proof.
  intros H1 H2. induction H2 as [|now s d d' _ IH Hs He]; [assumption|].
  eapply alcanzable_exec; eassumption.
Qed.

Lemma exec_todas_alcanzable now l : forall d d',
  Forall emitida l -> exec_todas now l d = Exito d' -> alcanzable d d'.
Proof.
  induction l as [|s l IH]; intros d d' Hl He; cbn [exec_todas] in He.
  - inversion He; subst. apply alcanzable_inicio.
  - inversion Hl; subst.
    destruct (exec now s d) as [d1|e] eqn:E1; [|discriminate].
    eapply alcanzable_trans; [|apply IH; eassumption].
    eapply alcanzable_exec; [apply alcanzable_inicio|eassumption|eassumption].
Qed.

Lemma guardar_conteo_alcanzable now a d cod cant tipo cant_ant r :
  guardar_conteo now a d cod cant tipo cant_ant = Some r ->
  alcanzable d (snd (fst r)).
Proof.
  unfold guardar_conteo.
  destruct (pa_nombre (producto_actual a)); [|discriminate].
  destruct (exec now (sql_update_conteo _ _ _ _ _) d) as [d1|e] eqn:E1;
    [|intros H; inversion H; apply alcanzable_inicio].
  assert (H1 : alcanzable d d1).
  { eapply alcanzable_exec; [apply alcanzable_inicio| |exact E1]. constructor. }
  destruct (exec now (sql_insert_historial _ _ _ _ _ _) d1) as [d2|e] eqn:E2;
    intros H; inversion H; cbn [fst snd]; [|assumption].
  eapply alcanzable_exec; [exact H1| |exact E2]. constructor.
Qed.

Lemma guardar_en_try_alcanzable now a d cod cant tipo cant_ant :
  alcanzable d (snd (fst (guardar_en_try now a d cod cant tipo cant_ant))).
Proof.
  unfold guardar_en_try.
  destruct (guardar_conteo now a d cod cant tipo cant_ant) as [r|] eqn:E;
    [|apply alcanzable_inicio].
  eapply guardar_conteo_alcanzable; exact E.
Qed.

Lemma save_corte_alcanzable now d sesion df lineas stock d' :
  save_corte now d sesion df lineas stock = Exito d' -> alcanzable d d'.
Proof.
  unfold save_corte. destruct lineas as [|l0 lineas'].
  - intros H; inversion H; subst. apply alcanzable_inicio.
  - intros H. eapply exec_todas_alcanzable; [|exact H].
    apply Forall_flat_map. apply Forall_forall. intros [[cod nom] lin] _.
    destruct (existsb _ _); constructor; constructor.
Qed.

Lemma actualizar_stock_alcanzable now d ses stock conf d' :
  actualizar_stock now d ses stock conf = Some (Exito d') -> alcanzable d d'.
Proof.
  unfold actualizar_stock. destruct stock as [|x stock']; [discriminate|].
  destruct (filter (where_sesion ses) (items_corte d)) as [|i0 its] eqn:Ef;
    [discriminate|].
  destruct conf; cbn [negb]; [|discriminate].
  rewrite <- Ef. intros H.
  assert (H1 : forall x y : resultado db, Some x = Some y -> x = y)
    by (intros x0 y0 E; congruence).
  apply H1 in H.
  eapply exec_todas_alcanzable; [|exact H].
  apply Forall_map. apply Forall_forall. intros it _. constructor.
Qed.

Lemma paso_app_alcanzable now e a d :
  alcanzable d (snd (paso_app now e a d)).
Proof.
  destruct e; cbn [paso_app snd]; try apply alcanzable_inicio.
  - destruct (Py.truthy_id (app_sesion_id a)); apply alcanzable_inicio.
  - (* confirmar *)
    unfold confirmar. destruct (ventana a) as [[cod|? ? ? ? ?]|];
      cbn [fst snd]; try apply alcanzable_inicio.
    destruct (negb _); cbn [fst snd]; [apply alcanzable_inicio|].
    destruct (exec now _ d) as [d1|err] eqn:E; cbn [fst snd];
      [|apply alcanzable_inicio].
    eapply alcanzable_exec; [apply alcanzable_inicio| |exact E]. constructor.
  - (* pre_save *)
    unfold pre_save. destruct (ventana_abierta a); [apply alcanzable_inicio|].
    destruct (pa_codigo (producto_actual a)) as [cod|];
      [|apply alcanzable_inicio].
    destruct (negb _); [apply alcanzable_inicio|].
    destruct (validate_cantidad en_cantidad) as [cant|msg];
      [|apply alcanzable_inicio].
    destruct (select_item d (app_sesion_id a) cod) as [|x l];
      [apply guardar_en_try_alcanzable|].
    destruct (conteo_fisico (fst x) >? 0);
      [apply alcanzable_inicio|apply guardar_en_try_alcanzable].
  - (* sumar *)
    unfold sumar. destruct (ventana a) as [[cod|cod ca cn en f]|];
      try apply alcanzable_inicio.
    destruct (guardar_conteo now a d cod (ca + cn) SUMA ca)
      as [[[a1 d1] o]|] eqn:E; [|apply alcanzable_inicio].
    exact (guardar_conteo_alcanzable _ _ _ _ _ _ _ _ E).
  - (* reemplazar *)
    unfold reemplazar. destruct (ventana a) as [[cod|cod ca cn en f]|];
      try apply alcanzable_inicio.
    destruct (guardar_conteo now a d cod cn REEMPLAZO ca)
      as [[[a1 d1] o]|] eqn:E; [|apply alcanzable_inicio].
    exact (guardar_conteo_alcanzable _ _ _ _ _ _ _ _ E).
  - (* save_corte *)
    destruct lineas_sel as [|l0 ls]; [apply alcanzable_inicio|].
    destruct (save_corte now d sesion df_maestro (l0 :: ls) stock_calculado)
      as [d1|err] eqn:E; cbn [snd]; [|apply alcanzable_inicio].
    eapply save_corte_alcanzable; exact E.
  - (* actualizar_stock *)
    destruct (negb _); [apply alcanzable_inicio|].
    destruct (actualizar_stock now d (app_sesion_id a) stock_calculado confirmado)
      as [[d1|err]|] eqn:E; cbn [snd]; try apply alcanzable_inicio.
    eapply actualizar_stock_alcanzable; exact E.
Qed.

Lemma paso_alcanzable x s : alcanzable (snd s) (snd (paso x s)).
Proof.
  destruct x as [[now c] e]. unfold paso.
  destruct (nth_error (fst s) c) as [a|]; [|apply alcanzable_inicio].
  pose proof (paso_app_alcanzable now e a (snd s)) as H.
  destruct (paso_app now e a (snd s)) as [a' d']. exact H.
Qed.

Lemma correr_alcanzable l : forall s, alcanzable (snd s) (snd (correr l s)).
Proof.
  induction l as [|x l IH]; intros s; cbn [correr fold_left].
  - apply alcanzable_inicio.
  - eapply alcanzable_trans; [apply paso_alcanzable|apply IH].
Qed.

(** C4. No statement of the application gives a value to [diferencia]
    (the engine would refuse it), and in every store the clients can
    reach, by any sequence of their operations, every row holds
    [diferencia = conteo_fisico - stock_sistema]: each write of a row
    evaluates the column again. *)
Theorem diferencia_siempre_recalculada :
  (forall s, emitida s -> existsb es_generada (asignaciones s) = false) /\
  (forall now s d, existsb es_generada (asignaciones s) = true ->
                   exec now s d = Falla ER_GENERATED_COLUMN) /\
  (forall n eqs l r,
      In r (items_corte (snd (correr l (arranque n (mk_db [] 1 eqs []))))) ->
      diferencia r = conteo_fisico r - stock_sistema r) /\
  (forall now s d d' r,
      diferencia_coherente d -> emitida s -> exec now s d = Exito d' ->
      In r (items_corte d') ->
      diferencia r = conteo_fisico r - stock_sistema r).
Proof.
  split; [exact emitida_no_generada|].
  split; [exact exec_generada|].
  split.
  - intros n eqs l r Hin.
    assert (H : diferencia_coherente
                  (snd (correr l (arranque n (mk_db [] 1 eqs []))))).
    { eapply alcanzable_coherente; [|apply correr_alcanzable].
      constructor. }
    unfold diferencia_coherente in H. rewrite Forall_forall in H.
    apply H; assumption.
  - intros now s d d' r Hd _ He Hin.
    pose proof (exec_coherente _ _ _ _ Hd He) as H.
    unfold diferencia_coherente in H. rewrite Forall_forall in H.
    apply H; assumption.
Qed.

Lemma diferencia_siempre_recalculada_testigo :
  diferencia a1_contado = conteo_fisico a1_contado - stock_sistema a1_contado.
Proof.
  destruct diferencia_siempre_recalculada as [_ [_ [H _]]].
  apply (H 1%nat equipos_ej cuenta_a1 a1_contado).
  vm_compute. left. reflexivity.
Defined.

(** ** Aggregator *)

Lemma filter_filter {A : Type} (f g : A -> bool) (l : list A) :
  filter f (filter g l) = filter (fun x => g x && f x) l.
Proof.
  induction l as [|x l IH]; simpl; [reflexivity|].
  destruct (g x); simpl; [destruct (f x)|]; rewrite IH; reflexivity.
Qed.

Lemma filter_ext_in_bool {A : Type} (f g : A -> bool) (l : list A) :
  (forall x, In x l -> f x = g x) -> filter f l = filter g l.
Proof.
  induction l as [|x l IH]; simpl; intros H; [reflexivity|].
  rewrite (H x (or_introl eq_refl)), IH; [reflexivity|].
  intros y Hy. apply H. right. assumption.
Qed.

Lemma consulta_kpis_califica d ses filtro :
  consulta_kpis d ses filtro =
  let filas := filter (califica ses filtro) (items_corte d) in
  mk_kpis
    (Z.of_nat (List.length filas))
    (cuenta (fun r => conteo_fisico r >? 0) filas)
    (cuenta (fun r => (conteo_fisico r - stock_sistema r <? 0)
                      && (conteo_fisico r >? 0)) filas)
    (cuenta (fun r => conteo_fisico r - stock_sistema r >? 0) filas)
    (cuenta (fun r => (conteo_fisico r - stock_sistema r =? 0)
                      && (conteo_fisico r >? 0)) filas).
Proof. reflexivity. Qed.

Lemma consulta_kpis_filas d d' ses filtro :
  filter (califica ses filtro) (items_corte d)
  = filter (califica ses filtro) (items_corte d') ->
  consulta_kpis d ses filtro = consulta_kpis d' ses filtro.
Proof.
  intros H. rewrite !consulta_kpis_califica. cbv zeta. rewrite H. reflexivity.
Qed.

Lemma califica_sin_stock ses filtro r :
  stock_sistema r = 0 -> califica ses filtro r = false.
Proof.
  intros H. unfold califica. rewrite H.
  rewrite andb_false_r. reflexivity.
Qed.

Lemma califica_con_stock ses filtro r :
  califica ses filtro r = true -> negb (stock_sistema r =? 0) = true.
Proof.
  unfold califica. intros H. apply andb_true_iff in H. destruct H as [_ H].
  apply Z.gtb_lt in H. apply negb_true_iff, Z.eqb_neq. lia.
Qed.

Lemma sync_publica i a d c :
  nth_error (hilos_sync a) i = Some (Consultado c) ->
  tarjetas (sync_update_background i a d)
  = actualizar_tarjetas (tarjetas a) (kpis c) /\
  data_pendientes (sync_update_background i a d) = data_pend c /\
  data_diferencias (sync_update_background i a d) = data_dif c /\
  sync_counter (sync_update_background i a d) = sync_counter a + 1 /\
  sync_in_progress (sync_update_background i a d) = false /\
  hilos_sync (sync_update_background i a d) = quitar i (hilos_sync a).
Proof.
  intros H. unfold sync_update_background. rewrite H.
  repeat split; reflexivity.
Qed.




(** C5. The KPI query never sees a row whose stock is 0: its five counts
    are those of the store without such rows, so adding or removing a
    zero-stock row changes neither the counted rows nor the total.  The
    total is the number of rows of the session (and filter) with positive
    stock, the counted rows are those of them with a positive count, and a
    pass that finds a positive total publishes counted / total x 100 as
    progress (and exact / counted x 100 as accuracy when counted is
    positive). *)
Theorem avance_excluye_sin_stock :
  (forall d ses filtro,
      consulta_kpis d ses filtro
      = consulta_kpis
          (con_filas d
             (filter (fun r => negb (stock_sistema r =? 0)) (items_corte d)))
          ses filtro) /\
  (forall d ses filtro pre post x,
      stock_sistema x = 0 ->
      consulta_kpis (con_filas d (pre ++ x :: post)) ses filtro
      = consulta_kpis (con_filas d (pre ++ post)) ses filtro) /\
  (forall d ses filtro,
      total (consulta_kpis d ses filtro)
      = cuenta (califica ses filtro) (items_corte d) /\
      contados (consulta_kpis d ses filtro)
      = cuenta (fun r => califica ses filtro r && (conteo_fisico r >? 0))
          (items_corte d) /\
      exactos (consulta_kpis d ses filtro)
      = cuenta (fun r => califica ses filtro r
                         && ((conteo_fisico r - stock_sistema r =? 0)
                             && (conteo_fisico r >? 0)))
          (items_corte d)) /\
  (forall i a d c,
      nth_error (hilos_sync a) i = Some (Consultado c) ->
      (0 < total (kpis c) ->
       kpi_avance (tarjetas (sync_update_background i a d))
       = (inject_Z (contados (kpis c)) / inject_Z (total (kpis c))
          * inject_Z 100)%Q) /\
      (0 < contados (kpis c) ->
       kpi_exactitud (tarjetas (sync_update_background i a d))
       = (inject_Z (exactos (kpis c)) / inject_Z (contados (kpis c))
          * inject_Z 100)%Q)).
Proof.
  split; [|split; [|split]].
  - intros d ses filtro. apply consulta_kpis_filas.
    cbn [con_filas items_corte]. rewrite filter_filter.
    apply filter_ext_in_bool. intros r _.
    destruct (califica ses filtro r) eqn:E.
    + rewrite (califica_con_stock _ _ _ E). reflexivity.
    + rewrite andb_false_r. reflexivity.
  - intros d ses filtro pre post x Hx. apply consulta_kpis_filas.
    cbn [con_filas items_corte]. rewrite !filter_app. cbn [filter].
    rewrite (califica_sin_stock _ _ _ Hx). reflexivity.
  - intros d ses filtro. rewrite consulta_kpis_califica. cbv zeta.
    cbn [total contados exactos]. unfold cuenta.
    rewrite !filter_filter. repeat split; reflexivity.
  - intros i a d c H.
    destruct (sync_publica i a d c H) as [Ht _]. rewrite Ht.
    unfold actualizar_tarjetas. cbn [kpi_avance kpi_exactitud]. split; intros Hp.
    + apply Z.gtb_lt in Hp. rewrite Hp. reflexivity.
    + apply Z.gtb_lt in Hp. rewrite Hp. reflexivity.
Qed.

(** Five qualifying rows, two counted, one of them exact: the pass
    publishes a progress of 40 and an accuracy of 50. *)
Example avance_y_exactitud_de_cinco :
  let k := consulta_kpis d_cinco (Some 1) [] in
  total k = 5 /\ contados k = 2 /\ exactos k = 1 /\ faltantes k = 1 /\
  (kpi_avance (actualizar_tarjetas (tarjetas app_inicial) k) == inject_Z 40)%Q
  /\
  (kpi_exactitud (actualizar_tarjetas (tarjetas app_inicial) k)
   == inject_Z 50)%Q.
Proof. repeat split. Qed.

Lemma avance_excluye_sin_stock_testigo :
  consulta_kpis
    (con_filas (db_de extra_x9) ([a1_contado] ++ x9_contado :: [])) (Some 1) []
  = consulta_kpis (con_filas (db_de extra_x9) ([a1_contado] ++ [])) (Some 1) []
  /\
  kpi_avance (tarjetas (sync_update_background 0 (app_de extra_x9)
                          (db_de extra_x9)))
  = (inject_Z 1 / inject_Z 2 * inject_Z 100)%Q.
Proof.
  destruct avance_excluye_sin_stock as [_ [H2 [_ H4]]].
  split.
  - apply (H2 (db_de extra_x9) (Some 1) [] [a1_contado] [] x9_contado).
    reflexivity.
  - refine (proj1 (H4 0%nat (app_de extra_x9) (db_de extra_x9)
                     (mk_consulta (mk_kpis 2 1 0 0 1)
                        [("B2", Some "Tuerca", 500)]
                        [("X9", Some "PERNO", 400, 0)]) _) _).
    + reflexivity.
    + reflexivity.
Defined.

Lemma exactitud_sin_contados i a d c :
  nth_error (hilos_sync a) i = Some (Consultado c) ->
  contados (kpis c) = 0 ->
  kpi_exactitud (tarjetas (sync_update_background i a d))
  = kpi_exactitud (tarjetas a).
Proof.
  intros H Hc. destruct (sync_publica i a d c H) as [Ht _]. rewrite Ht.
  unfold actualizar_tarjetas. cbn [kpi_exactitud]. rewrite Hc. reflexivity.
Qed.

(** C6. The code at a session where nothing is counted.  Team 1 counts A1
    exactly in session 1 and the panel shows an accuracy of 100; session 2
    is then created and selected, and its pass is run to the end.  Session
    2 has one qualifying row and no counted row, yet the accuracy card
    still shows the 100 of session 1: the pass only writes the card when
    the number of counted rows is positive. *)
Theorem exactitud_obsoleta_en_corte_sin_conteos :
  app_sesion_id (app_de segundo_corte) = Some 2 /\
  hilos_sync (app_de segundo_corte) = [] /\
  contados (consulta_kpis (db_de segundo_corte) (Some 2) []) = 0 /\
  kpi_total (tarjetas (app_de segundo_corte)) = 1 /\
  kpi_exactitud (tarjetas (app_de segundo_corte)) = (100 # 1)%Q /\
  ~ (kpi_exactitud (tarjetas (app_de segundo_corte)) == inject_Z 0)%Q.
Proof.
  repeat split; try reflexivity.
  vm_compute. discriminate.
Qed.

(** ** Sync Scheduler *)

Lemma sync_exclusiva_ext a b :
  sync_in_progress b = sync_in_progress a ->
  hilos_sync b = hilos_sync a ->
  sync_exclusiva a -> sync_exclusiva b.
Proof. unfold sync_exclusiva. intros -> ->. auto. Qed.

Lemma sync_exclusiva_inicial : sync_exclusiva app_inicial.
Proof. split; [cbn; lia|intros H; exfalso; apply H; reflexivity]. Qed.

Lemma sync_update_exclusiva a : sync_exclusiva a -> sync_exclusiva (sync_update a).
Proof.
  intros [Hl Hf]. unfold sync_update.
  destruct (sync_in_progress a) eqn:E; [split; [assumption|intros _; exact E]|].
  destruct (hilos_sync a) as [|h l] eqn:Eh.
  - split; cbn; [lia|reflexivity].
  - assert (false = true) by (apply Hf; discriminate). discriminate.
Qed.

Lemma refresh_all_exclusiva a : sync_exclusiva a -> sync_exclusiva (refresh_all a).
Proof.
  intros H. unfold refresh_all. apply sync_update_exclusiva.
  eapply sync_exclusiva_ext; [| |exact H]; reflexivity.
Qed.

Lemma sync_loop_tick_exclusiva a :
  sync_exclusiva a -> sync_exclusiva (sync_loop_tick a).
Proof.
  intros H. unfold sync_loop_tick.
  destruct (Py.truthy_id _); [apply sync_update_exclusiva|]; assumption.
Qed.

Lemma length_quitar {A : Type} (i : nat) (l : list A) :
  (List.length (quitar i l) <= List.length l)%nat.
Proof.
  revert i; induction l as [|x l IH]; intros [|i]; cbn; try lia.
  specialize (IH i). lia.
Qed.

Lemma length_poner {A : Type} (i : nat) (y : A) (l : list A) :
  List.length (poner i y l) = List.length l.
Proof.
  revert i; induction l as [|x l IH]; intros [|i]; cbn; try reflexivity.
  rewrite IH. reflexivity.
Qed.

Lemma quitar_unico {A : Type} (i : nat) (l : list A) (x : A) :
  (List.length l <= 1)%nat -> nth_error l i = Some x -> quitar i l = [].
Proof.
  destruct l as [|y [|z l]]; cbn; intros Hl Hn.
  - destruct i; discriminate.
  - destruct i as [|i]; [reflexivity|]. destruct i; discriminate.
  - lia.
Qed.

Lemma no_vacia_length {A : Type} (l l' : list A) :
  (List.length l' <= List.length l)%nat -> l' <> [] -> l <> [].
Proof. destruct l; destruct l'; cbn; intros; try congruence; lia. Qed.

Lemma sync_update_background_exclusiva i a d :
  sync_exclusiva a -> sync_exclusiva (sync_update_background i a d).
Proof.
  intros [Hl Hf]. unfold sync_update_background.
  destruct (nth_error (hilos_sync a) i) as [[|c]|] eqn:E; [| |split; assumption].
  - destruct (negb (Py.truthy_id (app_sesion_id a))); split;
      cbn [with_sync hilos_sync sync_in_progress].
    + pose proof (length_quitar i (hilos_sync a)). lia.
    + intros H. apply Hf.
      eapply no_vacia_length; [apply (length_quitar i)|exact H].
    + rewrite length_poner. assumption.
    + intros H. apply Hf.
      eapply no_vacia_length; [|exact H]. rewrite length_poner. lia.
  - split; cbn [with_sync with_sync_counter with_datos hilos_sync
                sync_in_progress];
      rewrite (quitar_unico i (hilos_sync a) (Consultado c) Hl E).
    + cbn; lia.
    + intros H; exfalso; apply H; reflexivity.
Qed.

Lemma guardar_conteo_exclusiva now a d cod cant tipo cant_ant r :
  sync_exclusiva a ->
  guardar_conteo now a d cod cant tipo cant_ant = Some r ->
  sync_exclusiva (fst (fst r)).
Proof.
  intros H. unfold guardar_conteo.
  destruct (pa_nombre (producto_actual a)); [|discriminate].
  destruct (exec now _ d) as [d1|e];
    [|intros E; inversion E; exact H].
  destruct (exec now _ d1) as [d2|e]; intros E; inversion E; [|exact H].
  cbn [fst]. unfold on_guardado_exitoso. apply refresh_all_exclusiva.
  eapply sync_exclusiva_ext; [| |exact H]; reflexivity.
Qed.

Lemma guardar_en_try_exclusiva now a d cod cant tipo cant_ant :
  sync_exclusiva a ->
  sync_exclusiva (fst (fst (guardar_en_try now a d cod cant tipo cant_ant))).
Proof.
  intros H. unfold guardar_en_try.
  destruct (guardar_conteo now a d cod cant tipo cant_ant) as [r|] eqn:E;
    [|exact H].
  eapply guardar_conteo_exclusiva; eassumption.
Qed.

Lemma close_exclusiva a : sync_exclusiva a -> sync_exclusiva (close a).
Proof. intros H. eapply sync_exclusiva_ext; [| |exact H]; reflexivity. Qed.

Lemma paso_app_exclusiva now e a d :
  sync_exclusiva a -> sync_exclusiva (fst (paso_app now e a d)).
Proof.
  intros H. destruct e; cbn [paso_app fst].
  - apply refresh_all_exclusiva.
    eapply sync_exclusiva_ext; [| |exact H]; reflexivity.
  - exact H.
  - destruct (Py.truthy_id _); [|exact H]. cbn [fst].
    apply refresh_all_exclusiva.
    eapply sync_exclusiva_ext; [| |exact H]; reflexivity.
  - (* buscar_producto *)
    unfold buscar_producto.
    destruct (ventana_abierta a); [exact H|].
    destruct (_ || _); [exact H|].
    destruct (validate_codigo en_codigo) as [cod|msg]; [|exact H].
    destruct (select_item d (app_sesion_id a) cod) as [|[p nombre] l].
    + destruct resp_agregar; [|exact H].
      eapply sync_exclusiva_ext; [| |exact H]; reflexivity.
    + destruct (producto p);
        [|eapply sync_exclusiva_ext; [| |exact H]; reflexivity].
      destruct (ya_contado p); cbn [andb];
        [destruct (Py.ne_opt _ _); [destruct resp_conflicto|]|];
        (eapply sync_exclusiva_ext; [| |exact H]; reflexivity).
  - (* confirmar *)
    unfold confirmar. destruct (ventana a) as [[cod|? ? ? ? ?]|]; try exact H.
    destruct (negb _); [exact H|].
    destruct (exec now _ d) as [d1|err]; [|exact H].
    eapply sync_exclusiva_ext; [| |exact H]; reflexivity.
  - unfold cerrar_ventana. destruct (ventana a); [|exact H].
    apply close_exclusiva; exact H.
  - (* pre_save *)
    unfold pre_save. destruct (ventana_abierta a); [exact H|].
    destruct (pa_codigo (producto_actual a)) as [cod|]; [|exact H].
    destruct (negb _); [exact H|].
    destruct (validate_cantidad en_cantidad) as [cant|msg]; [|exact H].
    destruct (select_item d (app_sesion_id a) cod) as [|x l];
      [apply guardar_en_try_exclusiva; exact H|].
    destruct (conteo_fisico (fst x) >? 0);
      [|apply guardar_en_try_exclusiva; exact H].
    eapply sync_exclusiva_ext; [| |exact H]; reflexivity.
  - (* sumar *)
    unfold sumar. destruct (ventana a) as [[cod|cod ca cn en f]|]; try exact H.
    destruct (guardar_conteo now a d cod (ca + cn) SUMA ca)
      as [[[a1 d1] o]|] eqn:E; [|exact H].
    apply close_exclusiva.
    exact (guardar_conteo_exclusiva _ _ _ _ _ _ _ _ H E).
  - (* reemplazar *)
    unfold reemplazar.
    destruct (ventana a) as [[cod|cod ca cn en f]|]; try exact H.
    destruct (guardar_conteo now a d cod cn REEMPLAZO ca)
      as [[[a1 d1] o]|] eqn:E; [|exact H].
    apply close_exclusiva.
    exact (guardar_conteo_exclusiva _ _ _ _ _ _ _ _ H E).
  - apply sync_loop_tick_exclusiva; exact H.
  - apply refresh_all_exclusiva; exact H.
  - apply sync_update_background_exclusiva; exact H.
  - destruct lineas_sel as [|l0 ls]; [exact H|].
    destruct (save_corte _ _ _ _ _ _); [|exact H]. cbn [fst].
    apply refresh_all_exclusiva.
    eapply sync_exclusiva_ext; [| |exact H]; reflexivity.
  - destruct (negb _); [exact H|].
    destruct (actualizar_stock _ _ _ _ _) as [[d1|err]|]; try exact H.
    apply refresh_all_exclusiva; exact H.
Qed.

Lemma Forall_poner {A : Type} (P : A -> Prop) (i : nat) (y : A) (l : list A) :
  P y -> Forall P l -> Forall P (poner i y l).
Proof.
  intros Hy. revert i. induction l as [|x l IH]; intros i Hl; destruct i;
    cbn; try constructor; inversion Hl; subst; auto.
Qed.

Lemma Forall_nth_error {A : Type} (P : A -> Prop) (i : nat) (x : A) (l : list A) :
  Forall P l -> nth_error l i = Some x -> P x.
Proof.
  intros Hl Hn. rewrite Forall_forall in Hl. apply Hl.
  eapply nth_error_In; eassumption.
Qed.

Lemma paso_exclusiva x s :
  Forall sync_exclusiva (fst s) -> Forall sync_exclusiva (fst (paso x s)).
Proof.
  destruct x as [[now c] e]. unfold paso. intros H.
  destruct (nth_error (fst s) c) as [a|] eqn:E; [|exact H].
  pose proof (paso_app_exclusiva now e a (snd s)
                (Forall_nth_error _ _ _ _ H E)) as G.
  destruct (paso_app now e a (snd s)) as [a' d']. cbn [fst] in *.
  apply Forall_poner; assumption.
Qed.

Lemma correr_exclusiva l : forall s,
  Forall sync_exclusiva (fst s) -> Forall sync_exclusiva (fst (correr l s)).
Proof.
  induction l as [|x l IH]; intros s H; cbn [correr fold_left]; [exact H|].
  apply IH. apply paso_exclusiva. exact H.
Qed.

Lemma arranque_exclusiva n d : Forall sync_exclusiva (fst (arranque n d)).
Proof.
  cbn [arranque fst]. apply Forall_forall. intros a Ha.
  apply repeat_spec in Ha. subst. apply sync_exclusiva_inicial.
Qed.

Lemma sync_loop_tick_en_curso a :
  sync_in_progress a = true -> sync_loop_tick a = a.
Proof.
  intros H. unfold sync_loop_tick, sync_update. rewrite H.
  destruct (Py.truthy_id _); reflexivity.
Qed.

Lemma ocioso_sin_hilos a :
  sync_exclusiva a -> sync_in_progress a = false -> hilos_sync a = [].
Proof.
  intros [_ Hf] H. destruct (hilos_sync a) as [|h l]; [reflexivity|].
  assert (sync_in_progress a = true) by (apply Hf; discriminate). congruence.
Qed.

Lemma alcanzado_exclusiva n d0 l a :
  In a (fst (correr l (arranque n d0))) -> sync_exclusiva a.
Proof.
  intros Hin.
  pose proof (correr_exclusiva l _ (arranque_exclusiva n d0)) as H.
  rewrite Forall_forall in H. exact (H a Hin).
Qed.

(** C7. In every state the clients can reach, a client has at most one
    synchronisation thread alive, and its flag is set while one is.  A
    wake-up of the timer that finds the flag set changes nothing.  So,
    from an idle client with a session, a first wake-up starts one pass;
    two more wake-ups while it runs (before or after its queries) are
    dropped; and when the pass ends the counter of passes has advanced by
    exactly one. *)
Theorem pases_de_sync_no_se_solapan :
  (forall n d0 l a,
      In a (fst (correr l (arranque n d0))) ->
      (List.length (hilos_sync a) <= 1)%nat /\
      (hilos_sync a <> [] -> sync_in_progress a = true)) /\
  (forall a, sync_in_progress a = true -> sync_loop_tick a = a) /\
  (forall a d,
      sync_exclusiva a ->
      sync_in_progress a = false ->
      Py.truthy_id (app_sesion_id a) = true ->
      let a1 := sync_loop_tick a in
      hilos_sync a1 = [Lanzado] /\
      sync_loop_tick (sync_loop_tick a1) = a1 /\
      sync_loop_tick (sync_loop_tick (sync_update_background 0 a1 d))
      = sync_update_background 0 a1 d /\
      let a2 := terminar_hilos 1 (sync_loop_tick (sync_loop_tick a1)) d in
      hilos_sync a2 = [] /\ sync_in_progress a2 = false /\
      sync_counter a2 = sync_counter a + 1).
Proof.
  split; [|split].
  - intros n d0 l a Hin. exact (alcanzado_exclusiva n d0 l a Hin).
  - exact sync_loop_tick_en_curso.
  - intros a d Hex Hflag Hs.
    pose proof (ocioso_sin_hilos a Hex Hflag) as Hh.
    assert (E1 : sync_loop_tick a = with_sync a true [Lanzado]).
    { unfold sync_loop_tick, sync_update. rewrite Hs, Hflag, Hh. reflexivity. }
    cbv zeta. rewrite E1.
    assert (E2 : sync_update_background 0 (with_sync a true [Lanzado]) d
                 = with_sync a true
                     [Consultado (consultas (with_sync a true [Lanzado]) d)]).
    { unfold sync_update_background.
      cbn [with_sync hilos_sync nth_error app_sesion_id sync_in_progress].
      rewrite Hs. reflexivity. }
    assert (Hc : forall h, sync_loop_tick (with_sync a true h)
                           = with_sync a true h)
      by (intros h; apply sync_loop_tick_en_curso; reflexivity).
    split; [reflexivity|].
    split; [rewrite !Hc; reflexivity|].
    split; [rewrite E2, !Hc; reflexivity|].
    rewrite !Hc. cbn [terminar_hilos]. rewrite E2.
    repeat split; reflexivity.
Qed.

(** Three wake-ups of the timer around one pass: one pass is run. *)
Example tres_ticks_un_pase :
  hilos_sync (app_de tres_ticks) = [] /\
  sync_in_progress (app_de tres_ticks) = false /\
  sync_counter (app_de tres_ticks) = sync_counter (app_de busca_a1) + 1.
Proof. vm_compute. repeat split. Qed.

Lemma pases_de_sync_no_se_solapan_testigo :
  let a := app_de busca_a1 in
  let a1 := sync_loop_tick a in
  hilos_sync a1 = [Lanzado] /\
  sync_loop_tick (sync_loop_tick a1) = a1 /\
  sync_loop_tick (sync_loop_tick (sync_update_background 0 a1 (db_de busca_a1)))
  = sync_update_background 0 a1 (db_de busca_a1) /\
  let a2 := terminar_hilos 1 (sync_loop_tick (sync_loop_tick a1))
              (db_de busca_a1) in
  hilos_sync a2 = [] /\ sync_in_progress a2 = false /\
  sync_counter a2 = sync_counter a + 1.
Proof.
  destruct pases_de_sync_no_se_solapan as [_ [_ H3]].
  apply (H3 (app_de busca_a1) (db_de busca_a1)).
  - apply (alcanzado_exclusiva 1%nat d0 busca_a1).
    vm_compute. left. reflexivity.
  - reflexivity.
  - reflexivity.
Defined.

(** A refresh asked before any session is selected: the thread leaves at
    its first test, outside the [try] whose [finally] releases the flag;
    the flag stays set with no thread alive, and from then on every
    wake-up of the timer is dropped. *)
Lemma bandera_retenida_sin_sesion a d :
  sync_exclusiva a ->
  sync_in_progress a = false ->
  Py.truthy_id (app_sesion_id a) = false ->
  let a' := sync_update_background 0 (refresh_all a) d in
  hilos_sync a' = [] /\ sync_in_progress a' = true /\
  (forall b, sync_in_progress b = true -> hilos_sync b = [] ->
             sync_loop_tick b = b /\ hilos_sync (refresh_all b) = []).
Proof.
  intros Hex Hflag Hs. pose proof (ocioso_sin_hilos a Hex Hflag) as Hh.
  assert (E1 : refresh_all a
               = with_sync (with_sync_counter a 2) true [Lanzado]).
  { unfold refresh_all, sync_update.
    cbn [with_sync_counter sync_in_progress hilos_sync].
    rewrite Hflag, Hh. reflexivity. }
  cbv zeta. rewrite E1. unfold sync_update_background.
  cbn [with_sync with_sync_counter hilos_sync nth_error app_sesion_id
       sync_in_progress].
  rewrite Hs. cbn [negb quitar with_sync hilos_sync sync_in_progress].
  split; [reflexivity|]. split; [reflexivity|].
  intros b Hb Hhb. split; [apply sync_loop_tick_en_curso; exact Hb|].
  unfold refresh_all, sync_update.
  cbn [with_sync_counter sync_in_progress hilos_sync]. rewrite Hb.
  exact Hhb.
Qed.





(** ** Extra items *)

Lemma select_item_length d ses cod :
  List.length (select_item d ses cod)
  = List.length (filter (where_sesion_codigo ses cod) (items_corte d)).
Proof. unfold select_item. apply length_map. Qed.

Lemma where_sesion_codigo_refl s cod r :
  sesion_id r = s -> codigo r = cod ->
  where_sesion_codigo (Some s) cod r = true.
Proof.
  intros <- <-. unfold where_sesion_codigo.
  rewrite Z.eqb_refl, String.eqb_refl. reflexivity.
Qed.

(** C9 (counterexample).  Two clients look X9 up before either has added
    it; the first confirms and the row exists; the second then confirms
    too: it is told the item was added, and the session holds two rows
    with the code X9. *)
Lemma alta_repetida_crea_otra_fila :
  ventana cliente1_dos_altas = Some (VentanaAlta "X9") /\
  List.length (select_item db_dos_altas (Some 1) "X9") = 1%nat /\
  snd (confirmar 113 cliente1_dos_altas db_dos_altas "perno" "")
  = AltaConfirmada /\
  List.length
    (select_item
       (snd (fst (confirmar 113 cliente1_dos_altas db_dos_altas "perno" "")))
       (Some 1) "X9") = 2%nat.
Proof.
  split; [vm_compute; reflexivity|].
  split; [vm_compute; reflexivity|].
  split; vm_compute; reflexivity.
Qed.

(** C9 (amended).  CONFIRMAR inserts one row for the code with stock 0 and
    count 0, whatever rows the store already holds: there is no test for an
    existing code and no duplicate error, so the session has one more row
    with that code than before.  The window is opened only by a lookup
    that found no row with the code in the session; confirmed on the store
    of that lookup, it leaves exactly one row with the code. *)
Theorem alta_inserta_sin_stock :
  (forall now a d cod en_nom en_lin s,
      ventana a = Some (VentanaAlta cod) ->
      app_sesion_id a = Some s ->
      Py.truthy_str (Py.upper (Py.strip en_nom)) = true ->
      exists a' fila,
        confirmar now a d en_nom en_lin
        = (a', con_filas
                 (mk_db (items_corte d) (items_auto_increment d + 1)
                    (equipos d) (historial_movimientos d))
                 (items_corte d ++ [fila]),
           AltaConfirmada) /\
        id fila = items_auto_increment d /\
        sesion_id fila = s /\ codigo fila = cod /\
        stock_sistema fila = 0 /\ conteo_fisico fila = 0 /\
        diferencia fila = 0 /\
        List.length
          (select_item (snd (fst (confirmar now a d en_nom en_lin)))
             (Some s) cod)
        = S (List.length (select_item d (Some s) cod))) /\
  (forall a d en_codigo rc ra a' agregar,
      buscar_producto a d en_codigo rc ra = (a', NoEncontrado agregar) ->
      exists cod,
        validate_codigo en_codigo = Valido cod /\
        select_item d (app_sesion_id a) cod = [] /\
        (agregar = true -> ventana a' = Some (VentanaAlta cod)) /\
        (agregar = false -> a' = a)).
Proof.
  split.
  - intros now a d cod en_nom en_lin s Hv Hs Hn.
    set (fila := mk_item (items_auto_increment d) s cod
                   (Some (Py.upper (Py.strip en_nom)))
                   (Some (Py.str_or (Py.upper (Py.strip en_lin)) "SIN LINEA"))
                   0 0 0 None None None).
    assert (E : confirmar now a d en_nom en_lin
                = (close
                     (with_producto a
                        (mk_producto_actual (Some cod)
                           (Some (Py.upper (Py.strip en_nom)))
                           (Some (Py.str_or (Py.upper (Py.strip en_lin))
                                    "SIN LINEA")) 0 true)),
                   con_filas
                     (mk_db (items_corte d) (items_auto_increment d + 1)
                        (equipos d) (historial_movimientos d))
                     (items_corte d ++ [fila]),
                   AltaConfirmada)).
    { unfold confirmar. rewrite Hv, Hn, Hs. reflexivity. }
    eexists. exists fila. split; [exact E|].
    repeat (split; [reflexivity|]).
    rewrite E. cbn [fst snd]. rewrite !select_item_length.
    cbn [con_filas items_corte]. rewrite filter_app, length_app.
    cbn [filter].
    rewrite (where_sesion_codigo_refl s cod fila eq_refl eq_refl).
    cbn [List.length]. lia.
  - intros a d en rc ra a' agregar. unfold buscar_producto.
    destruct (ventana_abierta a); [discriminate|].
    destruct (_ || _); [discriminate|].
    destruct (validate_codigo en) as [cod|msg] eqn:Ev; [|discriminate].
    destruct (select_item d (app_sesion_id a) cod) as [|[p nombre] l] eqn:Es.
    + destruct ra; intros H; inversion H; subst; exists cod;
        (split; [reflexivity|]); (split; [exact Es|]);
        split; intros E; (reflexivity || discriminate).
    + destruct (producto p); [|discriminate].
      destruct (ya_contado p && _); discriminate.
Qed.

Lemma alta_inserta_sin_stock_testigo :
  exists a' fila,
    confirmar 113 cliente1_dos_altas db_dos_altas "perno" ""
    = (a', con_filas
             (mk_db (items_corte db_dos_altas)
                (items_auto_increment db_dos_altas + 1)
                (equipos db_dos_altas) (historial_movimientos db_dos_altas))
             (items_corte db_dos_altas ++ [fila]),
       AltaConfirmada) /\
    id fila = items_auto_increment db_dos_altas /\
    sesion_id fila = 1 /\ codigo fila = "X9" /\
    stock_sistema fila = 0 /\ conteo_fisico fila = 0 /\
    diferencia fila = 0 /\
    List.length
      (select_item
         (snd (fst (confirmar 113 cliente1_dos_altas db_dos_altas "perno" "")))
         (Some 1) "X9")
    = S (List.length (select_item db_dos_altas (Some 1) "X9")).
Proof.
  destruct alta_inserta_sin_stock as [H _].
  apply (H 113 cliente1_dos_altas db_dos_altas "X9" "perno" "" 1);
    vm_compute; reflexivity.
Defined.

(** ** The zero count *)


Lemma filter_map_agree {A : Type} (g : A -> bool) (f : A -> A) (l : list A) :
  (forall r, In r l -> g (f r) = g r) ->
  filter g (map f l) = map f (filter g l).
Proof.
  induction l as [|x l IH]; intros H; cbn [map filter]; [reflexivity|].
  rewrite (H x (or_introl eq_refl)), IH
    by (intros r Hr; apply H; right; exact Hr).
  destruct (g x); reflexivity.
Qed.


Lemma In_firstn {A : Type} (n : nat) (l : list A) (x : A) :
  In x (firstn n l) -> In x l.
Proof.
  revert l; induction n as [|n IH]; intros [|y l]; cbn; try tauto.
  intros [H|H]; [left; exact H|right; apply IH; exact H].
Qed.


Lemma siguiente_es_nuevo now b d s cod nom en cant :
  ventana_abierta b = false ->
  pa_codigo (producto_actual b) = Some cod ->
  pa_nombre (producto_actual b) = Some nom ->
  Py.truthy_str cod = true ->
  app_sesion_id b = Some s ->
  validate_cantidad en = Valido cant ->
  (forall r, In r (items_corte d) ->
             where_sesion_codigo (Some s) cod r = true -> conteo_fisico r = 0) ->
  pre_save now b d en
  = (on_guardado_exitoso b, db_guardada now b d s cod cant NUEVO 0,
     Guardado NUEVO cant).
Proof.
  intros Hv Hc Hnom Ht Hs Hval H0. unfold pre_save.
  rewrite Hv, Hc, Ht, Hval. cbn [negb].
  assert (G : guardar_en_try now b d cod cant NUEVO 0
              = (on_guardado_exitoso b, db_guardada now b d s cod cant NUEVO 0,
                 Guardado NUEVO cant)).
  { unfold guardar_en_try.
    rewrite (guardar_conteo_exito _ _ _ _ _ _ _ s nom Hs Hnom). reflexivity. }
  destruct (select_item d (app_sesion_id b) cod) as [|[p n] l] eqn:E.
  - exact G.
  - rewrite Hs in E. apply select_item_in in E. destruct E as [Hin [Hw _]].
    cbn [fst]. rewrite (H0 p Hin Hw). cbn [Z.gtb Z.compare]. exact G.
Qed.




(** ** Well-formed states

    The counts of the store are never negative and a loaded product
    always has a name: the side conditions of the statements above hold in
    every state the clients can reach. *)

Lemma exec_conserva (P : item -> Prop) now s d d' :
  conserva P now s ->
  Forall P (items_corte d) -> exec now s d = Exito d' ->
  Forall P (items_corte d').
Proof.
  intros Hc Hd He.
  destruct s as [cols|sets w|ses cod eq tipo ant res]; cbn [exec conserva] in *.
  - destruct (existsb es_generada cols); [discriminate|].
    destruct (negb _); [discriminate|].
    destruct (existsb da_null_prohibido cols); [discriminate|].
    inversion He; subst; cbn [with_items items_corte].
    apply Forall_app. split; [assumption|]. constructor; [apply Hc|constructor].
  - destruct (existsb es_generada sets); [discriminate|].
    destruct (existsb da_null_prohibido sets); [discriminate|].
    inversion He; subst; cbn [with_items items_corte].
    apply Forall_map. eapply Forall_impl; [|exact Hd].
    intros r Hr. cbn beta. destruct (w r); [apply Hc; exact Hr|exact Hr].
  - destruct ses; [|discriminate].
    inversion He; subst; cbn [items_corte]. assumption.
Qed.

Lemma exec_todas_conserva (P : item -> Prop) now l : forall d d',
  Forall (conserva P now) l ->
  Forall P (items_corte d) -> exec_todas now l d = Exito d' ->
  Forall P (items_corte d').
Proof.
  induction l as [|s l IH]; intros d d' Hl Hd He; cbn [exec_todas] in He.
  - inversion He; subst. assumption.
  - inversion Hl; subst.
    destruct (exec now s d) as [d1|e] eqn:E1; [|discriminate].
    eapply IH; [eassumption| |eassumption].
    eapply exec_conserva; eassumption.
Qed.

Lemma validate_cantidad_rango en cant :
  validate_cantidad en = Valido cant -> 0 <= cant <= CANTIDAD_MAXIMA.
Proof.
  destruct en as [|c]; cbn [validate_cantidad]; [discriminate|].
  destruct (c <? 0) eqn:E1; [discriminate|].
  destruct (c >? CANTIDAD_MAXIMA) eqn:E2; [discriminate|].
  intros H; inversion H; subst. apply Z.ltb_ge in E1.
  destruct (Z.gtb_spec cant CANTIDAD_MAXIMA); [discriminate|lia].
Qed.

Lemma app_bien_formada_ext a b :
  ventana b = ventana a -> producto_actual b = producto_actual a ->
  app_bien_formada a -> app_bien_formada b.
Proof.
  unfold app_bien_formada, ventana_no_negativa. intros -> ->. auto.
Qed.

Lemma limpiar_form_bien_formada a :
  app_bien_formada a -> app_bien_formada (limpiar_form a).
Proof.
  intros [Hv _]. split; [exact Hv|].
  cbn. intros H; exfalso; apply H; reflexivity.
Qed.

Lemma refresh_all_bien_formada a :
  app_bien_formada a -> app_bien_formada (refresh_all a).
Proof.
  apply app_bien_formada_ext; unfold refresh_all, sync_update;
    cbn [with_sync_counter sync_in_progress];
    destruct (sync_in_progress a); reflexivity.
Qed.

Lemma close_bien_formada a :
  app_bien_formada a -> app_bien_formada (close a).
Proof. intros [_ Hn]. split; [exact I|exact Hn]. Qed.

Lemma guardar_conteo_bien_formado now a d cod cant tipo cant_ant r :
  0 <= cant ->
  app_bien_formada a -> db_bien_formada d ->
  guardar_conteo now a d cod cant tipo cant_ant = Some r ->
  app_bien_formada (fst (fst r)) /\ db_bien_formada (snd (fst r)).
Proof.
  intros Hc Ha Hd. unfold guardar_conteo.
  destruct (pa_nombre (producto_actual a)); [|discriminate].
  destruct (exec now (sql_update_conteo _ _ _ _ _) d) as [d1|e] eqn:E1;
    [|intros H; inversion H; split; assumption].
  assert (H1 : db_bien_formada d1).
  { eapply exec_conserva; [|exact Hd|exact E1].
    intros x [_ Hx]. split; [exact Hc|exact Hx]. }
  destruct (exec now (sql_insert_historial _ _ _ _ _ _) d1) as [d2|e] eqn:E2;
    intros H; inversion H; cbn [fst snd]; [|split; assumption].
  split.
  - apply refresh_all_bien_formada, limpiar_form_bien_formada. exact Ha.
  - eapply exec_conserva; [|exact H1|exact E2]. exact I.
Qed.

Lemma guardar_en_try_bien_formado now a d cod cant tipo cant_ant :
  0 <= cant ->
  app_bien_formada a -> db_bien_formada d ->
  app_bien_formada (fst (fst (guardar_en_try now a d cod cant tipo cant_ant)))
  /\ db_bien_formada (snd (fst (guardar_en_try now a d cod cant tipo cant_ant))).
Proof.
  intros Hc Ha Hd. unfold guardar_en_try.
  destruct (guardar_conteo now a d cod cant tipo cant_ant) as [r|] eqn:E;
    [|split; assumption].
  eapply guardar_conteo_bien_formado; eassumption.
Qed.

Lemma paso_app_bien_formado now e a d :
  app_bien_formada a -> db_bien_formada d ->
  app_bien_formada (fst (paso_app now e a d)) /\
  db_bien_formada (snd (paso_app now e a d)).
Proof.
  intros Ha Hd. destruct e; cbn [paso_app fst snd].
  - split; [|exact Hd]. apply refresh_all_bien_formada.
    eapply app_bien_formada_ext; [| |exact Ha]; reflexivity.
  - split; [|exact Hd].
    eapply app_bien_formada_ext; [| |exact Ha]; reflexivity.
  - destruct (Py.truthy_id _); cbn [fst snd]; split; try assumption.
    apply refresh_all_bien_formada.
    eapply app_bien_formada_ext; [| |exact Ha]; reflexivity.
  - (* buscar_producto *)
    split; [|exact Hd]. unfold buscar_producto.
    destruct (ventana_abierta a); [exact Ha|].
    destruct (_ || _); [exact Ha|].
    destruct (validate_codigo en_codigo) as [cod|msg]; [|exact Ha].
    destruct (select_item d (app_sesion_id a) cod) as [|[p nombre] l] eqn:Es.
    + destruct resp_agregar; [|exact Ha].
      destruct Ha as [_ Hn]. split; [exact I|exact Hn].
    + destruct (select_item_in _ _ _ _ _ _ Es) as [Hin _].
      unfold db_bien_formada in Hd. rewrite Forall_forall in Hd.
      destruct (Hd p Hin) as [_ Hp].
      destruct (producto p) as [nom|] eqn:Ep; [|exfalso; apply Hp; reflexivity].
      destruct Ha as [Hv _].
      assert (H2 : forall n,
                 app_bien_formada
                   (with_novedad
                      (with_producto a
                         (mk_producto_actual (Some cod) (Some nom) (linea p)
                            (stock_sistema p) false)) n)).
      { intros n. split; [exact Hv|]. cbn. intros _. discriminate. }
      destruct (ya_contado p); cbn [andb];
        [destruct (Py.ne_opt _ _); [destruct resp_conflicto|]|];
        cbn [fst mostrar_conflicto_equipo negb];
        try apply limpiar_form_bien_formada; apply H2.
  - (* confirmar *)
    unfold confirmar. destruct (ventana a) as [[cod|? ? ? ? ?]|] eqn:Ev;
      cbn [fst snd]; try (split; assumption).
    destruct (negb _); cbn [fst snd]; [split; assumption|].
    destruct (exec now _ d) as [d1|err] eqn:E; cbn [fst snd];
      [|split; assumption].
    split.
    + split; [exact I|]. cbn. intros _. discriminate.
    + eapply exec_conserva; [|exact Hd|exact E].
      intros i. split; cbn; [lia|discriminate].
  - split; [|exact Hd]. unfold cerrar_ventana.
    destruct (ventana a); cbn [fst]; [apply close_bien_formada|]; exact Ha.
  - (* pre_save *)
    unfold pre_save. destruct (ventana_abierta a); [split; assumption|].
    destruct (pa_codigo (producto_actual a)) as [cod|]; [|split; assumption].
    destruct (negb _); [split; assumption|].
    destruct (validate_cantidad en_cantidad) as [cant|msg] eqn:Ev;
      [|split; assumption].
    pose proof (validate_cantidad_rango _ _ Ev) as Hc.
    destruct (select_item d (app_sesion_id a) cod) as [|[p n] l] eqn:Es;
      [apply guardar_en_try_bien_formado; [lia|assumption|assumption]|].
    cbn [fst].
    destruct (conteo_fisico p >? 0);
      [|apply guardar_en_try_bien_formado; [lia|assumption|assumption]].
    cbn [fst snd]. split; [|exact Hd].
    destruct (select_item_in _ _ _ _ _ _ Es) as [Hin _].
    unfold db_bien_formada in Hd. rewrite Forall_forall in Hd.
    destruct (Hd p Hin) as [Hp _]. destruct Ha as [_ Hn].
    split; [cbn; split; [exact Hp|lia]|exact Hn].
  - (* sumar *)
    unfold sumar. destruct (ventana a) as [[cod|cod ca cn en f]|] eqn:Ev;
      try (split; assumption).
    destruct (guardar_conteo now a d cod (ca + cn) SUMA ca)
      as [[[a1 d1] o]|] eqn:E; [|split; assumption].
    assert (Hc : 0 <= ca + cn).
    { destruct Ha as [Hw _]. unfold ventana_no_negativa in Hw.
      rewrite Ev in Hw. lia. }
    destruct (guardar_conteo_bien_formado _ _ _ _ _ _ _ _ Hc Ha Hd E) as [G1 G2].
    cbn [fst snd] in *. split; [apply close_bien_formada|]; assumption.
  - (* reemplazar *)
    unfold reemplazar. destruct (ventana a) as [[cod|cod ca cn en f]|] eqn:Ev;
      try (split; assumption).
    destruct (guardar_conteo now a d cod cn REEMPLAZO ca)
      as [[[a1 d1] o]|] eqn:E; [|split; assumption].
    assert (Hc : 0 <= cn).
    { destruct Ha as [Hw _]. unfold ventana_no_negativa in Hw.
      rewrite Ev in Hw. lia. }
    destruct (guardar_conteo_bien_formado _ _ _ _ _ _ _ _ Hc Ha Hd E) as [G1 G2].
    cbn [fst snd] in *. split; [apply close_bien_formada|]; assumption.
  - split; [|exact Hd]. unfold sync_loop_tick, sync_update.
    eapply app_bien_formada_ext; [| |exact Ha];
      destruct (Py.truthy_id _); destruct (sync_in_progress a); reflexivity.
  - split; [|exact Hd]. apply refresh_all_bien_formada; exact Ha.
  - split; [|exact Hd]. unfold sync_update_background.
    eapply app_bien_formada_ext; [| |exact Ha];
      destruct (nth_error (hilos_sync a) i) as [[|c]|];
      try destruct (negb _); reflexivity.
  - (* save_corte *)
    destruct lineas_sel as [|l0 ls]; [split; assumption|].
    destruct (save_corte now d sesion df_maestro (l0 :: ls) stock_calculado)
      as [d1|err] eqn:E; cbn [fst snd]; [|split; assumption].
    split.
    + apply refresh_all_bien_formada.
      eapply app_bien_formada_ext; [| |exact Ha]; reflexivity.
    + unfold save_corte in E.
      eapply exec_todas_conserva; [|exact Hd|exact E].
      apply Forall_flat_map. apply Forall_forall. intros [[cod nom] lin] _.
      destruct (existsb _ _); constructor; [|constructor].
      intros i. split; cbn; [lia|discriminate].
  - (* actualizar_stock *)
    destruct (negb _); [split; assumption|].
    destruct (actualizar_stock now d (app_sesion_id a) stock_calculado confirmado)
      as [[d1|err]|] eqn:E; cbn [fst snd]; try (split; assumption).
    split; [apply refresh_all_bien_formada; exact Ha|].
    unfold actualizar_stock in E.
    destruct stock_calculado as [|x st]; [discriminate|].
    destruct (filter (where_sesion (app_sesion_id a)) (items_corte d))
      as [|i0 its] eqn:Ef; [discriminate|].
    destruct confirmado; cbn [negb] in E; [|discriminate].
    rewrite <- Ef in E.
    assert (H1 : forall x y : resultado db, Some x = Some y -> x = y)
      by (intros x0 y0 E0; congruence).
    apply H1 in E.
    eapply exec_todas_conserva; [|exact Hd|exact E].
    apply Forall_map. apply Forall_forall. intros it _.
    intros r Hr. exact Hr.
Qed.

Lemma paso_bien_formado x s :
  Forall app_bien_formada (fst s) /\ db_bien_formada (snd s) ->
  Forall app_bien_formada (fst (paso x s)) /\ db_bien_formada (snd (paso x s)).
Proof.
  destruct x as [[now c] e]. unfold paso. intros [Ha Hd].
  destruct (nth_error (fst s) c) as [a|] eqn:E; [|split; assumption].
  pose proof (paso_app_bien_formado now e a (snd s)
                (Forall_nth_error _ _ _ _ Ha E) Hd) as [G1 G2].
  destruct (paso_app now e a (snd s)) as [a' d']. cbn [fst snd] in *.
  split; [apply Forall_poner|]; assumption.
Qed.

(** In every state reached by clients started on a well-formed store, the
    store is well-formed and so is the form of every client. *)
Lemma correr_bien_formado l : forall s,
  Forall app_bien_formada (fst s) /\ db_bien_formada (snd s) ->
  Forall app_bien_formada (fst (correr l s)) /\
  db_bien_formada (snd (correr l s)).
Proof.
  induction l as [|x l IH]; intros s H; cbn [correr fold_left]; [exact H|].
  apply IH. apply paso_bien_formado. exact H.
Qed.

Lemma arranque_bien_formado n d :
  db_bien_formada d ->
  Forall app_bien_formada (fst (arranque n d)) /\
  db_bien_formada (snd (arranque n d)).
Proof.
  intros Hd. split; [|exact Hd].
  cbn [arranque fst]. apply Forall_forall. intros a Ha.
  apply repeat_spec in Ha. subst. split; [exact I|].
  cbn. intros H; exfalso; apply H; reflexivity.
Qed.

(** ** Codes *)

Lemma upper_char_idem c : Py.upper_char (Py.upper_char c) = Py.upper_char c.
Proof. destruct c as [[] [] [] [] [] [] [] []]; reflexivity. Qed.

Lemma is_space_upper_char c : Py.is_space (Py.upper_char c) = Py.is_space c.
Proof. destruct c as [[] [] [] [] [] [] [] []]; reflexivity. Qed.

Lemma upper_idem s : Py.upper (Py.upper s) = Py.upper s.
Proof.
  induction s as [|c s IH]; cbn; [reflexivity|].
  rewrite upper_char_idem, IH. reflexivity.
Qed.

Lemma lstrip_upper s : Py.lstrip (Py.upper s) = Py.upper (Py.lstrip s).
Proof.
  induction s as [|c s IH]; cbn; [reflexivity|].
  rewrite is_space_upper_char. destruct (Py.is_space c); [exact IH|reflexivity].
Qed.

Lemma rstrip_upper s : Py.rstrip (Py.upper s) = Py.upper (Py.rstrip s).
Proof.
  induction s as [|c s IH]; cbn; [reflexivity|].
  rewrite IH, is_space_upper_char.
  destruct (Py.rstrip s); cbn; [destruct (Py.is_space c)|]; reflexivity.
Qed.

Lemma strip_upper s : Py.strip (Py.upper s) = Py.upper (Py.strip s).
Proof. unfold Py.strip. rewrite lstrip_upper, rstrip_upper. reflexivity. Qed.

Lemma lstrip_sin_espacio s : sin_espacio_inicial (Py.lstrip s).
Proof.
  induction s as [|c s IH]; cbn; [exact I|].
  destruct (Py.is_space c) eqn:E; [exact IH|exact E].
Qed.

Lemma lstrip_fijo s : sin_espacio_inicial s -> Py.lstrip s = s.
Proof. destruct s as [|c s]; cbn; [reflexivity|]. intros ->. reflexivity. Qed.

Lemma rstrip_sin_espacio s :
  sin_espacio_inicial s -> sin_espacio_inicial (Py.rstrip s).
Proof.
  destruct s as [|c s]; cbn; [exact (fun H => H)|]. intros H.
  destruct (Py.rstrip s); [rewrite H|]; exact H.
Qed.

Lemma rstrip_idem s : Py.rstrip (Py.rstrip s) = Py.rstrip s.
Proof.
  induction s as [|c s IH]; cbn; [reflexivity|].
  destruct (Py.rstrip s) as [|c' t] eqn:E.
  - destruct (Py.is_space c) eqn:Ec; cbn; [reflexivity|]. rewrite Ec. reflexivity.
  - cbn [Py.rstrip] in *. rewrite IH. reflexivity.
Qed.

Lemma strip_idem s : Py.strip (Py.strip s) = Py.strip s.
Proof.
  unfold Py.strip.
  rewrite (lstrip_fijo (Py.rstrip (Py.lstrip s))).
  - apply rstrip_idem.
  - apply rstrip_sin_espacio, lstrip_sin_espacio.
Qed.

Lemma rstrip_sin_espacio_final s : sin_espacio_final (Py.rstrip s).
Proof.
  induction s as [|c s IH]; cbn; [exact I|].
  destruct (Py.rstrip s) as [|c' t] eqn:E.
  - destruct (Py.is_space c) eqn:Ec; cbn; [exact I|exact Ec].
  - exact IH.
Qed.

Lemma upper_sin_espacio_inicial s :
  sin_espacio_inicial s -> sin_espacio_inicial (Py.upper s).
Proof.
  destruct s as [|c s]; cbn; [exact (fun H => H)|].
  rewrite is_space_upper_char. exact (fun H => H).
Qed.

Lemma upper_sin_espacio_final s :
  sin_espacio_final s -> sin_espacio_final (Py.upper s).
Proof.
  induction s as [|c s IH]; cbn; [exact (fun H => H)|].
  destruct s as [|c' s']; cbn in *.
  - rewrite is_space_upper_char. exact (fun H => H).
  - exact IH.
Qed.

(** X1. A code [validate_codigo] accepts is in normal form: validated
    again it is returned as it is; it is not empty, has at most 50
    characters, neither starts nor ends with a blank, and upper-casing
    leaves it unchanged. *)
Theorem validate_codigo_forma_normal s c :
  validate_codigo s = Valido c ->
  validate_codigo c = Valido c /\
  0 < Py.len c <= 50 /\
  sin_espacio_inicial c /\ sin_espacio_final c /\
  Py.upper c = c.
Proof.
  unfold validate_codigo.
  destruct (negb (Py.truthy_str (Py.upper (Py.strip s)))) eqn:Et; [discriminate|].
  destruct (Py.len (Py.upper (Py.strip s)) >? 50) eqn:El; [discriminate|].
  intros E. injection E as <-.
  rewrite strip_upper, strip_idem, upper_idem, Et, El.
  split; [reflexivity|]. split.
  - split; [|lia]. unfold Py.len in *.
    destruct (Py.upper (Py.strip s)); [discriminate|cbn; lia].
  - split; [|split; [|reflexivity]].
    + apply upper_sin_espacio_inicial. unfold Py.strip.
      apply rstrip_sin_espacio, lstrip_sin_espacio.
    + apply upper_sin_espacio_final, rstrip_sin_espacio_final.
Qed.

Lemma validate_codigo_forma_normal_testigo :
  validate_codigo "bx-7" = Valido "BX-7" /\
  validate_codigo "BX-7" = Valido "BX-7".
Proof.
  split; [reflexivity|].
  apply (validate_codigo_forma_normal "bx-7" "BX-7"). reflexivity.
Defined.

(** ** The numbers of a pass *)

Lemma cuenta_cons f r l :
  cuenta f (r :: l) = (if f r then 1 else 0) + cuenta f l.
Proof.
  unfold cuenta. cbn [filter]. destruct (f r); cbn [List.length]; lia.
Qed.

Lemma cuenta_no_negativa f l : 0 <= cuenta f l.
Proof. unfold cuenta. lia. Qed.

Lemma cuenta_filter f g l :
  cuenta f (filter g l) = cuenta (fun r => g r && f r) l.
Proof. unfold cuenta. rewrite filter_filter. reflexivity. Qed.

Lemma cuenta_ext f g l :
  (forall r, In r l -> f r = g r) -> cuenta f l = cuenta g l.
Proof.
  intros H. unfold cuenta. rewrite (filter_ext_in_bool f g l H). reflexivity.
Qed.

Lemma length_filter_cuenta f (l : list item) :
  Z.of_nat (List.length (filter f l)) = cuenta f l.
Proof. reflexivity. Qed.

(** Over rows with a positive stock the counted ones are the exact ones,
    the short ones and the over ones. *)
Lemma cuenta_contados l :
  Forall (fun r => 0 < stock_sistema r) l ->
  cuenta (fun r => conteo_fisico r >? 0) l
  = cuenta (fun r => (conteo_fisico r - stock_sistema r =? 0)
                     && (conteo_fisico r >? 0)) l
    + cuenta (fun r => (conteo_fisico r - stock_sistema r <? 0)
                       && (conteo_fisico r >? 0)) l
    + cuenta (fun r => conteo_fisico r - stock_sistema r >? 0) l.
Proof.
  induction 1 as [|r l Hr Hl IH]; [reflexivity|].
  rewrite !cuenta_cons, IH.
  destruct (Z.gtb_spec (conteo_fisico r) 0),
           (Z.eqb_spec (conteo_fisico r - stock_sistema r) 0),
           (Z.ltb_spec (conteo_fisico r - stock_sistema r) 0),
           (Z.gtb_spec (conteo_fisico r - stock_sistema r) 0);
    cbn [andb]; lia.
Qed.

Lemma cuenta_le_length f (l : list item) :
  cuenta f l <= Z.of_nat (List.length l).
Proof.
  unfold cuenta. pose proof (filter_length_le f l). lia.
Qed.

Lemma califica_stock ses filtro l :
  Forall (fun r => 0 < stock_sistema r) (filter (califica ses filtro) l).
Proof.
  apply Forall_forall. intros r Hr. apply filter_In in Hr as [_ Hr].
  unfold califica in Hr. apply andb_prop in Hr as [_ Hr]. lia.
Qed.

(** X2. The numbers of the KPI query add up, for every store, session and
    line filter: the counted items are the exact ones plus the short ones
    plus the over ones (the test of an over item has no
    [conteo_fisico>0], which the condition on the stock makes up for), and
    they are at most the total. *)
Theorem kpis_cuadran d sesion filtro :
  contados (consulta_kpis d sesion filtro)
  = exactos (consulta_kpis d sesion filtro)
    + faltantes (consulta_kpis d sesion filtro)
    + sobrantes (consulta_kpis d sesion filtro)
  /\ 0 <= contados (consulta_kpis d sesion filtro)
       <= total (consulta_kpis d sesion filtro)
  /\ 0 <= exactos (consulta_kpis d sesion filtro)
  /\ 0 <= faltantes (consulta_kpis d sesion filtro)
  /\ 0 <= sobrantes (consulta_kpis d sesion filtro).
Proof.
  rewrite consulta_kpis_califica. cbv zeta.
  cbn [contados exactos faltantes sobrantes total].
  split; [apply cuenta_contados, califica_stock|].
  repeat split; try apply cuenta_no_negativa. apply cuenta_le_length.
Qed.

Lemma length_firstn_min {A : Type} (n : nat) (l : list A) :
  Z.of_nat (List.length (firstn n l)) = Z.min (Z.of_nat n) (Z.of_nat (List.length l)).
Proof. rewrite length_firstn. lia. Qed.

Lemma cuenta_resta f (l : list item) :
  Z.of_nat (List.length l) - cuenta f l = cuenta (fun r => negb (f r)) l.
Proof.
  induction l as [|r l IH]; [reflexivity|].
  rewrite !cuenta_cons. cbn [List.length]. destruct (f r); cbn [negb]; lia.
Qed.

(** X3. The pending card and the pending list agree: on a store whose
    counts are not negative, the list a pass caches has as many entries as
    the number the card shows (total minus counted), up to the 100 of its
    LIMIT. *)
Theorem pendientes_lista_y_tarjeta d sesion filtro :
  Forall (fun r => 0 <= conteo_fisico r) (items_corte d) ->
  Z.of_nat (List.length (consulta_pendientes d sesion filtro))
  = Z.min 100 (total (consulta_kpis d sesion filtro)
               - contados (consulta_kpis d sesion filtro)).
Proof.
  intros Hd. unfold consulta_pendientes.
  rewrite length_map, length_firstn_min.
  rewrite consulta_kpis_califica. cbv zeta. cbn [total contados].
  rewrite cuenta_resta, cuenta_filter, length_filter_cuenta.
  f_equal. apply cuenta_ext. intros r Hr.
  rewrite Forall_forall in Hd. specialize (Hd r Hr).
  unfold califica.
  destruct (where_sesion sesion r), (en_filtro filtro r),
    (Z.gtb_spec (stock_sistema r) 0), (Z.eqb_spec (conteo_fisico r) 0),
    (Z.gtb_spec (conteo_fisico r) 0); cbn [andb negb]; try reflexivity; lia.
Qed.

Lemma pendientes_lista_y_tarjeta_testigo :
  Z.of_nat (List.length (consulta_pendientes (db_de extra_x9) (Some 1) []))
  = Z.min 100 (total (consulta_kpis (db_de extra_x9) (Some 1) [])
               - contados (consulta_kpis (db_de extra_x9) (Some 1) [])).
Proof.
  apply (pendientes_lista_y_tarjeta (db_de extra_x9) (Some 1) []).
  vm_compute. repeat constructor; discriminate.
Defined.

(** X4. The differences list is longer than the two difference cards
    say: on a store whose generated column is coherent, the list a pass
    caches holds the short and the over items of the KPI query and, as
    [q_dif] has no condition on the stock, also every counted item without
    stock (the extra items), up to the 100 of its LIMIT. *)
Theorem diferencias_lista_y_tarjetas d sesion filtro :
  diferencia_coherente d ->
  Z.of_nat (List.length (consulta_diferencias d sesion filtro))
  = Z.min 100
      (faltantes (consulta_kpis d sesion filtro)
       + sobrantes (consulta_kpis d sesion filtro)
       + cuenta (fun r => where_sesion sesion r && en_filtro filtro r
                          && (stock_sistema r <=? 0)
                          && (conteo_fisico r >? 0)) (items_corte d)).
Proof.
  intros Hd. unfold consulta_diferencias.
  rewrite length_map, length_firstn_min.
  rewrite consulta_kpis_califica. cbv zeta. cbn [faltantes sobrantes].
  rewrite !cuenta_filter, length_filter_cuenta.
  f_equal. unfold diferencia_coherente in Hd.
  revert Hd. generalize (items_corte d). intros l0 Hd.
  induction Hd as [|r l Hr Hl IH]; [reflexivity|].
  rewrite !cuenta_cons, IH. rewrite Hr. unfold califica.
  destruct (where_sesion sesion r), (en_filtro filtro r),
    (Z.gtb_spec (stock_sistema r) 0), (Z.leb_spec (stock_sistema r) 0),
    (Z.eqb_spec (conteo_fisico r - stock_sistema r) 0),
    (Z.ltb_spec (conteo_fisico r - stock_sistema r) 0),
    (Z.gtb_spec (conteo_fisico r - stock_sistema r) 0),
    (Z.gtb_spec (conteo_fisico r) 0); cbn [andb negb]; lia.
Qed.

Lemma diferencias_lista_y_tarjetas_testigo :
  Z.of_nat (List.length (consulta_diferencias (db_de extra_x9) (Some 1) []))
  = 1
  /\ faltantes (consulta_kpis (db_de extra_x9) (Some 1) [])
     + sobrantes (consulta_kpis (db_de extra_x9) (Some 1) []) = 0.
Proof.
  split; [|reflexivity].
  rewrite (diferencias_lista_y_tarjetas (db_de extra_x9) (Some 1) []).
  - reflexivity.
  - vm_compute. repeat constructor.
Defined.

(** ** The store over the runs *)

Lemma exec_crece now s d d' :
  emitida s -> exec now s d = Exito d' ->
  exists filas movs,
    map clave (items_corte d') = (map clave (items_corte d) ++ filas)%list /\
    historial_movimientos d'
    = (historial_movimientos d ++ movs)%list /\
    equipos d' = equipos d.
Proof.
  intros Hs. destruct Hs; cbn.
  - intros E; injection E as <-.
    exists [], []. cbn [items_corte historial_movimientos equipos with_items].
    rewrite !app_nil_r. repeat split.
    rewrite map_map; apply map_ext; intros r;
      destruct (where_sesion_codigo sesion cod r); reflexivity.
  - destruct sesion as [s|]; [|discriminate]. intros E; injection E as <-.
    exists [], [mk_movimiento s cod eq tipo cant_ant cant now]. cbn.
    rewrite app_nil_r. repeat split.
  - destruct sesion as [s|]; cbn; [|discriminate]. intros E; injection E as <-.
    cbn [items_corte historial_movimientos equipos with_items].
    rewrite map_app. eexists _, [].
    split; [reflexivity|]. split; [symmetry; apply app_nil_r|reflexivity].
  - intros E; injection E as <-.
    cbn [items_corte historial_movimientos equipos with_items].
    rewrite map_app. eexists _, [].
    split; [reflexivity|]. split; [symmetry; apply app_nil_r|reflexivity].
  - intros E; injection E as <-.
    exists [], []. cbn [items_corte historial_movimientos equipos with_items].
    rewrite !app_nil_r. repeat split.
    rewrite map_map; apply map_ext; intros r;
      destruct (where_id i r); reflexivity.
Qed.

Lemma alcanzable_crece d0 d :
  alcanzable d0 d ->
  exists filas movs,
    map clave (items_corte d) = (map clave (items_corte d0) ++ filas)%list /\
    historial_movimientos d
    = (historial_movimientos d0 ++ movs)%list /\
    equipos d = equipos d0.
Proof.
  induction 1 as [|now s d d' Hd IH Hs He].
  - exists [], []. rewrite !app_nil_r. repeat split.
  - destruct IH as (f1 & m1 & E1 & E2 & E3).
    destruct (exec_crece now s d d' Hs He) as (f2 & m2 & F1 & F2 & F3).
    exists (f1 ++ f2)%list, (m1 ++ m2)%list.
    rewrite F1, F2, F3, E1, E2, E3, !app_assoc. repeat split.
Qed.

(** X5. The clients only add to the record: whatever they do, in any
    order and from any state, no row of [items_corte] is deleted or moved,
    none changes its id, session, code, name or line, the movements logged
    before are still there, unchanged and in the same order, and the teams
    are not touched. *)
Theorem registro_solo_crece l s :
  exists filas movs,
    map clave (items_corte (snd (correr l s)))
    = (map clave (items_corte (snd s)) ++ filas)%list /\
    historial_movimientos (snd (correr l s))
    = (historial_movimientos (snd s) ++ movs)%list /\
    equipos (snd (correr l s)) = equipos (snd s).
Proof. apply alcanzable_crece, correr_alcanzable. Qed.

Lemma map_id_update (f : item -> item) (w : item -> bool) (l : list item) :
  (forall r, id (f r) = id r) ->
  map id (map (fun r => if w r then f r else r) l) = map id l.
Proof.
  intros H. rewrite map_map. apply map_ext. intros r.
  destruct (w r); [apply H|reflexivity].
Qed.

Lemma exec_ids_frescos now s d d' :
  emitida s -> exec now s d = Exito d' -> ids_frescos d -> ids_frescos d'.
Proof.
  intros Hs He [Hn Hf].
  assert (Hins : forall cols,
             (forall r, id (escribir now cols r) = id r) ->
             ids_frescos
               (with_items d
                  (items_corte d ++
                   [escribir now cols (fila_por_defecto (items_auto_increment d))])
                  (items_auto_increment d + 1))).
  { intros cols Hid. split; cbn [items_corte items_auto_increment with_items].
    - rewrite map_app. cbn [map]. rewrite Hid. cbn [fila_por_defecto id].
      apply NoDup_app; [exact Hn|repeat constructor; intros []|].
      intros x Hx [<-|[]]. apply in_map_iff in Hx as (r & Er & Hr).
      rewrite Forall_forall in Hf. specialize (Hf r Hr). lia.
    - apply Forall_app. split.
      + eapply Forall_impl; [|exact Hf]. cbv beta. intros; lia.
      + constructor; [|constructor]. rewrite Hid. cbn. lia. }
  assert (Hupd : forall sets (w : item -> bool),
             (forall r, id (escribir now sets r) = id r) ->
             ids_frescos
               (with_items d
                  (map (fun r => if w r then escribir now sets r else r)
                     (items_corte d))
                  (items_auto_increment d))).
  { intros sets w Hid. split; cbn [items_corte items_auto_increment with_items].
    - rewrite map_id_update; assumption.
    - apply Forall_map. eapply Forall_impl; [|exact Hf]. cbv beta.
      intros r Hr. destruct (w r); [rewrite Hid|]; exact Hr. }
  destruct Hs; cbn in He.
  - injection He as <-. apply Hupd. reflexivity.
  - destruct sesion; [|discriminate]. injection He as <-. split; assumption.
  - destruct sesion; cbn in He; [|discriminate]. injection He as <-.
    apply Hins. reflexivity.
  - injection He as <-. apply Hins. reflexivity.
  - injection He as <-. apply Hupd. reflexivity.
Qed.

Lemma alcanzable_ids_frescos d0 d :
  ids_frescos d0 -> alcanzable d0 d -> ids_frescos d.
Proof.
  intros H0. induction 1 as [|now s d d' Hd IH Hs He]; [exact H0|].
  eapply exec_ids_frescos; eauto.
Qed.

(** X6. The ids stay distinct: if the rows of the store have distinct ids
    below the AUTO_INCREMENT counter, so they have after anything the
    clients do.  The stock update, which writes [WHERE id=%s], relies on
    it. *)
Theorem ids_siempre_distintos l s :
  ids_frescos (snd s) -> ids_frescos (snd (correr l s)).
Proof.
  intros H. eapply alcanzable_ids_frescos; [exact H|apply correr_alcanzable].
Qed.

Lemma ids_siempre_distintos_testigo :
  ids_frescos (snd (arranque 1 d0)) /\ ids_frescos (db_de extra_x9).
Proof.
  assert (H : ids_frescos (snd (arranque 1 d0))).
  { split; cbn; constructor. }
  split; [exact H|].
  exact (ids_siempre_distintos extra_x9 (arranque 1 d0) H).
Defined.

(** ** The stock of a session *)

Lemma con_filas_con_filas d l l' : con_filas (con_filas d l) l' = con_filas d l'.
Proof. reflexivity. Qed.

Lemma con_filas_mismas d : con_filas d (items_corte d) = d.
Proof. destruct d; reflexivity. Qed.

Lemma exec_update_stock now v i d :
  exec now (sql_update_stock v i) d
  = Exito (con_filas d
             (map (fun r => if id r =? i then fila_con_stock v r else r)
                (items_corte d))).
Proof. reflexivity. Qed.

Lemma exec_todas_update_stock now (v : item -> Z) its : forall d,
  exec_todas now (map (fun it => sql_update_stock (v it) (id it)) its) d
  = Exito (con_filas d
             (fold_left
                (fun rows it =>
                   map (fun r => if id r =? id it then fila_con_stock (v it) r
                                 else r) rows)
                its (items_corte d))).
Proof.
  induction its as [|it its IH]; intros d.
  - cbn. rewrite con_filas_mismas. reflexivity.
  - cbn [map exec_todas fold_left]. rewrite exec_update_stock, IH.
    reflexivity.
Qed.

Lemma fold_update_stock (vv : string -> Z) its : forall rows,
  (forall it r, In it its -> In r rows -> id r = id it ->
                codigo r = codigo it) ->
  fold_left
    (fun rows it =>
       map (fun r => if id r =? id it
                     then fila_con_stock (vv (codigo it)) r else r) rows)
    its rows
  = map (fun r => if existsb (fun it => id r =? id it) its
                  then fila_con_stock (vv (codigo r)) r else r) rows.
Proof.
  induction its as [|it its IH]; intros rows H.
  - cbn. symmetry. apply map_id.
  - cbn [fold_left]. rewrite IH.
    + rewrite map_map. apply map_ext_in. intros r Hr. cbn [existsb].
      destruct (Z.eqb_spec (id r) (id it)) as [E|E].
      * rewrite <- (H it r (or_introl eq_refl) Hr E).
        cbn [fila_con_stock id codigo orb].
        destruct (existsb _ its); reflexivity.
      * cbn [orb]. reflexivity.
    + intros it' r' Hit Hr' E.
      apply in_map_iff in Hr' as (r & Er & Hr).
      destruct (id r =? id it); subst r'; cbn [fila_con_stock id codigo] in *;
        apply (H it' r (or_intror Hit) Hr E).
Qed.

Lemma NoDup_map_inj {A B : Type} (f : A -> B) (l : list A) x y :
  NoDup (map f l) -> In x l -> In y l -> f x = f y -> x = y.
Proof.
  induction l as [|z l IH]; cbn; [intros _ []|].
  intros Hn Hx Hy E. inversion Hn as [|? ? Hz Hl]; subst.
  destruct Hx as [<-|Hx], Hy as [<-|Hy]; auto.
  - exfalso. apply Hz. rewrite E. apply in_map. exact Hy.
  - exfalso. apply Hz. rewrite <- E. apply in_map. exact Hx.
Qed.

Lemma actualizar_stock_cerrado now d ses stock_calculado :
  NoDup (map id (items_corte d)) ->
  stock_calculado <> [] ->
  filter (where_sesion ses) (items_corte d) <> [] ->
  actualizar_stock now d ses stock_calculado true
  = Some (Exito
            (con_filas d
               (map (fun r =>
                       if where_sesion ses r
                       then fila_con_stock
                              (stock_get stock_calculado
                                 (limpiar_codigo (codigo r))) r
                       else r)
                  (items_corte d)))).
Proof.
  intros Hn Hs Hi. unfold actualizar_stock.
  destruct stock_calculado as [|kv st]; [congruence|].
  set (hoja := kv :: st) in *.
  destruct (filter (where_sesion ses) (items_corte d)) as [|i0 its] eqn:Ef;
    [congruence|].
  rewrite <- Ef. cbn [negb].
  rewrite (exec_todas_update_stock now
             (fun it => stock_get hoja (limpiar_codigo (codigo it)))).
  rewrite (fold_update_stock (fun c => stock_get hoja (limpiar_codigo c))).
  - do 3 f_equal. apply map_ext_in. intros r Hr.
    destruct (where_sesion ses r) eqn:Ew.
    + assert (E : existsb (fun it => id r =? id it)
                    (filter (where_sesion ses) (items_corte d)) = true).
      { apply existsb_exists. exists r. split; [|apply Z.eqb_refl].
        apply filter_In. split; assumption. }
      rewrite E. reflexivity.
    + destruct (existsb _ _) eqn:E; [|reflexivity].
      apply existsb_exists in E as (it & Hit & Eit).
      apply filter_In in Hit as [Hit Hw]. apply Z.eqb_eq in Eit.
      rewrite (NoDup_map_inj id _ r it Hn Hr Hit Eit) in Ew. congruence.
  - intros it r Hit Hr E. apply filter_In in Hit as [Hit _].
    rewrite (NoDup_map_inj id _ r it Hn Hr Hit E). reflexivity.
Qed.

(** X7. What an update of the stock does.  On a store with distinct ids,
    for a workbook that gave some stock and a session that has rows, once
    confirmed it never fails, and it rewrites the stock of every row of the
    session, and of no other row, with the sum the workbook gives for the
    cleaned code of the row: 0 when the workbook does not have the code,
    whatever the stock was and even if the item is counted.  The counts,
    notes, dates and teams stay; the difference follows the new stock. *)
Theorem actualizar_stock_resultado now d ses stock_calculado :
  NoDup (map id (items_corte d)) ->
  stock_calculado <> [] ->
  filter (where_sesion ses) (items_corte d) <> [] ->
  actualizar_stock now d ses stock_calculado true
  = Some (Exito
            (con_filas d
               (map (fun r =>
                       if where_sesion ses r
                       then fila_con_stock
                              (stock_get stock_calculado
                                 (limpiar_codigo (codigo r))) r
                       else r)
                  (items_corte d)))).
Proof.
  intros Hn Hs Hi. apply actualizar_stock_cerrado; assumption.
Qed.

Lemma actualizar_stock_resultado_testigo :
  actualizar_stock 200 (db_de cuenta_a1) (Some 1) [("B2", 900)] true
  = Some (Exito
            (con_filas (db_de cuenta_a1)
               [mk_item 1 1 "A1" (Some "Tornillo") (Some "L1") 0 1000 1000
                  (Some "") (Some 105) (Some 1);
                mk_item 2 1 "B2" (Some "Tuerca") (Some "L1") 900 0 (-900)
                  None None None])).
Proof.
  rewrite (actualizar_stock_resultado 200 (db_de cuenta_a1) (Some 1)
             [("B2", 900)]).
  - vm_compute. reflexivity.
  - vm_compute. repeat constructor; cbn; intuition discriminate.
  - discriminate.
  - vm_compute. discriminate.
Defined.

Lemma exec_insert_item_corte now sesion cod nom lin stock d :
  exec now (sql_insert_item_corte sesion cod nom lin stock) d
  = Exito (mk_db
             (items_corte d ++
              [mk_item (items_auto_increment d) sesion cod (Some nom)
                 (Some lin) stock 0 (0 - stock) None None None])
             (items_auto_increment d + 1) (equipos d)
             (historial_movimientos d)).
Proof. reflexivity. Qed.

Lemma exec_todas_filas_corte now sesion stock lineas df : forall d,
  exec_todas now
    (flat_map
       (fun row : string * string * string =>
          let '(cod, nom, lin) := row in
          let linea := Py.strip lin in
          if existsb (String.eqb linea) lineas
          then
            let codigo := limpiar_codigo cod in
            [sql_insert_item_corte sesion codigo (Py.strip nom) linea
               (stock_get stock codigo)]
          else [])
       df) d
  = Exito (mk_db
             (items_corte d
              ++ filas_corte sesion stock (items_auto_increment d)
                   (seleccion lineas df))
             (items_auto_increment d
              + Z.of_nat (List.length (seleccion lineas df)))
             (equipos d) (historial_movimientos d)).
Proof.
  induction df as [|[[cod nom] lin] df IH]; intros d.
  - cbn. rewrite app_nil_r, Z.add_0_r. destruct d; reflexivity.
  - cbn [flat_map seleccion filter snd].
    destruct (existsb (String.eqb (Py.strip lin)) lineas).
    + cbn [List.app exec_todas]. rewrite exec_insert_item_corte, IH.
      cbn [items_corte items_auto_increment equipos historial_movimientos
           filas_corte List.length].
      fold (seleccion lineas df).
      rewrite <- app_assoc. cbn [List.app]. do 2 f_equal. lia.
    + cbn [List.app]. apply IH.
Qed.



(** ** The stock of the workbook *)

Lemma stock_get_dict_set stock k v cod :
  stock_get (dict_set stock k v) cod
  = if String.eqb k cod then v else stock_get stock cod.
Proof.
  induction stock as [|[k' v'] stock IH]; cbn; [reflexivity|].
  destruct (String.eqb_spec k' k) as [->|Hk]; cbn.
  - destruct (String.eqb k cod); reflexivity.
  - rewrite IH. destruct (String.eqb_spec k' cod) as [->|Hc]; [|reflexivity].
    destruct (String.eqb_spec k cod) as [->|]; [congruence|reflexivity].
Qed.

Lemma claves_dict_set stock k v :
  NoDup (map fst stock) -> NoDup (map fst (dict_set stock k v)).
Proof.
  assert (Hin : forall s x, In x (map fst (dict_set s k v)) ->
                            x = k \/ In x (map fst s)).
  { induction s as [|[k' v'] s IH]; cbn; intros x.
    - intros [<-|[]]; auto.
    - destruct (String.eqb_spec k' k) as [->|]; cbn; [tauto|].
      intros [<-|H]; [auto|]. destruct (IH x H); auto. }
  induction stock as [|[k' v'] stock IH]; cbn; intros Hn.
  - repeat constructor. intros [].
  - inversion Hn as [|? ? Hk Hs]; subst.
    destruct (String.eqb_spec k' k) as [->|Hne]; cbn.
    + constructor; assumption.
    + constructor; [|apply IH; exact Hs].
      intros Hx. destruct (Hin _ _ Hx); [congruence|contradiction].
Qed.

Lemma acumular_fila_suma stock row cod :
  stock_get (acumular_fila stock row) cod
  = stock_get stock cod + suma_codigo cod [row].
Proof.
  destruct row as [c [v|]]; unfold acumular_fila; cbn [fst snd suma_codigo].
  - rewrite stock_get_dict_set.
    destruct (String.eqb_spec (limpiar_codigo c) cod) as [->|]; lia.
  - lia.
Qed.

Lemma suma_codigo_app cod l l' :
  suma_codigo cod (l ++ l') = suma_codigo cod l + suma_codigo cod l'.
Proof.
  induction l as [|[c [v|]] l IH]; cbn [List.app suma_codigo]; lia.
Qed.

Lemma acumular_hoja_suma h : forall stock cod,
  stock_get (acumular_hoja stock h) cod
  = stock_get stock cod + suma_codigo cod (filas_de h).
Proof.
  destruct h as [filas|]; cbn [acumular_hoja filas_de]; [|cbn; intros; lia].
  induction filas as [|row filas IH]; intros stock cod; cbn [fold_left].
  - cbn. lia.
  - rewrite IH, acumular_fila_suma.
    change (row :: filas) with ([row] ++ filas)%list.
    rewrite suma_codigo_app. lia.
Qed.

Lemma acumular_hoja_claves h : forall stock,
  NoDup (map fst stock) -> NoDup (map fst (acumular_hoja stock h)).
Proof.
  destruct h as [filas|]; cbn [acumular_hoja]; [|auto].
  induction filas as [|[c [v|]] filas IH]; intros stock Hn; cbn [fold_left];
    [exact Hn| |]; apply IH; unfold acumular_fila; cbn [fst snd];
    [apply claves_dict_set|]; exact Hn.
Qed.

(** X9. The stock the workbook gives to a code is the sum, over the
    sheets CONDI, MAQUI and ASCINTEC that could be read, of the numeric
    cells of the rows whose cleaned code it is: rows that differ by case or
    by outer blanks add up, a cell that is not a number is skipped, a
    sheet that cannot be read counts for nothing, and a code in no sheet
    has 0.  The dict has one entry per code. *)
Theorem calcular_stock_es_suma condi maqui ascintec cod :
  stock_get (calcular_stock_desde_excel condi maqui ascintec) cod
  = suma_codigo cod (filas_de condi ++ filas_de maqui ++ filas_de ascintec)
  /\ NoDup (map fst (calcular_stock_desde_excel condi maqui ascintec)).
Proof.
  unfold calcular_stock_desde_excel. cbn [fold_left]. split.
  - rewrite !acumular_hoja_suma, !suma_codigo_app. cbn [stock_get]. lia.
  - repeat apply acumular_hoja_claves. constructor.
Qed.

(** ** The lists of the panel *)

Lemma contiene_vacio s : contiene "" s = true.
Proof. destruct s; reflexivity. Qed.

Lemma coincide_vacio e : coincide "" e = true.
Proof. unfold coincide. rewrite contiene_vacio. reflexivity. Qed.

Lemma filtrar_precalc_desde_firstn txt data : forall count,
  0 <= count <= 51 ->
  filtrar_precalc_desde count txt data
  = map mk_row_clickable
      (firstn (Z.to_nat (51 - count)) (filter (coincide txt) data)).
Proof.
  induction data as [|e data IH]; intros count Hc; cbn [filtrar_precalc_desde].
  - cbn [filter]. rewrite firstn_nil. reflexivity.
  - destruct (Z.gtb_spec count 50) as [Hgt|Hle].
    + replace (51 - count) with 0 by lia. reflexivity.
    + cbn [filter]. destruct (coincide txt e).
      * rewrite IH by lia.
        replace (Z.to_nat (51 - count))
          with (S (Z.to_nat (51 - (count + 1)))) by lia.
        reflexivity.
      * apply IH. lia.
Qed.

Lemma filtrar_precalc_firstn txt data :
  filtrar_precalc txt data
  = map mk_row_clickable (firstn 51 (filter (coincide (Py.upper txt)) data)).
Proof.
  unfold filtrar_precalc.
  rewrite filtrar_precalc_desde_firstn by lia. reflexivity.
Qed.

(** X10. A tab draws the first 51 entries of its list that contain the
    upper-cased text, in the code or in the upper-cased name: 51 and not
    50, as the loop stops when the number of rows drawn is above 50. *)
Theorem filtrar_precalc_primeros_51 txt data :
  filtrar_precalc txt data
  = map mk_row_clickable (firstn 51 (filter (coincide (Py.upper txt)) data))
  /\ (List.length (filtrar_precalc txt data) <= 51)%nat.
Proof.
  rewrite filtrar_precalc_firstn. split; [reflexivity|].
  rewrite length_map, length_firstn. lia.
Qed.

Lemma filter_todos {A : Type} (f : A -> bool) (l : list A) :
  (forall x, f x = true) -> filter f l = l.
Proof.
  intros H. induction l as [|x l IH]; cbn; [reflexivity|].
  rewrite H, IH. reflexivity.
Qed.

Lemma firstn_firstn_min {A : Type} (n m : nat) (l : list A) :
  firstn n (firstn m l) = firstn (Nat.min n m) l.
Proof. apply firstn_firstn. Qed.

(** X11. The differences tab shows its two numbers under the wrong
    headers.  The entries a pass caches for it are (code, name,
    difference, stock), and the tab reads the third field as the stock and
    the fourth as the difference: under STOCK the rows show the
    difference, and under DIFERENCIA the stock, coloured by the sign of
    the stock, so that no row of an item with stock is drawn in the colour
    of a shortage. *)
Theorem pestana_diferencias_cruzada a d sesion filtro :
  data_diferencias a = consulta_diferencias d sesion filtro ->
  snd (update_tabs_ui a)
  = map fila_de_diferencia
      (firstn 51
         (filter (fun r => where_sesion sesion r && negb (diferencia r =? 0)
                           && (conteo_fisico r >? 0) && en_filtro filtro r)
            (items_corte d)))
  /\ forall f v, In f (snd (update_tabs_ui a)) -> fl_diferencia f = Some v ->
       exists r, In r (items_corte d) /\ fl_codigo f = codigo r /\
                 v = stock_sistema r /\ fl_stock f = Some (diferencia r) /\
                 (0 <= stock_sistema r -> color_diferencia v = WARNING).
Proof.
  intros E.
  assert (H : snd (update_tabs_ui a)
              = map fila_de_diferencia
                  (firstn 51
                     (filter (fun r => where_sesion sesion r
                                       && negb (diferencia r =? 0)
                                       && (conteo_fisico r >? 0)
                                       && en_filtro filtro r)
                        (items_corte d)))).
  { unfold update_tabs_ui. cbn [snd].
    rewrite filtrar_precalc_firstn.
    change (Py.upper "") with "".
    rewrite (filter_todos (coincide "") _ coincide_vacio).
    rewrite E. unfold consulta_diferencias.
    rewrite map_map, <- firstn_map, map_map.
    cbn [de_diferencia mk_row_clickable item1].
    rewrite firstn_map, firstn_firstn. reflexivity. }
  split; [exact H|].
  intros f v Hf Hv. rewrite H in Hf.
  apply in_map_iff in Hf as (r & <- & Hr).
  apply In_firstn in Hr. apply filter_In in Hr as [Hr _].
  exists r. cbn [fila_de_diferencia fl_codigo fl_stock fl_diferencia] in *.
  injection Hv as <-. repeat split; try assumption.
  intros Hs. unfold color_diferencia.
  destruct (Z.ltb_spec (stock_sistema r) 0); [lia|reflexivity].
Qed.

Lemma pestana_diferencias_cruzada_testigo :
  snd (update_tabs_ui
         (with_datos app_inicial []
            (consulta_diferencias d_cinco (Some 1) [])
            (tarjetas app_inicial)))
  = [mk_fila_lista "P2" "DOS" (Some (-200)) (Some 500)].
Proof.
  rewrite (proj1 (pestana_diferencias_cruzada
                    (with_datos app_inicial []
                       (consulta_diferencias d_cinco (Some 1) [])
                       (tarjetas app_inicial))
                    d_cinco (Some 1) [] eq_refl)).
  vm_compute. reflexivity.
Defined.

Lemma estado_de_guardado r :
  0 <= conteo_fisico r ->
  diferencia r = conteo_fisico r - stock_sistema r ->
  estado_de (conteo_fisico r) (stock_sistema r) = estado_guardado r.
Proof.
  intros Hc Hd. unfold estado_de, estado_guardado, con_diferencia.
  rewrite Hd.
  destruct (Z.eqb_spec (conteo_fisico r) 0); [reflexivity|].
  destruct (Z.eqb_spec (conteo_fisico r) (stock_sistema r)),
           (Z.eqb_spec (conteo_fisico r - stock_sistema r) 0),
           (Z.gtb_spec (conteo_fisico r) 0); cbn [negb andb];
    try reflexivity; lia.
Qed.

Lemma dibujar_busqueda_estados l :
  Forall fila_bien_formada l ->
  Forall (fun r => diferencia r = conteo_fisico r - stock_sistema r) l ->
  dibujar_busqueda l
  = map (fun r => FilaEstado (codigo r)
                    (String.substring 0 35 (py_str (producto r)))
                    (estado_guardado r) (stock_sistema r)) l.
Proof.
  induction l as [|r l IH]; intros Hb Hd; [reflexivity|].
  inversion Hb as [|? ? [Hc Hp] Hb']; inversion Hd as [|? ? Hr Hd']; subst.
  cbn [dibujar_busqueda map].
  destruct (producto r) as [nom|] eqn:E; [|congruence].
  rewrite estado_de_guardado, IH by assumption. reflexivity.
Qed.

Lemma Forall_filter {A : Type} (P : A -> Prop) (f : A -> bool) (l : list A) :
  Forall P l -> Forall P (filter f l).
Proof.
  rewrite !Forall_forall. intros H x Hx. apply filter_In in Hx as [Hx _]. auto.
Qed.

Lemma Forall_firstn {A : Type} (P : A -> Prop) (n : nat) (l : list A) :
  Forall P l -> Forall P (firstn n l).
Proof.
  rewrite !Forall_forall. intros H x Hx. apply In_firstn in Hx. auto.
Qed.

(** X12. The search panel and the stored difference agree.  On a store
    whose rows have a name, a count that is not negative and a coherent
    difference, a search with a session and a text of two characters or
    more lists every row the query returned (at most 30, all of the
    session): PENDIENTE when nothing is counted, CONTADO with the stored
    difference when the row meets the condition of the differences list,
    CUADRADO otherwise. *)
Theorem busqueda_estados (like : string -> string -> bool) a d en_busqueda :
  db_bien_formada d ->
  diferencia_coherente d ->
  Py.truthy_id (app_sesion_id a) = true ->
  2 <= Py.len (Py.upper en_busqueda) ->
  filtrar_busqueda like a d en_busqueda
  = Some (map (fun r => FilaEstado (codigo r)
                          (String.substring 0 35 (py_str (producto r)))
                          (estado_guardado r) (stock_sistema r))
            (select_busqueda like d (app_sesion_id a)
               ("%" ++ Py.upper en_busqueda ++ "%")))
  /\ (List.length
        (select_busqueda like d (app_sesion_id a)
           ("%" ++ Py.upper en_busqueda ++ "%")) <= 30)%nat
  /\ Forall (fun r => where_sesion (app_sesion_id a) r = true)
       (select_busqueda like d (app_sesion_id a)
          ("%" ++ Py.upper en_busqueda ++ "%")).
Proof.
  intros Hb Hd Hs Hl. unfold filtrar_busqueda. rewrite Hs. cbn [negb].
  destruct (Z.ltb_spec (Py.len (Py.upper en_busqueda)) 2); [lia|].
  split; [|split].
  - f_equal. apply dibujar_busqueda_estados; unfold select_busqueda;
      apply Forall_firstn, Forall_filter; assumption.
  - unfold select_busqueda. rewrite length_firstn. lia.
  - unfold select_busqueda. apply Forall_forall. intros r Hr.
    apply In_firstn in Hr. apply filter_In in Hr as [_ Hr].
    apply andb_prop in Hr as [Hr _]. exact Hr.
Qed.

Lemma busqueda_estados_testigo :
  filtrar_busqueda like_contiene (app_de cuenta_a1) (db_de cuenta_a1) "a1"
  = Some [FilaEstado "A1" "Tornillo" (CUADRADO 1000) 1000].
Proof.
  assert (H1 : db_bien_formada (db_de cuenta_a1))
    by (vm_compute; repeat constructor; cbn; try lia; discriminate).
  assert (H2 : diferencia_coherente (db_de cuenta_a1))
    by (vm_compute; repeat constructor).
  assert (H3 : Py.truthy_id (app_sesion_id (app_de cuenta_a1)) = true)
    by (vm_compute; reflexivity).
  assert (H4 : 2 <= Py.len (Py.upper "a1")) by (vm_compute; discriminate).
  rewrite (proj1 (busqueda_estados like_contiene (app_de cuenta_a1)
                    (db_de cuenta_a1) "a1" H1 H2 H3 H4)).
  vm_compute. reflexivity.
Defined.

(** ** The report *)

(** X13. The sheets of the report share out the rows of the session: on
    a store whose counts are not negative and whose difference is
    coherent, the rows of CONTEO_COMPLETO are as many as those of
    PENDIENTES (nothing counted), those of DIFERENCIAS (counted, with a
    difference) and the rows counted exactly.  Every row of DIFERENCIAS
    is painted.  The sheet PENDIENTES has every entry of the pending list
    of the panel. *)
Theorem export_reparte_las_filas a d rep :
  diferencia_coherente d ->
  Forall (fun r => 0 <= conteo_fisico r) (items_corte d) ->
  export_excel a d = Some rep ->
  Z.of_nat (List.length (conteo_completo rep))
  = Z.of_nat (List.length (pendientes rep))
    + Z.of_nat (List.length (diferencias rep))
    + cuenta (fun r => where_sesion (app_sesion_id a) r
                       && (conteo_fisico r >? 0)
                       && (conteo_fisico r =? stock_sistema r))
        (items_corte d)
  /\ Forall (fun b => b = true) (pintadas rep)
  /\ (forall x, In x (consulta_pendientes d (app_sesion_id a) (filtro_lineas a)) ->
        exists r, In r (pendientes rep) /\
                  x = (codigo r, producto r, stock_sistema r)).
Proof.
  intros Hd Hc. unfold export_excel.
  destruct (negb (Py.truthy_id (app_sesion_id a))); [discriminate|].
  intros E. injection E as <-.
  cbn [conteo_completo pendientes diferencias pintadas].
  split; [|split].
  - rewrite !length_map, !length_filter_cuenta.
    unfold diferencia_coherente in Hd. revert Hd Hc.
    generalize (items_corte d). intros l Hd Hc.
    induction Hd as [|r l Hr Hl IH]; [reflexivity|].
    inversion Hc as [|? ? Hc0 Hc']; subst.
    rewrite !cuenta_cons, IH by assumption. rewrite Hr.
    destruct (where_sesion (app_sesion_id a) r),
      (Z.eqb_spec (conteo_fisico r - stock_sistema r) 0),
      (Z.eqb_spec (conteo_fisico r) (stock_sistema r)),
      (Z.eqb_spec (conteo_fisico r) 0),
      (Z.gtb_spec (conteo_fisico r) 0); cbn [negb andb]; lia.
  - apply Forall_forall. intros b Hb.
    apply in_map_iff in Hb as (x & <- & Hx).
    apply in_map_iff in Hx as (r & <- & Hr).
    apply filter_In in Hr as [_ Hr]. unfold pintar_fila. cbn [fst].
    apply andb_prop in Hr as [Hr _]. apply andb_prop in Hr as [_ Hr].
    exact Hr.
  - intros x Hx. unfold consulta_pendientes in Hx.
    apply in_map_iff in Hx as (r & <- & Hr). apply In_firstn in Hr.
    apply filter_In in Hr as [Hr Hp]. exists r. split; [|reflexivity].
    apply filter_In. split; [exact Hr|].
    apply andb_prop in Hp as [Hp _]. apply andb_prop in Hp as [Hp _].
    exact Hp.
Qed.

Lemma export_reparte_las_filas_testigo :
  exists rep,
    export_excel (app_de extra_x9) (db_de extra_x9) = Some rep /\
    Z.of_nat (List.length (conteo_completo rep)) = 3 /\
    Z.of_nat (List.length (pendientes rep)) = 1 /\
    Z.of_nat (List.length (diferencias rep)) = 1 /\
    Forall (fun b => b = true) (pintadas rep).
Proof.
  destruct (export_excel (app_de extra_x9) (db_de extra_x9)) as [rep|] eqn:E;
    [|vm_compute in E; discriminate].
  exists rep. split; [reflexivity|].
  pose proof (export_reparte_las_filas (app_de extra_x9) (db_de extra_x9) rep)
    as H.
  assert (H1 : diferencia_coherente (db_de extra_x9))
    by (vm_compute; repeat constructor).
  assert (H2 : Forall (fun r => 0 <= conteo_fisico r)
                 (items_corte (db_de extra_x9)))
    by (vm_compute; repeat constructor; discriminate).
  destruct (H H1 H2 E) as (_ & Hp & _).
  vm_compute in E. injection E as <-.
  repeat split; try reflexivity. exact Hp.
Defined.

(** ** The teams *)

Section Equipos.

Variable mismo_nombre : string -> string -> bool.

Lemma nombres_unicos_app l v :
  nombres_unicos mismo_nombre l ->
  Forall (fun u => mismo_nombre (nombre_equipo u) (nombre_equipo v) = false) l ->
  nombres_unicos mismo_nombre (l ++ [v]).
Proof.
  induction l as [|t l IH]; cbn [nombres_unicos List.app]; intros H Hv.
  - split; constructor.
  - destruct H as [Ht Hl]. inversion Hv as [|? ? Htv Hv']; subst. split.
    + apply Forall_app. split; [exact Ht|]. constructor; [exact Htv|constructor].
    + apply IH; assumption.
Qed.

Lemma nombres_unicos_map (f : equipo -> equipo) l :
  (forall u, nombre_equipo (f u) = nombre_equipo u) ->
  nombres_unicos mismo_nombre l -> nombres_unicos mismo_nombre (map f l).
Proof.
  intros Hf. induction l as [|t l IH]; cbn [nombres_unicos map]; [auto|].
  intros [Ht Hl]. split; [|apply IH; exact Hl].
  apply Forall_map. rewrite Hf. eapply Forall_impl; [|exact Ht].
  cbv beta. intros u Hu. rewrite Hf. exact Hu.
Qed.

Lemma existsb_false_Forall {A : Type} (f : A -> bool) (l : list A) :
  existsb f l = false -> Forall (fun x => f x = false) l.
Proof.
  induction l as [|x l IH]; cbn; [constructor|].
  intros H. apply orb_false_elim in H as [Hx Hl]. constructor; auto.
Qed.

Lemma nombre_desactivado eq_id u :
  nombre_equipo
    (if equipo_id u =? eq_id
     then mk_equipo (equipo_id u) (nombre_equipo u) (integrantes u) false
     else u)
  = nombre_equipo u.
Proof. destruct (equipo_id u =? eq_id); reflexivity. Qed.

Lemma insert_equipo_unicos nuevo_id d nombre integrantes d' :
  nombres_unicos mismo_nombre (equipos d) ->
  insert_equipo mismo_nombre nuevo_id d nombre integrantes = Some d' ->
  nombres_unicos mismo_nombre (equipos d').
Proof.
  intros H. unfold insert_equipo.
  destruct (existsb _ (equipos d)) eqn:E; [discriminate|].
  intros E'. injection E' as <-. cbn [equipos con_equipos].
  apply nombres_unicos_app; [exact H|].
  apply existsb_false_Forall in E. exact E.
Qed.

Lemma agregar_equipos_unicos id_de datos : forall k d,
  nombres_unicos mismo_nombre (equipos d) ->
  nombres_unicos mismo_nombre
    (equipos (agregar_equipos_desde_excel mismo_nombre id_de k d datos)).
Proof.
  induction datos as [|[numero integrantes] datos IH]; intros k d H;
    cbn [agregar_equipos_desde_excel]; [exact H|].
  apply IH.
  destruct (insert_equipo mismo_nombre (id_de k) d numero integrantes)
    as [d'|] eqn:E; [|exact H].
  eapply insert_equipo_unicos; eassumption.
Qed.

Lemma paso_equipos_unicos d x :
  nombres_unicos mismo_nombre (equipos d) ->
  nombres_unicos mismo_nombre (equipos (paso_equipos mismo_nombre d x)).
Proof.
  intros H. destruct x as [nuevo_id en_num en_int|eq_id conf|id_de h];
    cbn [paso_equipos].
  - unfold add_equipo.
    destruct (negb (Py.truthy_str (Py.strip en_num))); [exact H|].
    destruct (negb (Py.truthy_str (Py.strip en_int))); [exact H|].
    destruct (insert_equipo mismo_nombre nuevo_id d (Py.strip en_num)
                (Py.upper (Py.strip en_int))) as [d'|] eqn:E; [|exact H].
    cbn [fst]. eapply insert_equipo_unicos; eassumption.
  - unfold remove_equipo. destruct conf; cbn [negb fst]; [|exact H].
    cbn [desactivar_equipo con_equipos equipos].
    apply nombres_unicos_map; [|exact H]. intros u. apply nombre_desactivado.
  - apply agregar_equipos_unicos. exact H.
Qed.

(** X14. The numbers of the teams stay distinct: whatever is added or
    removed in the window of teams, and whatever workbooks are loaded for
    new sessions, no two rows of [equipos], active or not, have the same
    name under the collation of the column. *)
Theorem nombres_de_equipo_unicos acciones : forall d,
  nombres_unicos mismo_nombre (equipos d) ->
  nombres_unicos mismo_nombre
    (equipos (fold_left (paso_equipos mismo_nombre) acciones d)).
Proof.
  induction acciones as [|x acciones IH]; intros d H; cbn [fold_left];
    [exact H|].
  apply IH, paso_equipos_unicos, H.
Qed.

Lemma insert_equipo_retirado n nuevo_id d nombre integrantes d' :
  nombre_retirado mismo_nombre n (equipos d) ->
  insert_equipo mismo_nombre nuevo_id d nombre integrantes = Some d' ->
  nombre_retirado mismo_nombre n (equipos d').
Proof.
  intros [[u0 [Hu0 En]] Hf]. unfold insert_equipo.
  destruct (existsb _ (equipos d)) eqn:E; [discriminate|].
  intros E'. injection E' as <-. cbn [equipos con_equipos]. split.
  - exists u0. split; [apply in_or_app; left; exact Hu0|exact En].
  - apply Forall_app. split; [exact Hf|].
    constructor; [|constructor]. cbn [nombre_equipo equipo_activo].
    apply existsb_false_Forall in E. rewrite Forall_forall in E.
    specialize (E u0 Hu0). cbv beta in E. rewrite En in E.
    intros H. congruence.
Qed.

Lemma agregar_equipos_retirado n id_de datos : forall k d,
  nombre_retirado mismo_nombre n (equipos d) ->
  nombre_retirado mismo_nombre n
    (equipos (agregar_equipos_desde_excel mismo_nombre id_de k d datos)).
Proof.
  induction datos as [|[numero integrantes] datos IH]; intros k d H;
    cbn [agregar_equipos_desde_excel]; [exact H|].
  apply IH.
  destruct (insert_equipo mismo_nombre (id_de k) d numero integrantes)
    as [d'|] eqn:E; [|exact H].
  eapply insert_equipo_retirado; eassumption.
Qed.

Lemma paso_equipos_retirado n d x :
  nombre_retirado mismo_nombre n (equipos d) ->
  nombre_retirado mismo_nombre n (equipos (paso_equipos mismo_nombre d x)).
Proof.
  intros H.
  destruct x as [nuevo_id en_num en_int|eq_id conf|id_de h]; cbn [paso_equipos].
  - unfold add_equipo.
    destruct (negb (Py.truthy_str (Py.strip en_num))); [exact H|].
    destruct (negb (Py.truthy_str (Py.strip en_int))); [exact H|].
    destruct (insert_equipo mismo_nombre nuevo_id d (Py.strip en_num)
                (Py.upper (Py.strip en_int))) as [d'|] eqn:E; [|exact H].
    cbn [fst]. eapply insert_equipo_retirado; eassumption.
  - destruct H as [[u0 [Hu0 En]] Hf].
    unfold remove_equipo. destruct conf; cbn [negb fst];
      [|split; [exists u0; auto|exact Hf]].
    cbn [desactivar_equipo con_equipos equipos]. split.
    + eexists. split; [apply in_map; exact Hu0|].
      rewrite nombre_desactivado. exact En.
    + apply Forall_map. eapply Forall_impl; [|exact Hf]. cbv beta.
      intros u Hu. rewrite nombre_desactivado.
      destruct (equipo_id u =? eq_id); [reflexivity|exact Hu].
  - apply agregar_equipos_retirado. exact H.
Qed.

Lemma correr_equipos_retirado n acciones : forall d,
  nombre_retirado mismo_nombre n (equipos d) ->
  nombre_retirado mismo_nombre n
    (equipos (fold_left (paso_equipos mismo_nombre) acciones d)).
Proof.
  induction acciones as [|x acciones IH]; intros d H; cbn [fold_left];
    [exact H|].
  apply IH, paso_equipos_retirado, H.
Qed.

Lemma desactivar_retira l t :
  (forall x y, mismo_nombre x y = mismo_nombre y x) ->
  nombres_unicos mismo_nombre l -> In t l ->
  nombre_retirado mismo_nombre (nombre_equipo t)
    (map (fun u =>
            if equipo_id u =? equipo_id t
            then mk_equipo (equipo_id u) (nombre_equipo u) (integrantes u) false
            else u) l).
Proof.
  intros Hsym Hu Ht. split.
  - eexists. split; [apply in_map; exact Ht|]. apply nombre_desactivado.
  - apply Forall_map. apply Forall_forall. intros u Hin.
    rewrite nombre_desactivado.
    destruct (Z.eqb_spec (equipo_id u) (equipo_id t)) as [E|E]; [reflexivity|].
    intros Hm. exfalso. revert Hu Ht Hin.
    induction l as [|v l IH]; cbn [nombres_unicos In]; [tauto|].
    intros [Hv Hl] [->|Ht] [->|Hin]; try (apply IH; assumption).
    + congruence.
    + rewrite Forall_forall in Hv. specialize (Hv u Hin). cbv beta in Hv.
      congruence.
    + rewrite Forall_forall in Hv. specialize (Hv t Ht). cbv beta in Hv.
      rewrite Hsym in Hv. congruence.
Qed.

(** X15. A removed team does not come back.  Removing a team only clears
    its [activo]: its row keeps the name, and nothing sets [activo] again.
    So, on a table with distinct names and whatever is done afterwards in
    the window of teams or by loading workbooks that list the team, no
    active team has the name of the removed one, and adding a team under
    that name is refused (by the UNIQUE index, as a number that already
    exists) and changes nothing. *)
Theorem equipo_eliminado_no_vuelve d t acciones nuevo_id en_num en_integrantes :
  (forall x y, mismo_nombre x y = mismo_nombre y x) ->
  nombres_unicos mismo_nombre (equipos d) ->
  In t (equipos d) ->
  mismo_nombre (nombre_equipo t) (Py.strip en_num) = true ->
  let d' :=
    fold_left (paso_equipos mismo_nombre) acciones
      (fst (remove_equipo d (equipo_id t) true)) in
  (forall u, In u (select_equipos_activos d') ->
             mismo_nombre (nombre_equipo t) (nombre_equipo u) = false)
  /\ fst (add_equipo mismo_nombre nuevo_id d' en_num en_integrantes) = d'
  /\ snd (add_equipo mismo_nombre nuevo_id d' en_num en_integrantes)
     <> EquipoAgregado.
Proof.
  intros Hsym Hu Ht Hm d'.
  assert (Hr : nombre_retirado mismo_nombre (nombre_equipo t) (equipos d')).
  { apply correr_equipos_retirado. cbn [remove_equipo negb fst].
    cbn [desactivar_equipo con_equipos equipos].
    apply desactivar_retira; assumption. }
  destruct Hr as [[u0 [Hu0 En]] Hf]. split; [|].
  - intros u Hin. apply filter_In in Hin as [Hin Hact].
    rewrite Forall_forall in Hf. specialize (Hf u Hin). cbv beta in Hf.
    destruct (mismo_nombre (nombre_equipo t) (nombre_equipo u));
      [|reflexivity].
    rewrite Hf in Hact by reflexivity. discriminate.
  - unfold add_equipo.
    destruct (negb (Py.truthy_str (Py.strip en_num)));
      [split; [reflexivity|discriminate]|].
    destruct (negb (Py.truthy_str (Py.strip en_integrantes)));
      [split; [reflexivity|discriminate]|].
    unfold insert_equipo.
    assert (E : existsb
                  (fun u => mismo_nombre (nombre_equipo u) (Py.strip en_num))
                  (equipos d') = true).
    { apply existsb_exists. exists u0. split; [exact Hu0|].
      rewrite En. exact Hm. }
    rewrite E. split; [reflexivity|discriminate].
Qed.

End Equipos.

Lemma sin_caja_sym x y : sin_caja x y = sin_caja y x.
Proof. unfold sin_caja. apply String.eqb_sym. Qed.

Lemma nombres_de_equipo_unicos_testigo :
  nombres_unicos sin_caja
    (equipos (fold_left (paso_equipos sin_caja)
                [AccAdd 3 " 3 " "ana, luis"; AccRemove 1 true;
                 AccAdd 4 "1" "eva";
                 AccExcel (fun k => 5 + Z.of_nat k)
                   (Some [(Some "1", Some "eva"); (Some " 7", None);
                          (None, Some "x"); (Some "nan", None)])] d0)).
Proof.
  apply (nombres_de_equipo_unicos sin_caja).
  vm_compute. repeat constructor.
Defined.

Lemma equipo_eliminado_no_vuelve_testigo :
  fst (add_equipo sin_caja 9
         (fold_left (paso_equipos sin_caja) acciones_ej
            (fst (remove_equipo d0 1 true)))
         " 1 " "eva")
  = fold_left (paso_equipos sin_caja) acciones_ej
      (fst (remove_equipo d0 1 true))
  /\ snd (add_equipo sin_caja 9
            (fold_left (paso_equipos sin_caja) acciones_ej
               (fst (remove_equipo d0 1 true)))
            " 1 " "eva")
     <> EquipoAgregado.
Proof.
  assert (H1 : nombres_unicos sin_caja (equipos d0))
    by (vm_compute; repeat constructor).
  assert (H2 : In (mk_equipo 1 "1" None true) (equipos d0))
    by (left; reflexivity).
  assert (H3 : sin_caja (nombre_equipo (mk_equipo 1 "1" None true))
                 (Py.strip " 1 ") = true) by reflexivity.
  exact (proj2 (equipo_eliminado_no_vuelve sin_caja d0
                  (mk_equipo 1 "1" None true) acciones_ej 9
                  " 1 " "eva" sin_caja_sym H1 H2 H3)).
Defined.

(** ** The filter of lines *)

Lemma In_insertar x y l : In y (insertar x l) <-> y = x \/ In y l.
Proof.
  induction l as [|z l IH]; cbn; [intuition|].
  destruct (String.leb x z); cbn; [intuition|]. rewrite IH. intuition.
Qed.

Lemma In_sorted y l : In y (sorted l) <-> In y l.
Proof.
  unfold sorted. induction l as [|x l IH]; cbn; [tauto|].
  rewrite In_insertar, IH. intuition.
Qed.

Lemma ms_apply_init opciones : ms_apply (ms_init opciones) = sorted opciones.
Proof.
  unfold ms_apply, ms_init. generalize (sorted opciones). intros l.
  induction l as [|x l IH]; cbn; [reflexivity|]. rewrite IH. reflexivity.
Qed.

Lemma ms_apply_select_none vars : ms_apply (select_none vars) = [].
Proof.
  unfold ms_apply, select_none.
  induction vars as [|v vars IH]; cbn; [reflexivity|]. exact IH.
Qed.

Lemma ms_apply_select_all vars : ms_apply (select_all vars) = map fst vars.
Proof.
  unfold ms_apply, select_all.
  induction vars as [|v vars IH]; cbn; [reflexivity|]. rewrite IH. reflexivity.
Qed.

Lemma refresh_all_filtro a :
  app_sesion_id (refresh_all a) = app_sesion_id a /\
  filtro_lineas (refresh_all a) = filtro_lineas a.
Proof.
  unfold refresh_all, sync_update.
  destruct (sync_in_progress (with_sync_counter a 2)); split; reflexivity.
Qed.

Lemma consultas_filtro a b d :
  app_sesion_id b = app_sesion_id a ->
  (forall r, In r (items_corte d) -> where_sesion (app_sesion_id a) r = true ->
             en_filtro (filtro_lineas b) r = en_filtro (filtro_lineas a) r) ->
  consultas b d = consultas a d.
Proof.
  intros Es Hf. unfold consultas. rewrite Es.
  assert (H : forall (g : item -> bool) (h1 h2 : item -> bool) r,
             In r (items_corte d) ->
             (where_sesion (app_sesion_id a) r = true -> h1 r = h2 r) ->
             where_sesion (app_sesion_id a) r && g r && h1 r
             = where_sesion (app_sesion_id a) r && g r && h2 r).
  { intros g h1 h2 r Hr H.
    destruct (where_sesion (app_sesion_id a) r); [|reflexivity].
    rewrite H by reflexivity. reflexivity. }
  f_equal.
  - unfold consulta_kpis.
    rewrite (filter_ext_in_bool
               (fun r => where_sesion (app_sesion_id a) r
                         && en_filtro (filtro_lineas b) r
                         && (stock_sistema r >? 0))
               (fun r => where_sesion (app_sesion_id a) r
                         && en_filtro (filtro_lineas a) r
                         && (stock_sistema r >? 0))); [reflexivity|].
    intros r Hr. specialize (Hf r Hr).
    destruct (where_sesion (app_sesion_id a) r); [|reflexivity].
    rewrite Hf by reflexivity. reflexivity.
  - unfold consulta_pendientes. do 2 f_equal.
    apply filter_ext_in_bool. intros r Hr. specialize (Hf r Hr).
    destruct (where_sesion (app_sesion_id a) r); [|reflexivity].
    rewrite Hf by reflexivity. reflexivity.
  - unfold consulta_diferencias. do 2 f_equal.
    apply filter_ext_in_bool. intros r Hr. specialize (Hf r Hr).
    destruct (where_sesion (app_sesion_id a) r); [|reflexivity].
    rewrite Hf by reflexivity. reflexivity.
Qed.

(** X16. Ticking no line is ticking them all.  The window of lines opens
    with every option ticked; "Ninguna" gives the empty selection, which
    switches the filter off: when every row of the session has one of the
    lines offered, the queries of the pass return the same numbers and the
    same lists for the empty selection and for the full one. *)
Theorem ninguna_es_todas a d opciones :
  (forall r, In r (items_corte d) -> where_sesion (app_sesion_id a) r = true ->
             exists l, linea r = Some l /\ In l opciones) ->
  ms_apply (select_none (ms_init opciones)) = [] /\
  ms_apply (select_all (select_none (ms_init opciones)))
  = ms_apply (ms_init opciones) /\
  consultas (apply_filter a (ms_apply (select_none (ms_init opciones)))) d
  = consultas (apply_filter a (ms_apply (ms_init opciones))) d.
Proof.
  intros H. rewrite ms_apply_select_none, ms_apply_select_all, ms_apply_init.
  split; [reflexivity|]. split.
  - unfold select_none, ms_init. rewrite !map_map. cbn [fst]. apply map_id.
  - unfold apply_filter. apply consultas_filtro.
    + rewrite (proj1 (refresh_all_filtro _)), (proj1 (refresh_all_filtro _)).
      reflexivity.
    + rewrite (proj1 (refresh_all_filtro _)), !(proj2 (refresh_all_filtro _)).
      cbn [with_sesion app_sesion_id filtro_lineas].
      intros r Hr Hw. destruct (H r Hr Hw) as (l & El & Hl).
      unfold en_filtro. rewrite El.
      destruct (sorted opciones) as [|x0 xs] eqn:Es; [reflexivity|].
      rewrite <- Es. symmetry. apply existsb_exists.
      exists l. split; [apply In_sorted; exact Hl|apply String.eqb_refl].
Qed.

Lemma ninguna_es_todas_testigo :
  consultas (apply_filter (app_de cuenta_a1)
               (ms_apply (select_none (ms_init ["L2"; "L1"]))))
    (db_de cuenta_a1)
  = consultas (apply_filter (app_de cuenta_a1) (ms_apply (ms_init ["L2"; "L1"])))
      (db_de cuenta_a1).
Proof.
  apply (ninguna_es_todas (app_de cuenta_a1) (db_de cuenta_a1) ["L2"; "L1"]).
  vm_compute. intros r [<-|[<-|[]]] _; exists "L1"; split; auto.
Defined.

(** ** Counts of several teams *)

Lemma filter_db_guardada now a d s cod cant tipo cant_ant :
  filter (where_sesion_codigo (Some s) cod)
    (items_corte (db_guardada now a d s cod cant tipo cant_ant))
  = map (fila_contada now cant (nota a) (app_equipo_id a))
      (filter (where_sesion_codigo (Some s) cod) (items_corte d)).
Proof.
  cbn [db_guardada items_corte].
  induction (items_corte d) as [|r l IH]; [reflexivity|].
  cbn [map filter].
  destruct (where_sesion_codigo (Some s) cod r) eqn:E.
  - rewrite where_fila_contada, E. cbn [map]. rewrite IH. reflexivity.
  - rewrite E. exact IH.
Qed.

Lemma filter_no_vacio {A : Type} (f : A -> bool) (l : list A) x :
  In x l -> f x = true -> exists y l', filter f l = y :: l' /\ In y l.
Proof.
  intros Hx Hf.
  destruct (filter f l) as [|y l'] eqn:E.
  - assert (H : In x (filter f l)) by (apply filter_In; auto).
    rewrite E in H. destruct H.
  - exists y, l'. split; [reflexivity|].
    assert (H : In y (filter f l)) by (rewrite E; left; reflexivity).
    apply filter_In in H as [H _]. exact H.
Qed.

(** X17. Another team is told, the same team is not.  Once a team has
    saved a positive count for a code, a lookup of that code (in the same
    session, by a client with a team selected and no window open) finds
    the item, and raises the conflict exactly when the team of the client
    is not the one that saved: the box then names that team, the quantity
    saved and the time of the save. *)
Theorem conflicto_tras_conteo now a d s cod cant tipo cant_ant nom p
    b en_codigo resp_conflicto resp_agregar r :
  app_sesion_id a = Some s ->
  pa_nombre (producto_actual a) = Some nom ->
  0 < cant ->
  db_bien_formada d ->
  In p (items_corte d) ->
  where_sesion_codigo (Some s) cod p = true ->
  guardar_conteo now a d cod cant tipo cant_ant = Some r ->
  ventana_abierta b = false ->
  app_sesion_id b = Some s ->
  Py.truthy_id (Some s) = true ->
  Py.truthy_id (app_equipo_id b) = true ->
  validate_codigo en_codigo = Valido cod ->
  snd r = Guardado tipo cant /\
  snd (buscar_producto b (snd (fst r)) en_codigo resp_conflicto resp_agregar)
  = Encontrado
      (if Py.ne_opt (app_equipo_id a) (app_equipo_id b)
       then Some (join_nombre_equipo d (app_equipo_id a), cant, Some now)
       else None).
Proof.
  intros Hs Hn Hc Hb Hp Hw Hg Hv Hsb Hts Hte Hcod.
  rewrite (guardar_conteo_exito now a d cod cant tipo cant_ant s nom Hs Hn)
    in Hg.
  injection Hg as <-. cbn [fst snd]. split; [reflexivity|].
  unfold buscar_producto. rewrite Hv, Hsb, Hts, Hte, Hcod. cbn [negb orb].
  unfold select_item. rewrite filter_db_guardada.
  destruct (filter_no_vacio (where_sesion_codigo (Some s) cod) (items_corte d)
              p Hp Hw) as (y & l' & -> & Hy).
  cbn [map]. cbn [fila_contada producto].
  unfold db_bien_formada in Hb. rewrite Forall_forall in Hb.
  destruct (Hb y Hy) as [_ Hprod].
  destruct (producto y) as [ny|] eqn:Epy; [|congruence].
  assert (Hya : forall q, ya_contado
                  (fila_contada now cant (nota a) (app_equipo_id a) q) = true).
  { intros q. unfold ya_contado. cbn [fila_contada conteo_fisico].
    destruct (Z.eqb_spec cant 0), (Z.gtb_spec cant 0); cbn; try reflexivity; lia. }
  change (mk_item (id y) (sesion_id y) (codigo y) (Some ny) (linea y)
            (stock_sistema y) cant (cant - stock_sistema y) (Some (nota a))
            (Some now) (app_equipo_id a))
    with (fila_contada now cant (nota a) (app_equipo_id a)
            (mk_item (id y) (sesion_id y) (codigo y) (Some ny) (linea y)
               (stock_sistema y) (conteo_fisico y) (diferencia y) (novedad y)
               (fecha_conteo y) (ultimo_equipo_id y))).
  rewrite !Hya. cbn [andb fila_contada ultimo_equipo_id conteo_fisico fecha_conteo].
  destruct (Py.ne_opt (app_equipo_id a) (app_equipo_id b)); reflexivity.
Qed.

Lemma conflicto_tras_conteo_testigo :
  exists r,
    guardar_conteo 105 (app_de busca_a1) (db_de busca_a1) "A1" 1000 NUEVO 0
    = Some r /\
    snd (buscar_producto (with_equipo (app_de busca_a1) (Some 2))
           (snd (fst r)) "a1" true false)
    = Encontrado (Some (Some "1", 1000, Some 105)) /\
    snd (buscar_producto (app_de busca_a1) (snd (fst r)) "a1" true false)
    = Encontrado None.
Proof.
  destruct (guardar_conteo 105 (app_de busca_a1) (db_de busca_a1) "A1" 1000
              NUEVO 0) as [r|] eqn:E; [|vm_compute in E; discriminate].
  exists r. split; [reflexivity|].
  assert (Hb : db_bien_formada (db_de busca_a1))
    by (vm_compute; repeat constructor; cbn; try lia; discriminate).
  assert (Hp : In a1_pendiente (items_corte (db_de busca_a1)))
    by (vm_compute; left; reflexivity).
  split.
  - rewrite (proj2 (conflicto_tras_conteo 105 (app_de busca_a1)
                      (db_de busca_a1) 1 "A1" 1000 NUEVO 0 "Tornillo"
                      a1_pendiente (with_equipo (app_de busca_a1) (Some 2))
                      "a1" true false r eq_refl eq_refl eq_refl Hb Hp
                      eq_refl E eq_refl eq_refl eq_refl eq_refl eq_refl)).
    vm_compute. reflexivity.
  - rewrite (proj2 (conflicto_tras_conteo 105 (app_de busca_a1)
                      (db_de busca_a1) 1 "A1" 1000 NUEVO 0 "Tornillo"
                      a1_pendiente (app_de busca_a1)
                      "a1" true false r eq_refl eq_refl eq_refl Hb Hp
                      eq_refl E eq_refl eq_refl eq_refl eq_refl eq_refl)).
    vm_compute. reflexivity.
Defined.

Lemma db_guardada_conteo now a d s cod cant tipo cant_ant r :
  In r (items_corte (db_guardada now a d s cod cant tipo cant_ant)) ->
  where_sesion_codigo (Some s) cod r = true ->
  conteo_fisico r = cant.
Proof.
  intros Hr Hw. destruct (db_guardada_filas _ _ _ _ _ _ _ _ _ Hr)
    as [[_ (r0 & _ & ->)]|[Hf _]]; [reflexivity|congruence].
Qed.

Lemma sumar_exito now a d s cod ca cn e f nom :
  ventana a = Some (VentanaDuplicado cod ca cn e f) ->
  app_sesion_id a = Some s ->
  pa_nombre (producto_actual a) = Some nom ->
  sumar now a d
  = (close (on_guardado_exitoso a),
     db_guardada now a d s cod (ca + cn) SUMA ca, Guardado SUMA (ca + cn)).
Proof.
  intros Hv Hs Hn. unfold sumar. rewrite Hv.
  rewrite (guardar_conteo_exito now a d cod (ca + cn) SUMA ca s nom Hs Hn).
  reflexivity.
Qed.

(** X18. Two additions on the same reading lose one.  The duplicate
    dialog adds the new quantity to the count it read when it was opened,
    not to the count of the store when SUMAR is pressed.  So when two
    clients have the dialog open for the same code, both on a count
    [ca], and both press SUMAR, the rows end with [ca] plus the quantity
    of the second one only: the quantity of the first is lost, and the
    log has two SUMA movements that both start from [ca]. *)
Theorem suma_concurrente_pierde_una now1 now2 a1 a2 d s cod ca cn1 cn2
    e1 f1 e2 f2 nom1 nom2 :
  ventana a1 = Some (VentanaDuplicado cod ca cn1 e1 f1) ->
  ventana a2 = Some (VentanaDuplicado cod ca cn2 e2 f2) ->
  app_sesion_id a1 = Some s ->
  app_sesion_id a2 = Some s ->
  pa_nombre (producto_actual a1) = Some nom1 ->
  pa_nombre (producto_actual a2) = Some nom2 ->
  let d1 := snd (fst (sumar now1 a1 d)) in
  let d2 := snd (fst (sumar now2 a2 d1)) in
  snd (sumar now1 a1 d) = Guardado SUMA (ca + cn1) /\
  snd (sumar now2 a2 d1) = Guardado SUMA (ca + cn2) /\
  (forall r, In r (items_corte d2) ->
             where_sesion_codigo (Some s) cod r = true ->
             conteo_fisico r = ca + cn2) /\
  historial_movimientos d2
  = (historial_movimientos d
     ++ [mk_movimiento s cod (app_equipo_id a1) SUMA ca (ca + cn1) now1;
         mk_movimiento s cod (app_equipo_id a2) SUMA ca (ca + cn2) now2])%list.
Proof.
  intros Hv1 Hv2 Hs1 Hs2 Hn1 Hn2 d1 d2. subst d1 d2.
  rewrite (sumar_exito now1 a1 d s cod ca cn1 e1 f1 nom1 Hv1 Hs1 Hn1).
  cbn [fst snd].
  rewrite (sumar_exito now2 a2 _ s cod ca cn2 e2 f2 nom2 Hv2 Hs2 Hn2).
  cbn [fst snd]. repeat split.
  - intros r. apply db_guardada_conteo.
  - cbn [db_guardada historial_movimientos]. rewrite <- app_assoc. reflexivity.
Qed.

Lemma suma_concurrente_pierde_una_testigo :
  snd (sumar 121 (cliente_de 1 dos_dialogos)
         (snd (fst (sumar 120 (cliente_de 0 dos_dialogos)
                      (db_de2 dos_dialogos)))))
  = Guardado SUMA (1000 + 300)
  /\ historial_movimientos
       (snd (fst (sumar 121 (cliente_de 1 dos_dialogos)
                    (snd (fst (sumar 120 (cliente_de 0 dos_dialogos)
                                 (db_de2 dos_dialogos)))))))
     = (historial_movimientos (db_de2 dos_dialogos)
        ++ [mk_movimiento 1 "A1" (Some 1) SUMA 1000 (1000 + 200) 120;
            mk_movimiento 1 "A1" (Some 2) SUMA 1000 (1000 + 300) 121])%list.
Proof.
  pose proof (suma_concurrente_pierde_una 120 121 (cliente_de 0 dos_dialogos)
                (cliente_de 1 dos_dialogos) (db_de2 dos_dialogos) 1 "A1" 1000
                200 300 "1" (Some 105) "1" (Some 105) "Tornillo" "Tornillo"
                eq_refl eq_refl eq_refl eq_refl eq_refl eq_refl) as H.
  cbv zeta in H. destruct H as (_ & H2 & _ & H4).
  split; [exact H2|exact H4].
Defined.

(** ** Sessions *)












Lemma select_item_vacio d ses cod r :
  select_item d ses cod = [] -> In r (items_corte d) ->
  where_sesion_codigo ses cod r = false.
Proof.
  unfold select_item. intros E Hr.
  destruct (where_sesion_codigo ses cod r) eqn:Ew; [|reflexivity].
  assert (H : In r (filter (where_sesion_codigo ses cod) (items_corte d)))
    by (apply filter_In; auto).
  destruct (filter (where_sesion_codigo ses cod) (items_corte d));
    [destruct H|discriminate].
Qed.

(** X20. A count can be logged without being stored.  Selecting a
    session does not clear the product that is loaded.  If the session of
    the client has no row with the code that is loaded (the session was
    changed after the lookup), a valid submission is answered as saved, as
    a first count, and a movement is logged for the session, but no row of
    the store is written. *)
Theorem guardado_sin_fila now a d s cod nom en_cantidad cant :
  ventana_abierta a = false ->
  pa_codigo (producto_actual a) = Some cod ->
  pa_nombre (producto_actual a) = Some nom ->
  Py.truthy_str cod = true ->
  app_sesion_id a = Some s ->
  validate_cantidad en_cantidad = Valido cant ->
  select_item d (Some s) cod = [] ->
  pre_save now a d en_cantidad
  = (on_guardado_exitoso a,
     mk_db (items_corte d) (items_auto_increment d) (equipos d)
       (historial_movimientos d
        ++ [mk_movimiento s cod (app_equipo_id a) NUEVO 0 cant now]),
     Guardado NUEVO cant).
Proof.
  intros Hv Hc Hn Ht Hs Hq He.
  rewrite (siguiente_es_nuevo now a d s cod nom en_cantidad cant Hv Hc Hn Ht
             Hs Hq).
  - unfold db_guardada. do 3 f_equal.
    rewrite <- (map_id (items_corte d)) at 2.
    apply map_ext_in. intros r Hr.
    rewrite (select_item_vacio d (Some s) cod r He Hr). reflexivity.
  - intros r Hr Hw. rewrite (select_item_vacio d (Some s) cod r He Hr) in Hw.
    discriminate.
Qed.

Lemma guardado_sin_fila_testigo :
  pre_save 106 (on_select_sesion (app_de busca_a1) 7) (db_de busca_a1)
    (Flotante 300)
  = (on_guardado_exitoso (on_select_sesion (app_de busca_a1) 7),
     mk_db (items_corte (db_de busca_a1))
       (items_auto_increment (db_de busca_a1)) (equipos (db_de busca_a1))
       (historial_movimientos (db_de busca_a1)
        ++ [mk_movimiento 7 "A1"
              (app_equipo_id (on_select_sesion (app_de busca_a1) 7))
              NUEVO 0 300 106]),
     Guardado NUEVO 300).
Proof.
  exact (guardado_sin_fila 106 (on_select_sesion (app_de busca_a1) 7)
           (db_de busca_a1) 7 "A1" "Tornillo" (Flotante 300) 300
           eq_refl eq_refl eq_refl eq_refl eq_refl eq_refl eq_refl).
Defined.

(** ** The cards over the runs *)

Lemma porcentaje_en_rango n m :
  0 <= n <= m -> 0 < m ->
  (0 <= porcentaje n m)%Q /\ (porcentaje n m <= inject_Z 100)%Q.
Proof.
  intros Hn Hm. unfold porcentaje.
  destruct m as [|p|p]; try lia.
  unfold Qle, Qmult, Qdiv, Qinv, Qmult, inject_Z. cbn.
  split; nia.
Qed.

Lemma consulta_kpis_en_rango d sesion filtro :
  kpis_en_rango (consulta_kpis d sesion filtro).
Proof.
  unfold kpis_en_rango. rewrite consulta_kpis_califica. cbv zeta.
  cbn [contados exactos faltantes sobrantes total].
  split; [apply cuenta_contados, califica_stock|].
  repeat split; try apply cuenta_no_negativa. apply cuenta_le_length.
Qed.

Lemma actualizar_tarjetas_en_rango t k :
  tarjetas_en_rango t -> kpis_en_rango k ->
  tarjetas_en_rango (actualizar_tarjetas t k).
Proof.
  intros (A1 & A2 & E1 & E2 & P & F & S & T) (K1 & K2 & K3 & K4 & K5).
  unfold tarjetas_en_rango, actualizar_tarjetas.
  cbn [kpi_avance kpi_exactitud kpi_pendientes kpi_faltantes kpi_sobrantes
       kpi_total].
  assert (Hav : 0 < total k ->
                (0 <= porcentaje (contados k) (total k))%Q /\
                (porcentaje (contados k) (total k) <= inject_Z 100)%Q)
    by (intros; apply porcentaje_en_rango; lia).
  assert (Hex : 0 < contados k ->
                (0 <= porcentaje (exactos k) (contados k))%Q /\
                (porcentaje (exactos k) (contados k) <= inject_Z 100)%Q)
    by (intros; apply porcentaje_en_rango; lia).
  destruct (Z.gtb_spec (total k) 0) as [Ht|Ht],
           (Z.gtb_spec (contados k) 0) as [Hc|Hc];
    repeat split; try assumption;
    try (apply Hav; exact Ht); try (apply Hex; exact Hc); lia.
Qed.

Lemma In_quitar {A : Type} (i : nat) (l : list A) x :
  In x (quitar i l) -> In x l.
Proof.
  revert i. induction l as [|y l IH]; intros [|i]; cbn; auto.
  intros [->|H]; eauto.
Qed.

Lemma In_poner {A : Type} (i : nat) (y : A) (l : list A) x :
  In x (poner i y l) -> x = y \/ In x l.
Proof.
  revert i. induction l as [|z l IH]; intros [|i]; cbn; auto.
  - intros [->|H]; auto.
  - intros [->|H]; auto. destruct (IH i H); auto.
Qed.

Lemma panel_en_rango_ext a b :
  tarjetas b = tarjetas a -> hilos_sync b = hilos_sync a ->
  panel_en_rango a -> panel_en_rango b.
Proof. unfold panel_en_rango. intros -> ->. auto. Qed.

Lemma sync_update_rango a : panel_en_rango a -> panel_en_rango (sync_update a).
Proof.
  intros [Ht Hh]. unfold sync_update.
  destruct (sync_in_progress a); [split; assumption|].
  split; [exact Ht|]. cbn [with_sync hilos_sync]. intros c Hc.
  apply in_app_or in Hc as [Hc|[Hc|[]]]; [auto|discriminate].
Qed.

Lemma refresh_all_rango a : panel_en_rango a -> panel_en_rango (refresh_all a).
Proof.
  intros H. unfold refresh_all. apply sync_update_rango.
  eapply panel_en_rango_ext; [| |exact H]; reflexivity.
Qed.

Lemma sync_loop_tick_rango a :
  panel_en_rango a -> panel_en_rango (sync_loop_tick a).
Proof.
  intros H. unfold sync_loop_tick.
  destruct (Py.truthy_id _); [apply sync_update_rango|]; assumption.
Qed.

Lemma sync_update_background_rango i a d :
  panel_en_rango a -> panel_en_rango (sync_update_background i a d).
Proof.
  intros [Ht Hh]. unfold sync_update_background.
  destruct (nth_error (hilos_sync a) i) as [[|c]|] eqn:E;
    [| |split; assumption].
  - destruct (negb (Py.truthy_id (app_sesion_id a))); split;
      cbn [with_sync hilos_sync tarjetas]; try exact Ht; intros c Hc.
    + apply In_quitar in Hc. auto.
    + apply In_poner in Hc as [Hc|Hc]; [|auto].
      injection Hc as ->. cbn [consultas kpis]. apply consulta_kpis_en_rango.
  - split; cbn [with_sync with_sync_counter with_datos hilos_sync tarjetas].
    + apply actualizar_tarjetas_en_rango; [exact Ht|].
      apply Hh. eapply nth_error_In; exact E.
    + intros c' Hc. apply In_quitar in Hc. auto.
Qed.

Lemma guardar_conteo_rango now a d cod cant tipo cant_ant r :
  panel_en_rango a ->
  guardar_conteo now a d cod cant tipo cant_ant = Some r ->
  panel_en_rango (fst (fst r)).
Proof.
  intros H. unfold guardar_conteo.
  destruct (pa_nombre (producto_actual a)); [|discriminate].
  destruct (exec now _ d) as [d1|e];
    [|intros E; inversion E; exact H].
  destruct (exec now _ d1) as [d2|e]; intros E; inversion E; [|exact H].
  cbn [fst]. unfold on_guardado_exitoso. apply refresh_all_rango.
  eapply panel_en_rango_ext; [| |exact H]; reflexivity.
Qed.

Lemma guardar_en_try_rango now a d cod cant tipo cant_ant :
  panel_en_rango a ->
  panel_en_rango (fst (fst (guardar_en_try now a d cod cant tipo cant_ant))).
Proof.
  intros H. unfold guardar_en_try.
  destruct (guardar_conteo now a d cod cant tipo cant_ant) as [r|] eqn:E;
    [|exact H].
  eapply guardar_conteo_rango; eassumption.
Qed.

Lemma close_rango a : panel_en_rango a -> panel_en_rango (close a).
Proof. intros H. eapply panel_en_rango_ext; [| |exact H]; reflexivity. Qed.

Lemma paso_app_rango now e a d :
  panel_en_rango a -> panel_en_rango (fst (paso_app now e a d)).
Proof.
  intros H. destruct e; cbn [paso_app fst].
  - apply refresh_all_rango.
    eapply panel_en_rango_ext; [| |exact H]; reflexivity.
  - exact H.
  - destruct (Py.truthy_id _); [|exact H]. cbn [fst].
    apply refresh_all_rango.
    eapply panel_en_rango_ext; [| |exact H]; reflexivity.
  - unfold buscar_producto.
    destruct (ventana_abierta a); [exact H|].
    destruct (_ || _); [exact H|].
    destruct (validate_codigo en_codigo) as [cod|msg]; [|exact H].
    destruct (select_item d (app_sesion_id a) cod) as [|[p nombre] l].
    + destruct resp_agregar; [|exact H].
      eapply panel_en_rango_ext; [| |exact H]; reflexivity.
    + destruct (producto p);
        [|eapply panel_en_rango_ext; [| |exact H]; reflexivity].
      destruct (ya_contado p); cbn [andb];
        [destruct (Py.ne_opt _ _); [destruct resp_conflicto|]|];
        (eapply panel_en_rango_ext; [| |exact H]; reflexivity).
  - unfold confirmar. destruct (ventana a) as [[cod|? ? ? ? ?]|]; try exact H.
    destruct (negb _); [exact H|].
    destruct (exec now _ d) as [d1|err]; [|exact H].
    eapply panel_en_rango_ext; [| |exact H]; reflexivity.
  - unfold cerrar_ventana. destruct (ventana a); [|exact H].
    apply close_rango; exact H.
  - unfold pre_save. destruct (ventana_abierta a); [exact H|].
    destruct (pa_codigo (producto_actual a)) as [cod|]; [|exact H].
    destruct (negb _); [exact H|].
    destruct (validate_cantidad en_cantidad) as [cant|msg]; [|exact H].
    destruct (select_item d (app_sesion_id a) cod) as [|x l];
      [apply guardar_en_try_rango; exact H|].
    destruct (conteo_fisico (fst x) >? 0);
      [|apply guardar_en_try_rango; exact H].
    eapply panel_en_rango_ext; [| |exact H]; reflexivity.
  - unfold sumar. destruct (ventana a) as [[cod|cod ca cn en f]|]; try exact H.
    destruct (guardar_conteo now a d cod (ca + cn) SUMA ca)
      as [[[a1 d1] o]|] eqn:E; [|exact H].
    apply close_rango.
    exact (guardar_conteo_rango _ _ _ _ _ _ _ _ H E).
  - unfold reemplazar.
    destruct (ventana a) as [[cod|cod ca cn en f]|]; try exact H.
    destruct (guardar_conteo now a d cod cn REEMPLAZO ca)
      as [[[a1 d1] o]|] eqn:E; [|exact H].
    apply close_rango.
    exact (guardar_conteo_rango _ _ _ _ _ _ _ _ H E).
  - apply sync_loop_tick_rango; exact H.
  - apply refresh_all_rango; exact H.
  - apply sync_update_background_rango; exact H.
  - destruct lineas_sel as [|l0 ls]; [exact H|].
    destruct (save_corte _ _ _ _ _ _); [|exact H]. cbn [fst].
    apply refresh_all_rango.
    eapply panel_en_rango_ext; [| |exact H]; reflexivity.
  - destruct (negb _); [exact H|].
    destruct (actualizar_stock _ _ _ _ _) as [[d1|err]|]; try exact H.
    apply refresh_all_rango; exact H.
Qed.

Lemma paso_rango x s :
  Forall panel_en_rango (fst s) -> Forall panel_en_rango (fst (paso x s)).
Proof.
  destruct x as [[now c] e]. unfold paso. intros H.
  destruct (nth_error (fst s) c) as [a|] eqn:E; [|exact H].
  pose proof (paso_app_rango now e a (snd s)
                (Forall_nth_error _ _ _ _ H E)) as G.
  destruct (paso_app now e a (snd s)) as [a' d']. cbn [fst] in *.
  apply Forall_poner; assumption.
Qed.

Lemma panel_en_rango_inicial : panel_en_rango app_inicial.
Proof.
  split; [|intros c []].
  unfold tarjetas_en_rango. cbn. unfold Qle. cbn. lia.
Qed.

Lemma correr_rango l : forall s,
  Forall panel_en_rango (fst s) -> Forall panel_en_rango (fst (correr l s)).
Proof.
  induction l as [|x l IH]; intros s H; cbn [correr fold_left]; [exact H|].
  apply IH. apply paso_rango. exact H.
Qed.

Lemma arranque_rango n d : Forall panel_en_rango (fst (arranque n d)).
Proof.
  cbn [arranque fst]. apply Forall_forall. intros a Ha.
  apply repeat_spec in Ha. subst. apply panel_en_rango_inicial.
Qed.

(** X21. The cards stay in range.  In every state the clients can reach
    from their start, on any store and whatever the other clients do, the
    progress and the accuracy a client shows are between 0 and 100, the
    pending, short and over cards are not negative, and the short and the
    over items together are at most the total. *)
Theorem tarjetas_siempre_en_rango n d l :
  Forall (fun a => tarjetas_en_rango (tarjetas a))
    (fst (correr l (arranque n d))).
Proof.
  eapply Forall_impl; [|apply correr_rango, arranque_rango].
  intros a [Ha _]. exact Ha.
Qed.

(** ** The log over the runs *)

Lemma ventana_de_conteo_ext a b :
  ventana b = ventana a -> ventana_de_conteo a -> ventana_de_conteo b.
Proof. unfold ventana_de_conteo. intros ->. auto. Qed.

Lemma ventana_refresh_all a : ventana (refresh_all a) = ventana a.
Proof.
  unfold refresh_all, sync_update.
  destruct (sync_in_progress (with_sync_counter a 2)); reflexivity.
Qed.

Lemma exec_items_historial now s d d' :
  (forall ses cod eq tipo ca c, s <> InsertMovimiento ses cod eq tipo ca c) ->
  exec now s d = Exito d' ->
  historial_movimientos d' = historial_movimientos d.
Proof.
  intros Hs. destruct s as [cols|sets w|ses cod eq tipo ca c]; cbn.
  - destruct (existsb es_generada cols); [discriminate|].
    destruct (negb _); [discriminate|].
    destruct (existsb da_null_prohibido cols); [discriminate|].
    intros E. injection E as <-. reflexivity.
  - destruct (existsb es_generada sets); [discriminate|].
    destruct (existsb da_null_prohibido sets); [discriminate|].
    intros E. injection E as <-. reflexivity.
  - exfalso. eapply Hs. reflexivity.
Qed.

Lemma exec_todas_items_historial now l : forall d d',
  Forall (fun s => forall ses cod eq tipo ca c,
                     s <> InsertMovimiento ses cod eq tipo ca c) l ->
  exec_todas now l d = Exito d' ->
  historial_movimientos d' = historial_movimientos d.
Proof.
  induction l as [|s l IH]; intros d d' Hl; cbn [exec_todas].
  - intros E. injection E as <-. reflexivity.
  - inversion Hl as [|? ? Hs Hl']; subst.
    destruct (exec now s d) as [d1|err] eqn:E1; [|discriminate].
    intros E. rewrite (IH d1 d' Hl' E).
    exact (exec_items_historial now s d d1 Hs E1).
Qed.

Lemma guardar_conteo_coherente now a d cod cant tipo cant_ant r :
  (forall s, movimiento_coherente
               (mk_movimiento s cod (app_equipo_id a) tipo cant_ant cant now)) ->
  ventana_de_conteo a -> historial_coherente d ->
  guardar_conteo now a d cod cant tipo cant_ant = Some r ->
  ventana_de_conteo (fst (fst r)) /\ historial_coherente (snd (fst r)).
Proof.
  intros Hm Ha Hd. unfold guardar_conteo.
  destruct (pa_nombre (producto_actual a)); [|discriminate].
  destruct (exec now (sql_update_conteo _ _ _ _ _) d) as [d1|e] eqn:E1;
    [|intros H; inversion H; split; assumption].
  assert (H1 : historial_coherente d1).
  { unfold historial_coherente.
    replace (historial_movimientos d1) with (historial_movimientos d);
      [exact Hd|].
    symmetry. eapply exec_items_historial; [|exact E1]. intros; discriminate. }
  destruct (exec now (sql_insert_historial _ _ _ _ _ _) d1) as [d2|e] eqn:E2;
    intros H; inversion H; cbn [fst snd]; [|split; assumption].
  split.
  - eapply ventana_de_conteo_ext; [|exact Ha].
    unfold on_guardado_exitoso. rewrite ventana_refresh_all. reflexivity.
  - cbn in E2. destruct (app_sesion_id a) as [s0|]; [|discriminate].
    injection E2 as <-. unfold historial_coherente.
    cbn [historial_movimientos]. apply Forall_app. split; [exact H1|].
    constructor; [apply Hm|constructor].
Qed.

Lemma guardar_en_try_coherente now a d cod cant tipo cant_ant :
  (forall s, movimiento_coherente
               (mk_movimiento s cod (app_equipo_id a) tipo cant_ant cant now)) ->
  ventana_de_conteo a -> historial_coherente d ->
  ventana_de_conteo (fst (fst (guardar_en_try now a d cod cant tipo cant_ant)))
  /\ historial_coherente
       (snd (fst (guardar_en_try now a d cod cant tipo cant_ant))).
Proof.
  intros Hm Ha Hd. unfold guardar_en_try.
  destruct (guardar_conteo now a d cod cant tipo cant_ant) as [r|] eqn:E;
    [|split; assumption].
  eapply guardar_conteo_coherente; eassumption.
Qed.

Lemma paso_app_coherente now e a d :
  ventana_de_conteo a -> historial_coherente d ->
  ventana_de_conteo (fst (paso_app now e a d)) /\
  historial_coherente (snd (paso_app now e a d)).
Proof.
  intros Ha Hd. destruct e; cbn [paso_app fst snd].
  - split; [|exact Hd]. eapply ventana_de_conteo_ext; [|exact Ha].
    unfold on_select_sesion. rewrite ventana_refresh_all. reflexivity.
  - split; [|exact Hd]. exact Ha.
  - destruct (Py.truthy_id _); cbn [fst snd]; split; try assumption.
    eapply ventana_de_conteo_ext; [|exact Ha].
    unfold apply_filter. rewrite ventana_refresh_all. reflexivity.
  - (* buscar_producto *)
    split; [|exact Hd]. unfold buscar_producto.
    destruct (ventana_abierta a); [exact Ha|].
    destruct (_ || _); [exact Ha|].
    destruct (validate_codigo en_codigo) as [cod|msg]; [|exact Ha].
    destruct (select_item d (app_sesion_id a) cod) as [|[p nombre] l].
    + destruct resp_agregar; [exact I|exact Ha].
    + destruct (producto p);
        [|eapply ventana_de_conteo_ext; [|exact Ha]; reflexivity].
      destruct (ya_contado p); cbn [andb];
        [destruct (Py.ne_opt _ _); [destruct resp_conflicto|]|];
        (eapply ventana_de_conteo_ext; [|exact Ha]; reflexivity).
  - (* confirmar *)
    unfold confirmar. destruct (ventana a) as [[cod|? ? ? ? ?]|] eqn:Ev;
      cbn [fst snd]; try (split; assumption).
    destruct (negb _); cbn [fst snd]; [split; assumption|].
    destruct (exec now _ d) as [d1|err] eqn:E; cbn [fst snd];
      [|split; assumption].
    split; [exact I|]. unfold historial_coherente.
    replace (historial_movimientos d1) with (historial_movimientos d);
      [exact Hd|].
    symmetry. eapply exec_items_historial; [|exact E]. intros; discriminate.
  - split; [|exact Hd]. unfold cerrar_ventana.
    destruct (ventana a); cbn [fst]; [exact I|exact Ha].
  - (* pre_save *)
    unfold pre_save. destruct (ventana_abierta a); [split; assumption|].
    destruct (pa_codigo (producto_actual a)) as [cod|]; [|split; assumption].
    destruct (negb _); [split; assumption|].
    destruct (validate_cantidad en_cantidad) as [cant|msg] eqn:Ev;
      [|split; assumption].
    pose proof (validate_cantidad_rango _ _ Ev) as Hc.
    assert (Hm : forall s, movimiento_coherente
                   (mk_movimiento s cod (app_equipo_id a) NUEVO 0 cant now)).
    { intros s. split; cbn; [lia|reflexivity]. }
    destruct (select_item d (app_sesion_id a) cod) as [|[p n] l] eqn:Es;
      [apply guardar_en_try_coherente; assumption|].
    cbn [fst].
    destruct (Z.gtb_spec (conteo_fisico p) 0);
      [|apply guardar_en_try_coherente; assumption].
    cbn [fst snd]. split; [|exact Hd].
    unfold ventana_de_conteo, mostrar_dialogo_duplicado. cbn. lia.
  - (* sumar *)
    unfold sumar. destruct (ventana a) as [[cod|cod ca cn en f]|] eqn:Ev;
      try (split; assumption).
    destruct (guardar_conteo now a d cod (ca + cn) SUMA ca)
      as [[[a1 d1] o]|] eqn:E; [|split; assumption].
    assert (Hv : 0 < ca /\ 0 <= cn).
    { unfold ventana_de_conteo in Ha. rewrite Ev in Ha. exact Ha. }
    assert (Hm : forall s, movimiento_coherente
                   (mk_movimiento s cod (app_equipo_id a) SUMA ca (ca + cn) now)).
    { intros s. split; cbn; lia. }
    destruct (guardar_conteo_coherente _ _ _ _ _ _ _ _ Hm Ha Hd E) as [G1 G2].
    cbn [fst snd] in *. split; [exact I|exact G2].
  - (* reemplazar *)
    unfold reemplazar. destruct (ventana a) as [[cod|cod ca cn en f]|] eqn:Ev;
      try (split; assumption).
    destruct (guardar_conteo now a d cod cn REEMPLAZO ca)
      as [[[a1 d1] o]|] eqn:E; [|split; assumption].
    assert (Hv : 0 < ca /\ 0 <= cn).
    { unfold ventana_de_conteo in Ha. rewrite Ev in Ha. exact Ha. }
    assert (Hm : forall s, movimiento_coherente
                   (mk_movimiento s cod (app_equipo_id a) REEMPLAZO ca cn now)).
    { intros s. split; cbn; lia. }
    destruct (guardar_conteo_coherente _ _ _ _ _ _ _ _ Hm Ha Hd E) as [G1 G2].
    cbn [fst snd] in *. split; [exact I|exact G2].
  - split; [|exact Hd]. unfold sync_loop_tick, sync_update.
    eapply ventana_de_conteo_ext; [|exact Ha];
      destruct (Py.truthy_id _); destruct (sync_in_progress a); reflexivity.
  - split; [|exact Hd]. eapply ventana_de_conteo_ext; [|exact Ha].
    apply ventana_refresh_all.
  - split; [|exact Hd]. unfold sync_update_background.
    eapply ventana_de_conteo_ext; [|exact Ha];
      destruct (nth_error (hilos_sync a) i) as [[|c]|];
      try destruct (negb _); reflexivity.
  - (* save_corte *)
    destruct lineas_sel as [|l0 ls]; [split; assumption|].
    destruct (save_corte now d sesion df_maestro (l0 :: ls) stock_calculado)
      as [d1|err] eqn:E; cbn [fst snd]; [|split; assumption].
    split.
    + eapply ventana_de_conteo_ext; [|exact Ha].
      unfold on_select_sesion. rewrite ventana_refresh_all. reflexivity.
    + unfold save_corte in E. unfold historial_coherente.
      replace (historial_movimientos d1) with (historial_movimientos d);
        [exact Hd|].
      symmetry. eapply exec_todas_items_historial; [|exact E].
      apply Forall_flat_map. apply Forall_forall. intros [[cod nom] lin] _.
      destruct (existsb _ _); constructor; [|constructor]. intros; discriminate.
  - (* actualizar_stock *)
    destruct (negb _); [split; assumption|].
    destruct (actualizar_stock now d (app_sesion_id a) stock_calculado confirmado)
      as [[d1|err]|] eqn:E; cbn [fst snd]; try (split; assumption).
    split; [eapply ventana_de_conteo_ext; [|exact Ha];
            apply ventana_refresh_all|].
    unfold actualizar_stock in E.
    destruct stock_calculado as [|x st]; [discriminate|].
    destruct (filter (where_sesion (app_sesion_id a)) (items_corte d))
      as [|i0 its] eqn:Ef; [discriminate|].
    destruct confirmado; cbn [negb] in E; [|discriminate].
    rewrite <- Ef in E.
    assert (H1 : forall x y : resultado db, Some x = Some y -> x = y)
      by (intros x0 y0 E0; congruence).
    apply H1 in E. unfold historial_coherente.
    replace (historial_movimientos d1) with (historial_movimientos d);
      [exact Hd|].
    symmetry. eapply exec_todas_items_historial; [|exact E].
    apply Forall_map. apply Forall_forall. intros it _. intros; discriminate.
Qed.

Lemma paso_coherente x s :
  Forall ventana_de_conteo (fst s) /\ historial_coherente (snd s) ->
  Forall ventana_de_conteo (fst (paso x s)) /\
  historial_coherente (snd (paso x s)).
Proof.
  destruct x as [[now c] e]. unfold paso. intros [Ha Hd].
  destruct (nth_error (fst s) c) as [a|] eqn:E; [|split; assumption].
  pose proof (paso_app_coherente now e a (snd s)
                (Forall_nth_error _ _ _ _ Ha E) Hd) as [G1 G2].
  destruct (paso_app now e a (snd s)) as [a' d']. cbn [fst snd] in *.
  split; [apply Forall_poner|]; assumption.
Qed.

Lemma correr_coherente l : forall s,
  Forall ventana_de_conteo (fst s) /\ historial_coherente (snd s) ->
  Forall ventana_de_conteo (fst (correr l s)) /\
  historial_coherente (snd (correr l s)).
Proof.
  induction l as [|x l IH]; intros s H; cbn [correr fold_left]; [exact H|].
  apply IH. apply paso_coherente. exact H.
Qed.

(** X22. The log stays coherent.  If every movement of the store is
    coherent, so is every movement logged by clients started on it,
    whatever they do: the quantity that results is not negative, a NUEVO
    movement starts from 0, a SUMA and a REEMPLAZO start from a positive
    count, and a SUMA does not lower the count. *)
Theorem historial_siempre_coherente n d l :
  historial_coherente d ->
  historial_coherente (snd (correr l (arranque n d))).
Proof.
  intros Hd. apply correr_coherente. split; [|exact Hd].
  cbn [arranque fst]. apply Forall_forall. intros a Ha.
  apply repeat_spec in Ha. subst. exact I.
Qed.

Lemma historial_siempre_coherente_testigo :
  historial_coherente d0 /\
  historial_coherente (snd (correr dos_dialogos (arranque 2 d0))).
Proof.
  assert (H : historial_coherente d0) by constructor.
  split; [exact H|].
  exact (historial_siempre_coherente 2 d0 dos_dialogos H).
Defined.

(** ** Sessions and their numbers *)

Lemma filas_corte_nuevas sesion stock sel : forall first_id,
  Forall (fun r => sesion_id r = sesion /\ conteo_fisico r = 0)
    (filas_corte sesion stock first_id sel).
Proof.
  induction sel as [|[[cod nom] lin] sel IH]; intros first_id;
    cbn [filas_corte]; constructor; [split; reflexivity|apply IH].
Qed.

Lemma filas_corte_con_stock sesion stock sel : forall first_id,
  List.length
    (filter (fun r => stock_sistema r >? 0)
       (filas_corte sesion stock first_id sel))
  = List.length
      (filter (fun row : string * string * string =>
                 stock_get stock (limpiar_codigo (fst (fst row))) >? 0)
         sel).
Proof.
  induction sel as [|[[cod nom] lin] sel IH]; intros first_id;
    [reflexivity|].
  cbn [filas_corte filter fst stock_sistema].
  destruct (stock_get stock (limpiar_codigo cod) >? 0); cbn [List.length];
    rewrite IH; reflexivity.
Qed.

Lemma cuenta_cero f (l : list item) :
  Forall (fun r => f r = false) l -> cuenta f l = 0.
Proof.
  induction 1 as [|r l Hr Hl IH]; [reflexivity|].
  rewrite cuenta_cons, Hr, IH. reflexivity.
Qed.

Lemma filter_sesion_nueva (g h : item -> bool) sesion l nuevas :
  filter (fun r => sesion_id r =? sesion) l = [] ->
  (forall r, g r = true -> (sesion_id r =? sesion) = true) ->
  (forall r, In r nuevas -> g r = h r) ->
  filter g (l ++ nuevas) = filter h nuevas.
Proof.
  intros Hl Hg Hn. rewrite filter_app.
  replace (filter g l) with (@nil item).
  - cbn [List.app]. apply filter_ext_in_bool. exact Hn.
  - symmetry. destruct (filter g l) as [|r l'] eqn:E; [reflexivity|].
    assert (Hr : In r (filter g l)) by (rewrite E; left; reflexivity).
    apply filter_In in Hr as [Hr Hgr].
    assert (Hin : In r (filter (fun r => sesion_id r =? sesion) l))
      by (apply filter_In; split; [exact Hr|apply Hg; exact Hgr]).
    rewrite Hl in Hin. destruct Hin.
Qed.

(** X23. A new session starts with nothing counted.  When the id of the
    session is new to the store, the KPI query on the session just
    created, without filter, finds as total the rows of the master sheet
    that were selected and have a positive stock in the workbook, and no
    counted, exact, short or over item; the pending list has them all, up
    to its LIMIT. *)
Theorem corte_nuevo_sin_conteos now d sesion df_maestro lineas_sel
    stock_calculado d' :
  lineas_sel <> [] ->
  filas_de_sesion sesion d = [] ->
  save_corte now d sesion df_maestro lineas_sel stock_calculado = Exito d' ->
  consulta_kpis d' (Some sesion) []
  = mk_kpis
      (Z.of_nat
         (List.length
            (filter (fun row : string * string * string =>
                       stock_get stock_calculado
                         (limpiar_codigo (fst (fst row))) >? 0)
               (seleccion lineas_sel df_maestro))))
      0 0 0 0
  /\ Z.of_nat (List.length (consulta_pendientes d' (Some sesion) []))
     = Z.min 100 (total (consulta_kpis d' (Some sesion) [])).
Proof.
  intros Hl Hf E. unfold save_corte in E.
  destruct lineas_sel as [|l0 ls]; [congruence|].
  rewrite exec_todas_filas_corte in E. injection E as <-.
  set (sel := seleccion (l0 :: ls) df_maestro).
  set (nuevas := filas_corte sesion stock_calculado (items_auto_increment d) sel).
  pose proof (filas_corte_nuevas sesion stock_calculado sel
                (items_auto_increment d)) as Hn. fold nuevas in Hn.
  rewrite Forall_forall in Hn.
  assert (Hq : filter (califica (Some sesion) []) (items_corte d ++ nuevas)
               = filter (fun r => stock_sistema r >? 0) nuevas).
  { apply (filter_sesion_nueva _ _ sesion); [exact Hf| |].
    - intros r Hr. unfold califica in Hr. cbn [where_sesion] in Hr.
      apply andb_prop in Hr as [Hr _]. apply andb_prop in Hr as [Hr _].
      exact Hr.
    - intros r Hr. destruct (Hn r Hr) as [Es _]. unfold califica.
      cbn [where_sesion en_filtro]. rewrite Es, Z.eqb_refl. reflexivity. }
  assert (Hp : filter (fun r => where_sesion (Some sesion) r
                                && (conteo_fisico r =? 0)
                                && (stock_sistema r >? 0) && en_filtro [] r)
                 (items_corte d ++ nuevas)
               = filter (fun r => stock_sistema r >? 0) nuevas).
  { apply (filter_sesion_nueva _ _ sesion); [exact Hf| |].
    - intros r Hr. cbn [where_sesion] in Hr.
      apply andb_prop in Hr as [Hr _]. apply andb_prop in Hr as [Hr _].
      apply andb_prop in Hr as [Hr _]. exact Hr.
    - intros r Hr. destruct (Hn r Hr) as [Es Ec].
      cbn [where_sesion en_filtro]. rewrite Es, Ec, Z.eqb_refl.
      cbn [Z.eqb andb]. apply andb_true_r. }
  assert (Hc : Forall (fun r => conteo_fisico r = 0 /\ 0 < stock_sistema r)
                 (filter (fun r => stock_sistema r >? 0) nuevas)).
  { apply Forall_forall. intros r Hr. apply filter_In in Hr as [Hr Hs].
    destruct (Hn r Hr) as [_ Ec]. split; [exact Ec|lia]. }
  assert (Hk : consulta_kpis
                 (mk_db (items_corte d ++ nuevas)
                    (items_auto_increment d + Z.of_nat (List.length sel))
                    (equipos d) (historial_movimientos d)) (Some sesion) []
               = mk_kpis
                   (Z.of_nat
                      (List.length
                         (filter (fun row : string * string * string =>
                                    stock_get stock_calculado
                                      (limpiar_codigo (fst (fst row))) >? 0)
                            sel))) 0 0 0 0).
  { rewrite consulta_kpis_califica. cbv zeta. cbn [items_corte].
    rewrite Hq. unfold nuevas at 1. rewrite filas_corte_con_stock.
    fold nuevas.
    rewrite !cuenta_cero; [reflexivity | idtac ..];
      (eapply Forall_impl; [|exact Hc]); cbv beta; intros r [-> Hs];
      cbn [Z.gtb Z.compare andb]; try apply andb_false_r; try reflexivity;
      destruct (Z.gtb_spec (0 - stock_sistema r) 0); [lia|reflexivity]. }
  split; [exact Hk|].
  rewrite Hk. cbn [total]. unfold consulta_pendientes.
  rewrite length_map, length_firstn_min. cbn [items_corte].
  rewrite Hp. unfold nuevas. rewrite filas_corte_con_stock. reflexivity.
Qed.

Lemma corte_nuevo_sin_conteos_testigo :
  consulta_kpis (db_de segundo_corte) (Some 2) [] = mk_kpis 1 0 0 0 0.
Proof.
  assert (E : save_corte 120 (db_de cuenta_a1) 2 [("c3", "Arandela", "L2")]
                ["L2"] [("C3", 700)] = Exito (db_de segundo_corte))
    by (vm_compute; reflexivity).
  exact (proj1 (corte_nuevo_sin_conteos 120 (db_de cuenta_a1) 2
                  [("c3", "Arandela", "L2")] ["L2"] [("C3", 700)]
                  (db_de segundo_corte) ltac:(discriminate) eq_refl E)).
Defined.



Lemma fila_con_stock_idem v r :
  fila_con_stock v (fila_con_stock v r) = fila_con_stock v r.
Proof. reflexivity. Qed.

(** X25. Updating the stock twice is updating it once: on a store with
    distinct ids, a confirmed update of the stock that succeeded, run
    again with the same workbook on the store it left, succeeds and
    changes nothing. *)
Theorem actualizar_stock_idempotente now now' d ses stock_calculado d1 :
  NoDup (map id (items_corte d)) ->
  actualizar_stock now d ses stock_calculado true = Some (Exito d1) ->
  actualizar_stock now' d1 ses stock_calculado true = Some (Exito d1).
Proof.
  intros Hn E.
  assert (Hs : stock_calculado <> []).
  { intros ->. discriminate. }
  assert (Hi : filter (where_sesion ses) (items_corte d) <> []).
  { intros Hf. unfold actualizar_stock in E. rewrite Hf in E.
    destruct stock_calculado; discriminate. }
  rewrite (actualizar_stock_cerrado now d ses stock_calculado Hn Hs Hi) in E.
  injection E as <-.
  set (f := fun r => if where_sesion ses r
                     then fila_con_stock
                            (stock_get stock_calculado
                               (limpiar_codigo (codigo r))) r
                     else r).
  assert (Hw : forall r, where_sesion ses (f r) = where_sesion ses r).
  { intros r. unfold f. destruct (where_sesion ses r) eqn:Ew; [|exact Ew].
    destruct ses; exact Ew. }
  rewrite actualizar_stock_cerrado.
  - rewrite con_filas_con_filas. do 3 f_equal.
    cbn [con_filas items_corte]. rewrite map_map. apply map_ext. intros r.
    fold (f r). rewrite Hw. unfold f.
    destruct (where_sesion ses r); reflexivity.
  - cbn [con_filas items_corte]. rewrite map_map.
    replace (map (fun x => id (f x)) (items_corte d))
      with (map id (items_corte d)); [exact Hn|].
    apply map_ext. intros r. unfold f.
    destruct (where_sesion ses r); reflexivity.
  - exact Hs.
  - cbn [con_filas items_corte].
    rewrite (filter_map_agree (where_sesion ses) f) by (intros; apply Hw).
    intros Hm. apply map_eq_nil in Hm. contradiction.
Qed.

Lemma actualizar_stock_idempotente_testigo :
  exists d1,
    actualizar_stock 200 (db_de cuenta_a1) (Some 1) [("B2", 900)] true
    = Some (Exito d1) /\
    actualizar_stock 300 d1 (Some 1) [("B2", 900)] true = Some (Exito d1).
Proof.
  destruct (actualizar_stock 200 (db_de cuenta_a1) (Some 1) [("B2", 900)] true)
    as [[d1|err]|] eqn:E; try (vm_compute in E; discriminate).
  exists d1. split; [reflexivity|].
  apply (actualizar_stock_idempotente 200 300 (db_de cuenta_a1) (Some 1)
           [("B2", 900)] d1); [|exact E].
  vm_compute. repeat constructor; cbn; intuition discriminate.
Defined.
